(** * Fire-alarm panel configurator: rule engine and Q&A / multi-panel handler

    A shallow embedding of [cp_sat_rule_engine.py],
    [qanda_processor_and_multi_panel_handler.py] and the sheet handling of
    [excel_reader.py] (column references, the rows built from the cells of a
    sheet, the records of a sheet; unzipping and XML parsing are outside the
    embedding, which starts from the parsed cells).

    Conventions of the embedding:
    - Python [int] is [Z]; Python [float] is an exact rational [Q] (catalogue
      prices and footprints are short decimals); [math.ceil] is [Qceiling].
    - Python [str] is [string], read as ASCII text: [lower], [strip], [isdigit]
      and the regular-expression classes act on the ASCII range.
    - A Python [dict] whose iteration order is observable is an insertion-ordered
      association list ([pydict]); a dict that is only looked up is a [gmap].
    - Printing and logging are dropped. *)

From Stdlib Require Import ZArith QArith Qround Ascii String List Lia Lqa Bool.
From Stdlib Require OrderedTypeEx.
From stdpp Require Import base option list strings gmap pretty.

Open Scope string_scope.
Open Scope Z_scope.

(** ** Python string primitives *)

Module Py.

Definition code (c : ascii) : N := N_of_ascii c.

Definition isdigit (c : ascii) : bool := ((48 <=? code c) && (code c <=? 57))%N.

Definition isupper (c : ascii) : bool := ((65 <=? code c) && (code c <=? 90))%N.

(** [str.isspace] on the ASCII range: TAB LF VT FF CR, FS GS RS US, SPACE. *)
Definition isspace (c : ascii) : bool :=
  (((9 <=? code c) && (code c <=? 13)) || ((28 <=? code c) && (code c <=? 32)))%N.

Definition lower_char (c : ascii) : ascii :=
  if isupper c then ascii_of_N (code c + 32) else c.

Fixpoint lower (s : string) : string :=
  match s with
  | EmptyString => EmptyString
  | String c s' => String (lower_char c) (lower s')
  end.

Fixpoint lstrip (s : string) : string :=
  match s with
  | EmptyString => EmptyString
  | String c s' => if isspace c then lstrip s' else s
  end.

Fixpoint rstrip (s : string) : string :=
  match s with
  | EmptyString => EmptyString
  | String c s' =>
      match rstrip s' with
      | EmptyString => if isspace c then EmptyString else String c EmptyString
      | r => String c r
      end
  end.

Definition strip (s : string) : string := rstrip (lstrip s).

(** [needle in hay] for strings. *)
Fixpoint contains (needle hay : string) : bool :=
  String.prefix needle hay ||
  match hay with
  | EmptyString => false
  | String _ hay' => contains needle hay'
  end.

(** [sep.join(parts)]. *)
Fixpoint join (sep : string) (parts : list string) : string :=
  match parts with
  | [] => EmptyString
  | [p] => p
  | p :: rest => p ++ sep ++ join sep rest
  end.

(** [''.join(c for c in s if keep c)]. *)
Fixpoint filter_chars (keep : ascii -> bool) (s : string) : string :=
  match s with
  | EmptyString => EmptyString
  | String c s' => if keep c then String c (filter_chars keep s') else filter_chars keep s'
  end.

(** [s.replace(" ", "")]. *)
Definition remove_spaces (s : string) : string :=
  filter_chars (fun c => negb (Ascii.eqb c " ")) s.

Definition truthy_str (s : string) : bool := negb (String.eqb s "").

(** Value of a run of decimal digits. *)
Definition digit_val (c : ascii) : Z := Z.of_N (code c) - 48.

Fixpoint digits_acc (acc : Z) (s : string) : Z :=
  match s with
  | EmptyString => acc
  | String c s' => digits_acc (10 * acc + digit_val c) s'
  end.

Definition all_digits (s : string) : bool :=
  String.eqb (filter_chars isdigit s) s.

(** [int(s)] for a string made of digits only: [None] is [ValueError]. *)
Definition int_of_digits (s : string) : option Z :=
  if truthy_str s && all_digits s then Some (digits_acc 0 s) else None.

(** Splits at the first occurrence of [sep]. *)
Fixpoint split_first (sep : ascii) (s : string) : string * option string :=
  match s with
  | EmptyString => (EmptyString, None)
  | String c s' =>
      if Ascii.eqb c sep then (EmptyString, Some s')
      else let '(a, b) := split_first sep s' in (String c a, b)
  end.

Definition decimal_value (whole frac : string) : Q :=
  (inject_Z (digits_acc 0 whole)
   + inject_Z (digits_acc 0 frac) / inject_Z (10 ^ Z.of_nat (String.length frac)))%Q.

(** [float(s)] for a string made of digits and dots: a number needs at least
  one digit and at most one dot; [None] is [ValueError]. *)
Definition float_of_decimal (s : string) : option Q :=
  match split_first "." s with
  | (whole, None) =>
      if truthy_str whole && all_digits whole then Some (inject_Z (digits_acc 0 whole)) else None
  | (whole, Some frac) =>
      if all_digits whole && all_digits frac && (truthy_str whole || truthy_str frac)
      then Some (decimal_value whole frac) else None
  end.

(** [math.ceil]. *)
Definition ceil (q : Q) : Z := Qceiling q.

(** [a / b] on integers is true division. *)
Definition truediv (a b : Z) : Q := (inject_Z a / inject_Z b)%Q.

Definition Qpos_b (q : Q) : bool := negb (Qle_bool q 0).
Definition Qlt_b (a b : Q) : bool := negb (Qle_bool b a).
(** [max(a, b)] keeps its first argument unless the second is greater. *)
Definition Qmax (a b : Q) : Q := if Qlt_b a b then b else a.
Definition Qnonzero (q : Q) : bool := negb (Qeq_bool q 0).

(** [round(q)]: to the nearest integer, ties to the even one. *)
Definition round (q : Q) : Z :=
  let f := Qfloor q in
  let r := (q - inject_Z f)%Q in
  if Qlt_b r (1 # 2) then f
  else if Qlt_b (1 # 2) r then f + 1
  else if Z.even f then f else f + 1.

(** [s.split(sep)] for a one-character separator. *)
Fixpoint split (sep : ascii) (s : string) : list string :=
  match s with
  | EmptyString => [EmptyString]
  | String c s' =>
      if Ascii.eqb c sep then EmptyString :: split sep s'
      else match split sep s' with
           | [] => [String c EmptyString]
           | part :: parts => String c part :: parts
           end
  end.

(** [float(s)] for a string made of digits, dots and minus signs: an optional
    leading minus sign, then a decimal number. *)
Definition float_of_signed_decimal (s : string) : option Q :=
  match s with
  | String "-" rest =>
      match float_of_decimal rest with
      | Some q => Some (- q)%Q
      | None => None
      end
  | _ => float_of_decimal s
  end.

End Py.

(** ** Insertion-ordered dictionaries with string keys *)

Section PyDict.
Context {V : Type}.

Definition pydict := list (string * V).

Fixpoint dict_get (d : pydict) (k : string) : option V :=
  match d with
  | [] => None
  | (k', v) :: d' => if String.eqb k' k then Some v else dict_get d' k
  end.

(** [d[k] = v]: an existing key keeps its position, a new key goes last. *)
Fixpoint dict_set (d : pydict) (k : string) (v : V) : pydict :=
  match d with
  | [] => [(k, v)]
  | (k', v') :: d' =>
      if String.eqb k' k then (k', v) :: d' else (k', v') :: dict_set d' k v
  end.

Definition dict_keys (d : pydict) : list string := map fst d.

Definition dict_get_or (d : pydict) (k : string) (dflt : V) : V :=
  default dflt (dict_get d k).

End PyDict.

Arguments pydict V : clear implicits.

(** ** qanda_processor_and_multi_panel_handler.py: data structures *)

Inductive ProtocolType := IDNET2 | MX.

Definition ProtocolType_value (p : ProtocolType) : string :=
  match p with IDNET2 => "idnet2" | MX => "mx" end.

Inductive PanelSeries := PANEL_4100ES | PANEL_4007ES | PANEL_4010ES.

Inductive AudioType := NO_AUDIO | BASIC_AUDIO | VOICE_EVACUATION.

Definition AudioType_name (a : AudioType) : string :=
  match a with
  | NO_AUDIO => "NO_AUDIO"
  | BASIC_AUDIO => "BASIC_AUDIO"
  | VOICE_EVACUATION => "VOICE_EVACUATION"
  end.

Definition AudioType_eqb (a b : AudioType) : bool :=
  match a, b with
  | NO_AUDIO, NO_AUDIO | BASIC_AUDIO, BASIC_AUDIO | VOICE_EVACUATION, VOICE_EVACUATION => true
  | _, _ => false
  end.

Module ProjectAnswers.
Record t := mk {
  has_short_circuit_isolator : bool;
  has_soft_addressable : bool;
  has_loop_powered_sounder : bool;
  detection_notification_same_loop : bool;
  no_separate_notification_wiring : bool;
  protocol : ProtocolType;
  has_voice_evacuation : bool;
  has_speakers : bool;
  has_horns : bool;
  audio_type : AudioType;
  speaker_wattage : Q;
  dual_amplifier_per_zone : bool;
  constant_supervision_speaker : bool;
  backup_amplifier_one_to_one : bool;
  backup_amplifier_one_for_all : bool;
  speakers_with_visual : bool;
  use_addressable_nac : bool;
  nac_class_a_wiring : bool;
  display_type : string;
  has_fire_phone : bool;
  fire_phone_jack_count : Z;
  speaker_class_a_wiring : bool;
  has_panel_printer : bool;
  has_graphics_command_center : bool;
  network_type : string;
  graphics_software_type : string;
  annunciator_type : string;
  remote_annunciator_with_audio_control : bool;
  has_smoke_management : bool;
  smoke_management_relay_count : Z;
  door_holder_voltage : string;
  monitor_modules_with_leds : bool;
  fire_damper_feedback : bool;
  fire_damper_led_indication : bool;
  audio_control_led_switches : bool;
}.

(** [ProjectAnswers()]: the dataclass defaults. *)
Definition new : t :=
  mk false false false false false IDNET2
     false false false NO_AUDIO
     0%Q false false false false false
     false false "2x40_lcd" false 0 false
     false false "none" "none" "none" false
     false 0 "24vdc" false false false false.
End ProjectAnswers.

Module DeviceBOQ.
Record t := mk {
  smoke_detector : Z;
  heat_detector : Z;
  duct_detector : Z;
  beam_detector : Z;
  manual_station : Z;
  horn_strobe : Z;
  strobe_only : Z;
  horn_only : Z;
  addressable_horn_strobe : Z;
  addressable_strobe : Z;
  speaker : Z;
  speaker_strobe : Z;
  monitor_module : Z;
  control_relay : Z;
  fire_phone_jack : Z;
  remote_annunciator : Z;
  simplex_devices : option (gmap string Z);
}.

Definition new : t := mk 0 0 0 0 0 0 0 0 0 0 0 0 0 0 0 0 None.

(** The integer fields, by name, in declaration order. *)
Definition fields : list (string * (t -> Z)) :=
  [ ("smoke_detector", smoke_detector); ("heat_detector", heat_detector);
    ("duct_detector", duct_detector); ("beam_detector", beam_detector);
    ("manual_station", manual_station); ("horn_strobe", horn_strobe);
    ("strobe_only", strobe_only); ("horn_only", horn_only);
    ("addressable_horn_strobe", addressable_horn_strobe);
    ("addressable_strobe", addressable_strobe);
    ("speaker", speaker); ("speaker_strobe", speaker_strobe);
    ("monitor_module", monitor_module); ("control_relay", control_relay);
    ("fire_phone_jack", fire_phone_jack); ("remote_annunciator", remote_annunciator) ].
End DeviceBOQ.

(** Values stored in a constraints dictionary. *)
Inductive PyVal :=
  | VBool (b : bool)
  | VInt (n : Z)
  | VFloat (q : Q)
  | VStr (s : string).

Module PanelConfiguration.
Record t := mk {
  panel_id : string;
  panel_series : PanelSeries;
  boq : DeviceBOQ.t;
  constraints : gmap string PyVal;
  is_main_panel : bool;
  is_remote_annunciator : bool;
}.

Definition with_panel_id (c : t) (id : string) : t :=
  mk id (panel_series c) (boq c) (constraints c) (is_main_panel c) (is_remote_annunciator c).
End PanelConfiguration.

(** ** QandAProcessor *)

Module QandAProcessor.
Import ProjectAnswers.

(** [answers.get(k) == s]. *)
Definition get_is (answers : gmap Z string) (k : Z) (s : string) : bool :=
  match answers !! k with
  | Some v => String.eqb v s
  | None => false
  end.

(** [answers.get(k, dflt)]. *)
Definition get_or (answers : gmap Z string) (k : Z) (dflt : string) : string :=
  default dflt (answers !! k).

(** The normalised answers: [{k: str(v).lower().strip()}]. *)
Definition normalise (answers_dict : gmap Z string) : gmap Z string :=
  (fun v => Py.strip (Py.lower v)) <$> answers_dict.

(** [process_answers]: [self_answers] is [self.answers] on entry; fields that
    the method assigns only in some branch keep their previous value. *)
Definition process_answers (self_answers : t) (answers_dict : gmap Z string) : t :=
  let answers := normalise answers_dict in
  let q2 := get_is answers 2 "yes" in
  let q3 := get_is answers 3 "yes" in
  let q5 := get_is answers 5 "yes" in
  let q6 := get_is answers 6 "yes" in
  let q7 := get_is answers 7 "yes" in
  let proto := if q2 || q3 || q5 || q6 || q7 then MX else IDNET2 in
  let voice := get_is answers 8 "yes" in
  let speakers_and_horns := get_is answers 10 "yes" in
  let audio := if voice then VOICE_EVACUATION
               else if speakers_and_horns then VOICE_EVACUATION else NO_AUDIO in
  let speakers := if voice then true
                  else if speakers_and_horns then true else has_speakers self_answers in
  let horns := if voice then has_horns self_answers
               else if speakers_and_horns then true else has_horns self_answers in
  let display_answer := Py.lower (get_or answers 13 "") in
  let display := if Py.contains "touch" display_answer || Py.contains "tsd" display_answer
                 then "touch_screen" else "2x40_lcd" in
  let wattage_str := get_or answers 20 "0" in
  let wattage :=
    default 0%Q
      (Py.float_of_decimal
         (Py.filter_chars (fun c => Py.isdigit c || Ascii.eqb c ".") wattage_str)) in
  let annunciator_answer := Py.lower (get_or answers 25 "") in
  let annunciator :=
    if Py.contains "lcd" annunciator_answer || Py.contains "rui" annunciator_answer then "lcd"
    else if Py.contains "led" annunciator_answer then "led"
    else if Py.contains "mimic" annunciator_answer then "mimic"
    else annunciator_type self_answers in
  let relay_str := get_or answers 26 "0" in
  let relays := default 0 (Py.int_of_digits (Py.filter_chars Py.isdigit relay_str)) in
  let network_answer := Py.lower (get_or answers 27 "") in
  let network :=
    if Py.contains "smfo" network_answer || Py.contains "single" network_answer then "smfo"
    else if Py.contains "mmfo" network_answer || Py.contains "multi" network_answer then "mmfo"
    else if Py.contains "ethernet" network_answer || Py.contains "wired" network_answer
         then "ethernet"
    else network_type self_answers in
  let door_answer := Py.lower (get_or answers 28 "") in
  let door := if Py.contains "220" door_answer || Py.contains "ac" door_answer
              then "220vac" else door_holder_voltage self_answers in
  let graphics_answer := Py.lower (get_or answers 29 "") in
  let graphics :=
    if Py.contains "full" graphics_answer || Py.contains "control" graphics_answer
       || Py.contains "disable" graphics_answer then "full_control"
    else if Py.contains "view" graphics_answer || Py.contains "economic" graphics_answer
         then "view_only"
    else graphics_software_type self_answers in
  {| has_short_circuit_isolator := q2;
     has_soft_addressable := q3;
     has_loop_powered_sounder := q5;
     detection_notification_same_loop := q6;
     no_separate_notification_wiring := q7;
     protocol := proto;
     has_voice_evacuation := voice;
     has_speakers := speakers;
     has_horns := horns;
     audio_type := audio;
     speaker_wattage := wattage;
     dual_amplifier_per_zone := get_is answers 18 "yes";
     constant_supervision_speaker := get_is answers 19 "yes";
     backup_amplifier_one_to_one := get_is answers 21 "yes";
     backup_amplifier_one_for_all := get_is answers 22 "yes";
     speakers_with_visual := get_is answers 30 "yes";
     use_addressable_nac := get_is answers 11 "yes" || get_is answers 12 "yes";
     nac_class_a_wiring := get_is answers 15 "yes";
     display_type := display;
     has_fire_phone := get_is answers 14 "yes";
     fire_phone_jack_count := fire_phone_jack_count self_answers;
     speaker_class_a_wiring := get_is answers 16 "yes";
     has_panel_printer := get_is answers 23 "yes";
     has_graphics_command_center := get_is answers 24 "yes";
     network_type := network;
     graphics_software_type := graphics;
     annunciator_type := annunciator;
     remote_annunciator_with_audio_control := get_is answers 35 "yes";
     has_smoke_management := get_is answers 26 "yes";
     smoke_management_relay_count := relays;
     door_holder_voltage := door;
     monitor_modules_with_leds := get_is answers 31 "yes";
     fire_damper_feedback := get_is answers 32 "yes";
     fire_damper_led_indication := get_is answers 33 "yes";
     audio_control_led_switches := get_is answers 34 "yes" |}.

Definition ProtocolType_eqb (a b : ProtocolType) : bool :=
  match a, b with IDNET2, IDNET2 | MX, MX => true | _, _ => false end.

(** [to_cpsat_constraints]: the ["audio_type"] entry is [None] without audio
    and is then removed. *)
Definition to_cpsat_constraints (a : t) : gmap string PyVal :=
  let always : gmap string PyVal :=
    list_to_map
      [ ("protocol", VStr (ProtocolType_value (protocol a)));
        ("prefer_idnet2", VBool (ProtocolType_eqb (protocol a) IDNET2));
        ("prefer_mx", VBool (ProtocolType_eqb (protocol a) MX));
        ("voice_evacuation", VBool (AudioType_eqb (audio_type a) VOICE_EVACUATION));
        ("speaker_wattage_total", VFloat (speaker_wattage a));
        ("dual_amplifier_per_zone", VBool (dual_amplifier_per_zone a));
        ("constant_supervision_speaker", VBool (constant_supervision_speaker a));
        ("backup_amplifier_one_to_one", VBool (backup_amplifier_one_to_one a));
        ("backup_amplifier_one_for_all", VBool (backup_amplifier_one_for_all a));
        ("speakers_with_visual", VBool (speakers_with_visual a));
        ("prefer_addressable_nac", VBool (use_addressable_nac a));
        ("nac_class_a_wiring", VBool (nac_class_a_wiring a));
        ("speaker_class_a_wiring", VBool (speaker_class_a_wiring a));
        ("display_type", VStr (display_type a));
        ("fire_phone_required", VBool (has_fire_phone a));
        ("fire_phone_jack_count", VInt (fire_phone_jack_count a));
        ("printer_required", VBool (has_panel_printer a));
        ("network_connection",
          VBool (has_graphics_command_center a
                 || negb (String.eqb (network_type a) "none")));
        ("network_type", VStr (network_type a));
        ("graphics_command_center", VBool (has_graphics_command_center a));
        ("graphics_software_type", VStr (graphics_software_type a));
        ("annunciator_type", VStr (annunciator_type a));
        ("remote_annunciator_with_audio", VBool (remote_annunciator_with_audio_control a));
        ("smoke_management", VBool (has_smoke_management a));
        ("smoke_management_relay_count", VInt (smoke_management_relay_count a));
        ("door_holder_voltage", VStr (door_holder_voltage a));
        ("monitor_modules_with_leds", VBool (monitor_modules_with_leds a));
        ("fire_damper_feedback", VBool (fire_damper_feedback a));
        ("fire_damper_led_indication", VBool (fire_damper_led_indication a));
        ("audio_control_led_switches", VBool (audio_control_led_switches a)) ] in
  if AudioType_eqb (audio_type a) NO_AUDIO then always
  else <["audio_type" := VStr "analog"]> always.
End QandAProcessor.

(** ** MultiPanelBOQHandler *)

Module MultiPanelBOQHandler.
Import DeviceBOQ.

Definition share (q num_panels : Z) : Z := Py.ceil (Py.truediv q num_panels).

(** The BOQ built in one iteration of the loop of [_divide_equal]. *)
Definition panel_boq (total_boq : t) (num_panels : Z) : t :=
  {| smoke_detector := share (smoke_detector total_boq) num_panels;
     heat_detector := share (heat_detector total_boq) num_panels;
     duct_detector := share (duct_detector total_boq) num_panels;
     beam_detector := share (beam_detector total_boq) num_panels;
     manual_station := share (manual_station total_boq) num_panels;
     horn_strobe := share (horn_strobe total_boq) num_panels;
     strobe_only := share (strobe_only total_boq) num_panels;
     horn_only := share (horn_only total_boq) num_panels;
     addressable_horn_strobe := share (addressable_horn_strobe total_boq) num_panels;
     addressable_strobe := share (addressable_strobe total_boq) num_panels;
     speaker := share (speaker total_boq) num_panels;
     speaker_strobe := share (speaker_strobe total_boq) num_panels;
     monitor_module := share (monitor_module total_boq) num_panels;
     control_relay := share (control_relay total_boq) num_panels;
     fire_phone_jack := share (fire_phone_jack total_boq) num_panels;
     remote_annunciator := 0;
     simplex_devices := None |}.

(** [_divide_equal]: one BOQ per [panel_idx in range(num_panels)]. *)
Definition _divide_equal (total_boq : t) (num_panels : Z) : list t :=
  map (fun _ : nat => panel_boq total_boq num_panels) (seq 0 (Z.to_nat num_panels)).

(** [_divide_balanced] only warns, then divides equally. *)
Definition _divide_balanced (total_boq : t) (num_panels : Z) : list t :=
  _divide_equal total_boq num_panels.

(** [divide_boq]: [None] is the [ValueError] for an unknown strategy. *)
Definition divide_boq (total_boq : t) (num_panels : Z) (strategy : string) : option (list t) :=
  if String.eqb strategy "equal" then Some (_divide_equal total_boq num_panels)
  else if String.eqb strategy "balanced" then Some (_divide_balanced total_boq num_panels)
  else None.
End MultiPanelBOQHandler.

(** ** RemoteAnnunciatorHandler *)

Module RemoteAnnunciatorHandler.

Definition is_str (v : option PyVal) (s : string) : bool :=
  match v with
  | Some (VStr s') => String.eqb s' s
  | _ => false
  end.

Definition create_annunciator_config
    (main_panel_constraints : gmap string PyVal)
    (has_audio_control has_microphone has_led_switches : bool) : PanelConfiguration.t :=
  let annunciator_boq :=
    DeviceBOQ.mk 0 0 0 0 0 0 0 0 0 0 0 0 0 0 0 1 None in
  let annunciator_constraints : gmap string PyVal :=
    list_to_map
      [ ("panel_type", VStr "remote_annunciator");
        ("protocol", default (VStr "idnet2") (main_panel_constraints !! "protocol"));
        ("display_type",
          VStr (if is_str (main_panel_constraints !! "display_type") "touch_screen"
                then "touch_screen" else "2x40_lcd"));
        ("network_connection", VBool true) ] in
  let annunciator_constraints :=
    if has_audio_control then
      <["panel_type" := VStr "remote_annunciator_with_incident_commander"]>
        (<["audio_led_switches" := VBool has_led_switches]>
           (<["audio_microphone" := VBool has_microphone]>
              (<["has_audio_control" := VBool true]> annunciator_constraints)))
    else annunciator_constraints in
  {| PanelConfiguration.panel_id := "ANNUNCIATOR-1";
     PanelConfiguration.panel_series := PANEL_4100ES;
     PanelConfiguration.boq := annunciator_boq;
     PanelConfiguration.constraints := annunciator_constraints;
     PanelConfiguration.is_main_panel := false;
     PanelConfiguration.is_remote_annunciator := true |}.
End RemoteAnnunciatorHandler.

(** ** ProjectConfigurator *)

Module ProjectConfigurator.

(** The configurator's state; [qa_processor] is represented by the answers it
    produced. *)
Record t := mk {
  project_answers : option ProjectAnswers.t;
  panel_configurations : list PanelConfiguration.t;
}.

Definition new : t := mk None [].

(** [f"{prefix}{idx + 1}"]. *)
Definition numbered (prefix : string) (idx : nat) : string :=
  prefix ++ pretty (Z.of_nat idx + 1).

Definition main_config (base_constraints : gmap string PyVal)
    (idx : nat) (panel_boq : DeviceBOQ.t) : PanelConfiguration.t :=
  {| PanelConfiguration.panel_id := numbered "PANEL-" idx;
     PanelConfiguration.panel_series := PANEL_4100ES;
     PanelConfiguration.boq := panel_boq;
     PanelConfiguration.constraints := base_constraints;
     PanelConfiguration.is_main_panel := true;
     PanelConfiguration.is_remote_annunciator := false |}.

(** The configurations appended by step 5 of [process_project]. *)
Definition annunciator_configs (answers : ProjectAnswers.t)
    (base_constraints : gmap string PyVal) (total_boq : DeviceBOQ.t)
    : list PanelConfiguration.t :=
  let audio :=
    if ProjectAnswers.remote_annunciator_with_audio_control answers then
      [ RemoteAnnunciatorHandler.create_annunciator_config base_constraints true
          (ProjectAnswers.audio_control_led_switches answers)
          (ProjectAnswers.audio_control_led_switches answers) ]
    else [] in
  let standard :=
    if (0 <? DeviceBOQ.remote_annunciator total_boq)
       && negb (ProjectAnswers.remote_annunciator_with_audio_control answers)
    then
      map (fun idx : nat =>
             PanelConfiguration.with_panel_id
               (RemoteAnnunciatorHandler.create_annunciator_config
                  base_constraints false false false)
               (numbered "ANNUNCIATOR-" idx))
          (seq 0 (Z.to_nat (DeviceBOQ.remote_annunciator total_boq)))
    else [] in
  (audio ++ standard)%list.

(** [process_project]. [workbook_readable] says whether the Q&A workbook
    loads; when it does not, [QandAProcessor.__init__] raises and the result
    is [None]. The result holds the updated configurator and the returned
    list, which is [self.panel_configurations]. *)
Definition process_project (self : t) (workbook_readable : bool)
    (qa_answers : gmap Z string) (total_boq : DeviceBOQ.t) (num_panels : Z)
    : option (t * list PanelConfiguration.t) :=
  if negb workbook_readable then None else
  let answers := QandAProcessor.process_answers ProjectAnswers.new qa_answers in
  let base_constraints := QandAProcessor.to_cpsat_constraints answers in
  let base_constraints :=
    if 0 <? DeviceBOQ.fire_phone_jack total_boq then
      <["fire_phone_circuits" :=
          VInt (Py.ceil (Py.truediv (DeviceBOQ.fire_phone_jack total_boq) 10))]>
        (<["fire_phone_jack_count" := VInt (DeviceBOQ.fire_phone_jack total_boq)]>
           base_constraints)
    else base_constraints in
  let panel_boqs :=
    if 1 <? num_panels
    then MultiPanelBOQHandler._divide_equal total_boq num_panels
    else [total_boq] in
  let mains := imap (main_config base_constraints) panel_boqs in
  let configs :=
    (panel_configurations self ++ mains
     ++ annunciator_configs answers base_constraints total_boq)%list in
  Some (mk (Some answers) configs, configs).

(** The BOQ dictionary of [get_cpsat_inputs]: fourteen of the sixteen device
    fields, the zero (and negative) quantities removed. *)
Definition boq_dict (boq : DeviceBOQ.t) : pydict Z :=
  List.filter (fun kv : string * Z => 0 <? snd kv)
    [ ("smoke_detector", DeviceBOQ.smoke_detector boq);
      ("heat_detector", DeviceBOQ.heat_detector boq);
      ("duct_detector", DeviceBOQ.duct_detector boq);
      ("beam_detector", DeviceBOQ.beam_detector boq);
      ("manual_station", DeviceBOQ.manual_station boq);
      ("horn_strobe", DeviceBOQ.horn_strobe boq);
      ("strobe_only", DeviceBOQ.strobe_only boq);
      ("horn_only", DeviceBOQ.horn_only boq);
      ("addressable_horn_strobe", DeviceBOQ.addressable_horn_strobe boq);
      ("speaker", DeviceBOQ.speaker boq);
      ("speaker_strobe", DeviceBOQ.speaker_strobe boq);
      ("monitor_module", DeviceBOQ.monitor_module boq);
      ("control_relay", DeviceBOQ.control_relay boq);
      ("fire_phone_jack", DeviceBOQ.fire_phone_jack boq) ].

Definition get_cpsat_inputs (self : t) : list (pydict Z * gmap string PyVal) :=
  map (fun config =>
         (boq_dict (PanelConfiguration.boq config), PanelConfiguration.constraints config))
    (panel_configurations self).
End ProjectConfigurator.

(** ** cp_sat_rule_engine.py: data structures *)

Module ModuleDefinition.
Record t := mk {
  model_number : string;
  description : string;
  compatible_panels : list string;
  compatible_protocols : list string;
  total_point_capacity : option string;
  circuit_capacity : option string;
  supervisory_current : option Q;
  alarm_current : option Q;
  supported_speakers : option string;
  circuits : option string;
  compulsory_main_modules : list string;
  module_role : string;
  physical_size : string;
  mounted_on : string;
  dependencies : list string;
  specification_categories : list string;
  keywords : list string;
  price : Q;
  internal_space : Q;
  door_space : Q;
}.

(** The [block_count] property. *)
Definition block_count (m : t) : Q :=
  if Py.Qnonzero (internal_space m) || Py.Qnonzero (door_space m)
  then (internal_space m + door_space m)%Q
  else if negb (Py.truthy_str (physical_size m)) then 0%Q
  else
    let size_lower := Py.lower (physical_size m) in
    let digits := Py.filter_chars (fun ch => Py.isdigit ch || Ascii.eqb ch ".") size_lower in
    if Py.truthy_str digits then default 0%Q (Py.float_of_decimal digits) else 0%Q.

Definition matches_keyword (m : t) (keyword : string) : bool :=
  let keyword_lower := Py.lower keyword in
  existsb (Py.contains keyword_lower)
    [ Py.lower (description m);
      Py.lower (Py.join " " (specification_categories m));
      Py.lower (Py.join " " (keywords m)) ].
End ModuleDefinition.

Module PlacementRule.
Record t := mk { path : list string; text : string }.
End PlacementRule.

Module PanelRequirements.
Record t := mk {
  protocol : string;
  voice_evacuation : bool;
  prefer_addressable_nac : bool;
  has_fire_phone : bool;
  has_led_switches : bool;
  has_smoke_management : bool;
  has_door_holder_220vac : bool;
  monitor_leds : bool;
  graphics_control : bool;
  speaker_wattage : Q;
  speaker_count : Z;
  fire_phone_circuits : Z;
  nac_circuits_required : Z;
  slc_loops_required : Z;
  relay_count : Z;
  loop_device_count : Z;
  nac_device_count : Z;
  idnet_modules_required : Z;
  requires_printer : bool;
  requires_network_cards : bool;
  network_links : Z;
  nac_class_a : bool;
  speaker_class_a : bool;
  constant_supervision : bool;
  requires_led_packages : bool;
  fire_damper_control : bool;
  dual_amplifier_per_zone : bool;
  backup_amp_one_to_one : bool;
  backup_amp_one_for_all : bool;
}.
End PanelRequirements.

(** [space_usage] and [bay_allocation] are dictionaries with fixed keys. *)
Module SpaceUsage.
Record t := mk { internal_blocks : Q; door_slots : Q }.
End SpaceUsage.

Module BayAllocation.
Record t := mk { internal_bays : Z; door_bays : Z; recommended_bays : Z }.
End BayAllocation.

Module OptimizationResult.
Record t := mk {
  category_requirements : pydict Z;
  module_selection : pydict Z;
  estimated_cost : Q;
  solver_status : string;
  space_usage : SpaceUsage.t;
  bay_allocation : BayAllocation.t;
}.
End OptimizationResult.

(** ** Helper functions and tables *)

Definition SPACE_OVERRIDES : gmap string (Q * Q) :=
  list_to_map
    [ ("4100-1243", (2, 1)%Q); ("4100-1252", (1, 1)%Q); ("4100-1253", (2, 1)%Q);
      ("4100-1254", (2, 1)%Q); ("4100-1270", (2, 1)%Q); ("4100-9620", (8, 1)%Q) ].

Inductive EnclosureFamily := cabinet | door_solid | door_glass.

Module EnclosureDefinition.
Record t := mk {
  model_number : string;
  description : string;
  category : string;
  keywords : list string;
  price : Q;
  size : Z;
  family : EnclosureFamily;
}.
End EnclosureDefinition.

Definition ENCLOSURE_DEFINITIONS : list EnclosureDefinition.t :=
  [ EnclosureDefinition.mk "4100-9401" "4100ES 1-bay cabinet backbox" "Cabinet Assemblies"
      ["cabinet"; "backbox"; "1-bay"] 950 1 cabinet;
    EnclosureDefinition.mk "4100-9402" "4100ES 2-bay cabinet backbox" "Cabinet Assemblies"
      ["cabinet"; "backbox"; "2-bay"] 1200 2 cabinet;
    EnclosureDefinition.mk "4100-9403" "4100ES 3-bay cabinet backbox" "Cabinet Assemblies"
      ["cabinet"; "backbox"; "3-bay"] 1450 3 cabinet;
    EnclosureDefinition.mk "4100-9404" "4100ES 1-bay solid door" "Cabinet Doors"
      ["door"; "solid"; "1-bay"] 420 1 door_solid;
    EnclosureDefinition.mk "4100-9405" "4100ES 2-bay solid door" "Cabinet Doors"
      ["door"; "solid"; "2-bay"] 520 2 door_solid;
    EnclosureDefinition.mk "4100-9406" "4100ES 3-bay solid door" "Cabinet Doors"
      ["door"; "solid"; "3-bay"] 620 3 door_solid;
    EnclosureDefinition.mk "4100-9407" "4100ES 1-bay glass door" "Cabinet Doors"
      ["door"; "glass"; "1-bay"] 560 1 door_glass;
    EnclosureDefinition.mk "4100-9408" "4100ES 2-bay glass door" "Cabinet Doors"
      ["door"; "glass"; "2-bay"] 690 2 door_glass;
    EnclosureDefinition.mk "4100-9409" "4100ES 3-bay glass door" "Cabinet Doors"
      ["door"; "glass"; "3-bay"] 820 3 door_glass ].

(** A size-to-model dictionary, in insertion order. *)
Definition sizemap := list (Z * string).

Fixpoint sizemap_set (d : sizemap) (k : Z) (v : string) : sizemap :=
  match d with
  | [] => [(k, v)]
  | (k', v') :: d' => if k' =? k then (k', v) :: d' else (k', v') :: sizemap_set d' k v
  end.

Fixpoint sizemap_get (d : sizemap) (k : Z) : option string :=
  match d with
  | [] => None
  | (k', v) :: d' => if k' =? k then Some v else sizemap_get d' k
  end.

Definition family_eqb (a b : EnclosureFamily) : bool :=
  match a, b with
  | cabinet, cabinet | door_solid, door_solid | door_glass, door_glass => true
  | _, _ => false
  end.

Definition enclosure_map (fam : EnclosureFamily) : sizemap :=
  fold_left
    (fun acc entry =>
       if family_eqb (EnclosureDefinition.family entry) fam
       then sizemap_set acc (EnclosureDefinition.size entry)
              (EnclosureDefinition.model_number entry)
       else acc)
    ENCLOSURE_DEFINITIONS [].

(** [_build_enclosure_maps()], unpacked into the three module-level tables. *)
Definition CABINET_SIZE_TO_MODEL : sizemap := Eval cbv in enclosure_map cabinet.
Definition SOLID_DOOR_SIZE_TO_MODEL : sizemap := Eval cbv in enclosure_map door_solid.
Definition GLASS_DOOR_SIZE_TO_MODEL : sizemap := Eval cbv in enclosure_map door_glass.

Definition synthetic_module (entry : EnclosureDefinition.t) : ModuleDefinition.t :=
  {| ModuleDefinition.model_number := EnclosureDefinition.model_number entry;
     ModuleDefinition.description := EnclosureDefinition.description entry;
     ModuleDefinition.compatible_panels := ["4100ES"];
     ModuleDefinition.compatible_protocols := ["IDNet2"; "MX"];
     ModuleDefinition.total_point_capacity := None;
     ModuleDefinition.circuit_capacity := None;
     ModuleDefinition.supervisory_current := None;
     ModuleDefinition.alarm_current := None;
     ModuleDefinition.supported_speakers := None;
     ModuleDefinition.circuits := None;
     ModuleDefinition.compulsory_main_modules := [];
     ModuleDefinition.module_role := "Cabinet";
     ModuleDefinition.physical_size := "";
     ModuleDefinition.mounted_on := "";
     ModuleDefinition.dependencies := [];
     ModuleDefinition.specification_categories := [EnclosureDefinition.category entry];
     ModuleDefinition.keywords := EnclosureDefinition.keywords entry;
     ModuleDefinition.price := EnclosureDefinition.price entry;
     ModuleDefinition.internal_space := 0;
     ModuleDefinition.door_space := 0 |}.

Definition SYNTHETIC_MODULES : list ModuleDefinition.t :=
  map synthetic_module ENCLOSURE_DEFINITIONS.

Definition MODULE_ALIASES : gmap string string :=
  list_to_map
    [ ("MASTER_CONTROLLER", "4100-9701"); ("IDNET_DUAL_LOOP", "4100-3109");
      ("POWER_SUPPLY_MAIN", "4100-5311"); ("POWER_SUPPLY_EXPANSION", "4100-5325");
      ("IDNAC_MODULE", "4100-5451"); ("CONVENTIONAL_NAC", "4100-5450");
      ("NAC_CLASS_A", "4100-1246"); ("NAC_SUPERVISION", "4100-1266");
      ("AUDIO_BASE", "4100-9620"); ("AUDIO_OPERATOR", "4100-1254");
      ("AUDIO_AMPLIFIER", "4100-1248"); ("AUDIO_CLASS_A", "4100-1249");
      ("FIRE_PHONE", "4100-1270"); ("LED_CONTROLLER", "4100-1288");
      ("PRINTER", "4100-1293"); ("RS232", "4100-6038");
      ("NETWORK_INTERFACE", "4100-6080"); ("RELAY_MODULE", "4100-6033");
      ("RELAY_ZONE", "4100-5013") ].

(** [MODULE_ALIASES[name]] for the names the engine uses, all of them keys. *)
Definition alias (name : string) : string := default "" (MODULE_ALIASES !! name).

Definition INTERNAL_BLOCKS_PER_BAY : Q := 8.
Definition DOOR_SLOTS_PER_BAY : Q := 8.

(** [_merge_unique]: case-insensitive union keeping the first position of a key. *)
Definition _merge_unique (values additions : list string) : list string :=
  let lookup :=
    fold_left (fun d value => if Py.truthy_str value then dict_set d (Py.lower value) value else d)
      values ([] : pydict string) in
  let lookup :=
    fold_left
      (fun d value =>
         if negb (Py.truthy_str value) then d
         else match dict_get d (Py.lower value) with
              | Some _ => d
              | None => dict_set d (Py.lower value) value
              end)
      additions lookup in
  map snd lookup.

(** ** Regular expressions of the space calculator

    Each pattern is a literal word, runs of one character class and optional
    parts, so a match attempt at a position is deterministic: a greedy run never
    has to give characters back, because the character after a run belongs to
    neither the next class nor the next literal. *)

Module Re.

(** The longest prefix whose characters satisfy [p], and the rest. *)
Fixpoint span (p : ascii -> bool) (s : string) : string * string :=
  match s with
  | EmptyString => (EmptyString, EmptyString)
  | String c s' =>
      if p c then let '(a, b) := span p s' in (String c a, b)
      else (EmptyString, s)
  end.

(** A literal (given in lower case) under [re.IGNORECASE]: the rest after it. *)
Fixpoint literal (lit s : string) : option string :=
  match lit, s with
  | EmptyString, _ => Some s
  | String a lit', String c s' =>
      if Ascii.eqb (Py.lower_char c) a then literal lit' s' else None
  | String _ _, EmptyString => None
  end.

Definition len (s : string) : nat := String.length s.

(** [finditer]: match attempts at successive positions, resuming after each
    match. [attempt s] gives the capture and the length of the match at the
    start of [s]; [skip] counts characters still covered by the last match. *)
Fixpoint finditer {A} (attempt : string -> option (A * nat)) (skip : nat) (s : string)
    : list A :=
  match s with
  | EmptyString => []
  | String _ s' =>
      match skip with
      | S k => finditer attempt k s'
      | O =>
          match attempt s with
          | Some (a, n) => a :: finditer attempt (pred n) s'
          | None => finditer attempt 0 s'
          end
      end
  end.

(** [word\s*(class+)] at the start of [s]. *)
Definition inline_attempt (word : string) (class : ascii -> bool) (s : string)
    : option (string * nat) :=
  match literal word s with
  | None => None
  | Some r1 =>
      let '(ws, r2) := span Py.isspace r1 in
      let '(grp, _) := span class r2 in
      if Py.truthy_str grp then Some (grp, (len word + len ws + len grp)%nat) else None
  end.

(** [\s*words?] at the start of [s]: the length matched. *)
Definition keyword_tail (word : string) (s : string) : option nat :=
  let '(ws, r) := span Py.isspace s in
  match literal word r with
  | None => None
  | Some r' =>
      match literal "s" r' with
      | Some _ => Some (len ws + len word + 1)%nat
      | None => Some (len ws + len word)%nat
      end
  end.

(** [(\d+(?:\.\d+)?)\s*words?] at the start of [s]: the optional fraction is
    tried first, then left out. *)
Definition numeric_attempt (word : string) (s : string) : option (string * nat) :=
  let '(whole, r1) := span Py.isdigit s in
  if negb (Py.truthy_str whole) then None else
  let without_fraction :=
    match keyword_tail word r1 with
    | Some n => Some (whole, (len whole + n)%nat)
    | None => None
    end in
  match r1 with
  | String "." r1' =>
      let '(frac, r2) := span Py.isdigit r1' in
      if Py.truthy_str frac then
        match keyword_tail word r2 with
        | Some n => Some (whole ++ "." ++ frac, (len whole + 1 + len frac + n)%nat)
        | None => without_fraction
        end
      else without_fraction
  | _ => without_fraction
  end.

Definition is_0_9 (c : ascii) : bool := Py.isdigit c.

(** [[a-h]] under [re.IGNORECASE]. *)
Definition is_a_h (c : ascii) : bool :=
  let n := Py.code (Py.lower_char c) in ((97 <=? n) && (n <=? 104))%N.

Definition _NUMERIC_SLOT_PATTERN := numeric_attempt "slot".
Definition _NUMERIC_BLOCK_PATTERN := numeric_attempt "block".
Definition _SLOT_INLINE_PATTERN := inline_attempt "slot" is_0_9.
Definition _BLOCK_INLINE_PATTERN := inline_attempt "block" is_a_h.
End Re.

(** [max(values, default=0.0)]. *)
Definition max_default0 (values : list Q) : Q :=
  match values with
  | [] => 0%Q
  | v :: rest => fold_left Py.Qmax rest v
  end.

(** [len(set(s))]. *)
Definition distinct_chars (s : string) : Z :=
  Z.of_nat (length (remove_dups (list_ascii_of_string s))).

Definition _inline_slot_usage (text : string) : Q :=
  let collapsed := Py.remove_spaces text in
  let values :=
    map (fun digits => inject_Z (Z.max 1 (distinct_chars digits)))
      (Re.finditer Re._SLOT_INLINE_PATTERN 0 collapsed) in
  max_default0 values.

Definition _inline_block_usage (text : string) : Q :=
  let collapsed := Py.lower (Py.remove_spaces text) in
  let groups :=
    map (Py.filter_chars (fun ch => ((97 <=? Py.code ch) && (Py.code ch <=? 104))%N))
      (Re.finditer Re._BLOCK_INLINE_PATTERN 0 collapsed) in
  let values :=
    map (fun letters => inject_Z (Z.max 1 (distinct_chars letters)))
      (filter (fun letters => Py.truthy_str letters = true) groups) in
  max_default0 values.

Definition _numeric_keyword_usage (pattern : string -> option (string * nat)) (text : string)
    : Q :=
  fold_left
    (fun value grp =>
       match Py.float_of_decimal grp with
       | None => value
       | Some quantity =>
           if Py.Qlt_b 0 quantity && Qle_bool quantity 32
           then Py.Qmax value quantity else value
       end)
    (Re.finditer pattern 0 text) 0%Q.

Definition str_in (mount : string) (options : list string) : bool :=
  existsb (String.eqb mount) options.

(** The four numbers read from the size text. *)
Definition numeric_slots (text : string) : Q := _numeric_keyword_usage Re._NUMERIC_SLOT_PATTERN text.
Definition numeric_blocks (text : string) : Q := _numeric_keyword_usage Re._NUMERIC_BLOCK_PATTERN text.

Definition base_internal (text : string) : Q :=
  max_default0
    [numeric_blocks text; _inline_block_usage text; numeric_slots text; _inline_slot_usage text].

Definition base_door (text : string) : Q :=
  max_default0
    [ numeric_slots text; _inline_slot_usage text;
      if Qeq_bool (numeric_slots text) 0 then numeric_blocks text else 0%Q;
      if Qeq_bool (_inline_slot_usage text) 0 then _inline_block_usage text else 0%Q ].

Definition _derive_space_requirements (model_number physical_size mounted_on : string)
    : Q * Q :=
  match SPACE_OVERRIDES !! model_number with
  | Some override => override
  | None =>
      let text := Py.strip physical_size in
      let mount := Py.lower (Py.strip mounted_on) in
      if negb (Py.truthy_str text) && negb (str_in mount ["internal"; "door"; "both"])
      then (0, 0)%Q
      else
        let internal := if str_in mount ["internal"; "both"] then base_internal text else 0%Q in
        let door := if str_in mount ["door"; "both"] then base_door text else 0%Q in
        let internal :=
          if str_in mount ["internal"; "both"] && Qle_bool internal 0
          then (if negb (String.eqb mount "door") then 1%Q else 0%Q) else internal in
        let door :=
          if str_in mount ["door"; "both"] && Qle_bool door 0
          then (if negb (String.eqb mount "internal") then 1%Q else 0%Q) else door in
        if String.eqb mount "both"
        then (Py.Qmax internal 1, Py.Qmax door 1)
        else (internal, door)
  end.

(** [sorted(items)] for a strict order [lt]: a stable insertion sort. *)
Section Sorted.
Context {A : Type} (lt : A -> A -> bool).

Fixpoint insert_sorted (x : A) (l : list A) : list A :=
  match l with
  | [] => [x]
  | y :: l' => if lt x y then x :: y :: l' else y :: insert_sorted x l'
  end.

Definition sorted (l : list A) : list A :=
  fold_left (fun acc x => insert_sorted x acc) l [].
End Sorted.

(** [_allocate_enclosure_sizes]. The size tables of the engine have the keys
    1, 2 and 3, so [//] never divides by zero. *)
Fixpoint allocate_loop (size_to_model : sizemap) (last_idx : nat) (idx : nat)
    (sizes : list Z) (remaining : Z) (plan : pydict Z) : Z * pydict Z :=
  match sizes with
  | [] => (remaining, plan)
  | size :: sizes' =>
      if remaining <=? 0 then (remaining, plan)
      else
        let count := remaining / size in
        let count := if (count =? 0) && Nat.eqb idx last_idx then 1 else count in
        if count <=? 0 then allocate_loop size_to_model last_idx (S idx) sizes' remaining plan
        else
          let model := default "" (sizemap_get size_to_model size) in
          allocate_loop size_to_model last_idx (S idx) sizes'
            (remaining - size * count)
            (dict_set plan model (dict_get_or plan model 0 + count))
  end.

Definition _allocate_enclosure_sizes (required_bays : Z) (size_to_model : sizemap)
    : pydict Z :=
  match size_to_model with
  | [] => []
  | _ :: _ =>
      if required_bays <=? 0 then []
      else
        let sizes := sorted (fun a b => b <? a) (map fst size_to_model) in
        let '(remaining, plan) :=
          allocate_loop size_to_model (pred (length sizes)) 0 sizes required_bays [] in
        if 0 <? remaining then
          let smallest := List.last sizes 0 in
          let model := default "" (sizemap_get size_to_model smallest) in
          dict_set plan model (dict_get_or plan model 0 + 1)
        else plan
  end.

(** [_safe_float] of a string. *)
Definition _safe_float (value : string) : option Q :=
  let cleaned :=
    Py.filter_chars
      (fun ch => Py.isdigit ch || Ascii.eqb ch "." || Ascii.eqb ch "-") value in
  if negb (Py.truthy_str cleaned) then None else Py.float_of_signed_decimal cleaned.

(** ** RuleRepository *)

Module RuleRepository.

Inductive outcome :=
  | Returned
  | ValueError (message : string).

(** [category_to_modules] and [module_index] are built from [modules] at the
    end of [_load_modules] and never changed afterwards; they are functions
    of [modules] here. *)
Record t := mk {
  modules : list ModuleDefinition.t;
  placement_rules : list PlacementRule.t;
  module_prices : gmap string Q;
  category_prices : gmap string Q;
}.

Definition DEFAULT_CATEGORY_PRICES : gmap string Q :=
  list_to_map
    [ ("Master Controller", 4500%Q); ("Power Supplies", 1200%Q);
      ("EPS & Accessories", 1600%Q); ("IDNet Modules", 950%Q);
      ("Notification Modules", 900%Q); ("Audio Options (S4100-0104)", 1800%Q);
      ("Telephone (S4100-0104)", 750%Q); ("LED-Switch (4100-0032)", 650%Q);
      ("Relay Modules", 500%Q); ("VCC Interfaces (S4100-0104)", 900%Q) ].

(** [_load_pricing_overrides]: the argument is the parsed pricing document,
    [None] when no readable path is given. *)
Definition _load_pricing_overrides (pricing : option (gmap string Q * gmap string Q))
    : gmap string Q * gmap string Q :=
  match pricing with
  | Some (module_overrides, category_defaults) => (module_overrides, category_defaults)
  | None => (∅, DEFAULT_CATEGORY_PRICES)
  end.

(** [record.get(key, "")]. *)
Definition field (record : pydict string) (key : string) : string :=
  dict_get_or record key "".

(** [[value.strip() for value in record.get(key, "").split(",") if value.strip()]]. *)
Definition listed (record : pydict string) (key : string) : list string :=
  List.filter Py.truthy_str (map Py.strip (Py.split "," (field record key))).

(** [record.get(key) or None]. *)
Definition optional (record : pydict string) (key : string) : option string :=
  match dict_get record key with
  | Some value => if Py.truthy_str value then Some value else None
  | None => None
  end.

Definition truthy_opt (value : option string) : bool :=
  match value with
  | Some s => Py.truthy_str s
  | None => false
  end.

(** [if new and not old: old = new], on strings and on optional strings. *)
Definition fill_str (old new : string) : string :=
  if Py.truthy_str new && negb (Py.truthy_str old) then new else old.

Definition fill_opt (old new : option string) : option string :=
  if truthy_opt new && negb (truthy_opt old) then new else old.

(** [if new is not None and old is None: old = new]. *)
Definition fill_number (old new : option Q) : option Q :=
  match old with
  | Some _ => old
  | None => new
  end.

(** [if not old: old = new]. *)
Definition default_str (old new : string) : string :=
  if negb (Py.truthy_str old) then new else old.

(** One iteration of the first loop of [_load_modules], over the records of
    the module workbook. *)
Definition load_row (module_prices category_prices : gmap string Q)
    (module_lookup : pydict ModuleDefinition.t) (record : pydict string)
    : pydict ModuleDefinition.t :=
  let model_number := Py.strip (field record "Module Model Number") in
  if negb (Py.truthy_str model_number) then module_lookup else
  let description := Py.strip (field record "Description") in
  let compatible_panels := listed record "compatible with Panel" in
  let compatible_protocols := listed record "compatible with Protocol" in
  let total_point_capacity := optional record "Total Point Capacity Possible" in
  let circuit_capacity := optional record "Point Capacity / Circuit Capacity" in
  let supervisory_current := _safe_float (field record "Supervisory Current") in
  let alarm_current := _safe_float (field record "Alarm Current") in
  let supported_speakers := optional record "Supports which Speakers" in
  let circuits := optional record "Circuits/Points" in
  let compulsory_main := listed record "Possible Compulsory Main Modules" in
  let module_role :=
    Py.strip (field record "Is it Main module or sub-module mounted on main") in
  let physical_size := Py.strip (field record "Physical Size") in
  let mounted_on := Py.strip (field record "Mounted ON") in
  let dependencies := listed record "Another Module needed to function" in
  let spec_categories := listed record "Specification Descriptions" in
  let keywords := listed record "Keywords associated with the module" in
  let price :=
    match module_prices !! model_number with
    | Some price => price
    | None =>
        match spec_categories with
        | category :: _ => default 0%Q (category_prices !! category)
        | [] => 0%Q
        end
    end in
  let '(internal_space, door_space) :=
    _derive_space_requirements model_number physical_size mounted_on in
  match dict_get module_lookup model_number with
  | Some module =>
      dict_set module_lookup model_number
        {| ModuleDefinition.model_number := ModuleDefinition.model_number module;
           ModuleDefinition.description :=
             fill_str (ModuleDefinition.description module) description;
           ModuleDefinition.compatible_panels :=
             _merge_unique (ModuleDefinition.compatible_panels module) compatible_panels;
           ModuleDefinition.compatible_protocols :=
             _merge_unique (ModuleDefinition.compatible_protocols module)
               compatible_protocols;
           ModuleDefinition.total_point_capacity :=
             fill_opt (ModuleDefinition.total_point_capacity module) total_point_capacity;
           ModuleDefinition.circuit_capacity :=
             fill_opt (ModuleDefinition.circuit_capacity module) circuit_capacity;
           ModuleDefinition.supervisory_current :=
             fill_number (ModuleDefinition.supervisory_current module) supervisory_current;
           ModuleDefinition.alarm_current :=
             fill_number (ModuleDefinition.alarm_current module) alarm_current;
           ModuleDefinition.supported_speakers :=
             fill_opt (ModuleDefinition.supported_speakers module) supported_speakers;
           ModuleDefinition.circuits :=
             fill_opt (ModuleDefinition.circuits module) circuits;
           ModuleDefinition.compulsory_main_modules :=
             _merge_unique (ModuleDefinition.compulsory_main_modules module) compulsory_main;
           ModuleDefinition.module_role :=
             default_str (ModuleDefinition.module_role module) module_role;
           ModuleDefinition.physical_size :=
             default_str (ModuleDefinition.physical_size module) physical_size;
           ModuleDefinition.mounted_on :=
             default_str (ModuleDefinition.mounted_on module) mounted_on;
           ModuleDefinition.dependencies :=
             _merge_unique (ModuleDefinition.dependencies module) dependencies;
           ModuleDefinition.specification_categories :=
             _merge_unique (ModuleDefinition.specification_categories module)
               spec_categories;
           ModuleDefinition.keywords :=
             _merge_unique (ModuleDefinition.keywords module) keywords;
           ModuleDefinition.price :=
             if Qle_bool (ModuleDefinition.price module) 0 && Py.Qlt_b 0 price
             then price else ModuleDefinition.price module;
           ModuleDefinition.internal_space :=
             Py.Qmax (ModuleDefinition.internal_space module) internal_space;
           ModuleDefinition.door_space :=
             Py.Qmax (ModuleDefinition.door_space module) door_space |}
  | None =>
      dict_set module_lookup model_number
        {| ModuleDefinition.model_number := model_number;
           ModuleDefinition.description := description;
           ModuleDefinition.compatible_panels := compatible_panels;
           ModuleDefinition.compatible_protocols := compatible_protocols;
           ModuleDefinition.total_point_capacity := total_point_capacity;
           ModuleDefinition.circuit_capacity := circuit_capacity;
           ModuleDefinition.supervisory_current := supervisory_current;
           ModuleDefinition.alarm_current := alarm_current;
           ModuleDefinition.supported_speakers := supported_speakers;
           ModuleDefinition.circuits := circuits;
           ModuleDefinition.compulsory_main_modules := compulsory_main;
           ModuleDefinition.module_role := module_role;
           ModuleDefinition.physical_size := physical_size;
           ModuleDefinition.mounted_on := mounted_on;
           ModuleDefinition.dependencies := dependencies;
           ModuleDefinition.specification_categories := spec_categories;
           ModuleDefinition.keywords := keywords;
           ModuleDefinition.price := price;
           ModuleDefinition.internal_space := internal_space;
           ModuleDefinition.door_space := door_space |}
  end.

(** The first loop of [_load_modules]: [module_lookup] after the records. *)
Definition load_rows (module_prices category_prices : gmap string Q)
    (records : list (pydict string)) : pydict ModuleDefinition.t :=
  fold_left (load_row module_prices category_prices) records [].

(** The second loop of [_load_modules]: the synthetic enclosure modules are
    merged into [module_lookup], the dictionary filled from the workbook rows. *)
Definition merge_synthetic (module_lookup : pydict ModuleDefinition.t)
    (synthetic : ModuleDefinition.t) : pydict ModuleDefinition.t :=
  match dict_get module_lookup (ModuleDefinition.model_number synthetic) with
  | Some existing =>
      let price :=
        if Qle_bool (ModuleDefinition.price existing) 0
           && Py.Qlt_b 0 (ModuleDefinition.price synthetic)
        then ModuleDefinition.price synthetic else ModuleDefinition.price existing in
      let existing' :=
        {| ModuleDefinition.model_number := ModuleDefinition.model_number existing;
           ModuleDefinition.description := ModuleDefinition.description existing;
           ModuleDefinition.compatible_panels := ModuleDefinition.compatible_panels existing;
           ModuleDefinition.compatible_protocols :=
             ModuleDefinition.compatible_protocols existing;
           ModuleDefinition.total_point_capacity :=
             ModuleDefinition.total_point_capacity existing;
           ModuleDefinition.circuit_capacity := ModuleDefinition.circuit_capacity existing;
           ModuleDefinition.supervisory_current :=
             ModuleDefinition.supervisory_current existing;
           ModuleDefinition.alarm_current := ModuleDefinition.alarm_current existing;
           ModuleDefinition.supported_speakers := ModuleDefinition.supported_speakers existing;
           ModuleDefinition.circuits := ModuleDefinition.circuits existing;
           ModuleDefinition.compulsory_main_modules :=
             ModuleDefinition.compulsory_main_modules existing;
           ModuleDefinition.module_role := ModuleDefinition.module_role existing;
           ModuleDefinition.physical_size := ModuleDefinition.physical_size existing;
           ModuleDefinition.mounted_on := ModuleDefinition.mounted_on existing;
           ModuleDefinition.dependencies := ModuleDefinition.dependencies existing;
           ModuleDefinition.specification_categories :=
             _merge_unique (ModuleDefinition.specification_categories existing)
               (ModuleDefinition.specification_categories synthetic);
           ModuleDefinition.keywords :=
             _merge_unique (ModuleDefinition.keywords existing)
               (ModuleDefinition.keywords synthetic);
           ModuleDefinition.price := price;
           ModuleDefinition.internal_space := ModuleDefinition.internal_space existing;
           ModuleDefinition.door_space := ModuleDefinition.door_space existing |} in
      dict_set module_lookup (ModuleDefinition.model_number synthetic) existing'
  | None => dict_set module_lookup (ModuleDefinition.model_number synthetic) synthetic
  end.

(** [self.modules] at the end of [_load_modules], from the [module_lookup]
    left by the loop over the workbook rows. *)
Definition _load_modules (module_lookup : pydict ModuleDefinition.t)
    : list ModuleDefinition.t :=
  map snd (fold_left merge_synthetic SYNTHETIC_MODULES module_lookup).

(** [d.setdefault(k, []).append(m)]. *)
Definition dict_append (d : pydict (list ModuleDefinition.t)) (k : string)
    (m : ModuleDefinition.t) : pydict (list ModuleDefinition.t) :=
  dict_set d k (dict_get_or d k [] ++ [m])%list.

Definition build_category_index (mods : list ModuleDefinition.t)
    : pydict (list ModuleDefinition.t) :=
  fold_left
    (fun d m => fold_left (fun d c => dict_append d c m)
                  (ModuleDefinition.specification_categories m) d)
    mods [].

Definition build_module_index (mods : list ModuleDefinition.t)
    : gmap string ModuleDefinition.t :=
  fold_left (fun idx m => <[ModuleDefinition.model_number m := m]> idx) mods ∅.

Definition category_to_modules (self : t) : pydict (list ModuleDefinition.t) :=
  build_category_index (modules self).

Definition module_index (self : t) : gmap string ModuleDefinition.t :=
  build_module_index (modules self).

(** One row of [_load_placement_rules]: only the first non-empty cell counts.
    [None] is the [IndexError] of a row longer than the first one. *)
Fixpoint placement_row (row : list string) (idx : nat) (hierarchy : list string)
    : option (list string * option PlacementRule.t) :=
  match row with
  | [] => Some (hierarchy, None)
  | cell :: row' =>
      let value := Py.strip cell in
      if negb (Py.truthy_str value) then placement_row row' (S idx) hierarchy
      else if negb (idx <? length hierarchy)%nat then None
      else
        let hierarchy := take (S idx) (<[idx := value]> hierarchy)
                         ++ replicate (length hierarchy - S idx) "" in
        let path := filter (fun s => Py.truthy_str s = true) (take idx hierarchy) in
        Some (hierarchy, match path with
                         | [] => None
                         | _ => Some (PlacementRule.mk path value)
                         end)
  end%list.

Fixpoint placement_rows (rows : list (list string)) (hierarchy : list string)
    (acc : list PlacementRule.t) : option (list PlacementRule.t) :=
  match rows with
  | [] => Some acc
  | row :: rows' =>
      match placement_row row 0 hierarchy with
      | None => None
      | Some (hierarchy', Some rule) => placement_rows rows' hierarchy' (acc ++ [rule])%list
      | Some (hierarchy', None) => placement_rows rows' hierarchy' acc
      end
  end.

Definition _load_placement_rules (rows : list (list string)) : option (list PlacementRule.t) :=
  match rows with
  | [] => Some []
  | first :: _ => placement_rows rows (replicate (length first) "") []
  end.

(** [__init__] after the workbooks have been read. *)
Definition init (pricing : option (gmap string Q * gmap string Q))
    (module_lookup : pydict ModuleDefinition.t) (placement_sheet : list (list string))
    : option t :=
  let '(mp, cp) := _load_pricing_overrides pricing in
  match _load_placement_rules placement_sheet with
  | None => None
  | Some rules => Some (mk (_load_modules module_lookup) rules mp cp)
  end.

Definition catalogue (self : t) : string :=
  Py.join " " (map (fun rule => Py.lower (PlacementRule.text rule)) (placement_rules self)).

Definition missing_keywords (self : t) (required_keywords : list string) : list string :=
  filter (fun keyword => Py.contains (Py.lower keyword) (catalogue self) = false)
    required_keywords.

(** [ensure_rule_keywords], as a step on the repository: the repository after
    the call and how the call ended. *)
Definition ensure_rule_keywords (self : t) (required_keywords : list string) : t * outcome :=
  match missing_keywords self required_keywords with
  | [] => (self, Returned)
  | missing =>
      (self, ValueError ("Missing critical placement guidelines in workbook: "
                         ++ Py.join ", " missing))
  end.

Definition get_module (self : t) (model_number : string) : option ModuleDefinition.t :=
  module_index self !! model_number.

Definition estimate_cost (self : t) (model_number : string) (quantity : Z) : Q :=
  let module := get_module self model_number in
  let q := inject_Z quantity in
  match module with
  | Some m =>
      if Py.Qlt_b 0 (ModuleDefinition.price m) then (ModuleDefinition.price m * q)%Q
      else
        match module_prices self !! model_number with
        | Some p => (p * q)%Q
        | None =>
            match ModuleDefinition.specification_categories m with
            | category :: _ =>
                match category_prices self !! category with
                | Some p => (p * q)%Q
                | None => (1000 * q)%Q
                end
            | [] => (1000 * q)%Q
            end
        end
  | None =>
      match module_prices self !! model_number with
      | Some p => (p * q)%Q
      | None => (1000 * q)%Q
      end
  end.
End RuleRepository.

(** ** The CP-SAT solver as an injected capability *)

Module CpSat.
Inductive Status := UNKNOWN | MODEL_INVALID | FEASIBLE | INFEASIBLE | OPTIMAL.

(** What [_build_solver] hands to the solver: integer variables with bounds,
    constraints [sum(vars) >= bound] and the linear objective to minimise. *)
Record CpModel := mkModel {
  int_vars : list (string * (Z * Z));
  constraints : list (list string * Z);
  objective : list (Z * string);
}.

Record Response := mkResponse {
  status : Status;
  Value : string -> Z;
}.

(** The imported [cp_model] module: [Solve], and how [str] prints its
    [OPTIMAL] constant. *)
Record t := mk {
  Solve : CpModel -> Response;
  OPTIMAL_str : string;
}.

Definition is_solution (s : Status) : bool :=
  match s with OPTIMAL | FEASIBLE => true | _ => false end.

Definition sum_values (value : string -> Z) (vars : list string) : Z :=
  fold_right (fun v acc => value v + acc) 0 vars.

(** The solver's contract: a response with status OPTIMAL or FEASIBLE
    carries values inside the bounds that satisfy every constraint. *)
Definition sound (solver : t) : Prop :=
  forall m : CpModel,
    is_solution (status (Solve solver m)) = true ->
    (forall v lb ub, In (v, (lb, ub)) (int_vars m) ->
       lb <= Value (Solve solver m) v <= ub) /\
    (forall vars bound, In (vars, bound) (constraints m) ->
       bound <= sum_values (Value (Solve solver m)) vars).
End CpSat.

(** ** RuleEngine *)

Module RuleEngine.
Import PanelRequirements.

Definition REQUIRED_KEYWORDS : list string :=
  ["power supply"; "audio controller"; "amplifier"; "display"; "annunciator"].

(** [__init__]: the engine is its repository; [None] stands for the
    exceptions of loading and of the keyword check. *)
Definition init (pricing : option (gmap string Q * gmap string Q))
    (module_lookup : pydict ModuleDefinition.t) (placement_sheet : list (list string))
    : option RuleRepository.t :=
  match RuleRepository.init pricing module_lookup placement_sheet with
  | None => None
  | Some repository =>
      match RuleRepository.ensure_rule_keywords repository REQUIRED_KEYWORDS with
      | (repository', RuleRepository.Returned) => Some repository'
      | (_, RuleRepository.ValueError _) => None
      end
  end.

Definition nonzero (n : Z) : bool := negb (n =? 0).

Definition build_requirements (answers : ProjectAnswers.t) (boq : DeviceBOQ.t)
    : PanelRequirements.t :=
  let loop_devices :=
    DeviceBOQ.smoke_detector boq + DeviceBOQ.heat_detector boq
    + DeviceBOQ.duct_detector boq + DeviceBOQ.beam_detector boq
    + DeviceBOQ.manual_station boq + DeviceBOQ.monitor_module boq
    + DeviceBOQ.control_relay boq in
  let idnet_modules_required :=
    if nonzero loop_devices then Z.max 1 (Py.ceil (Py.truediv loop_devices 500)) else 1 in
  let slc_loops_required := idnet_modules_required * 2 in
  let nac_devices :=
    DeviceBOQ.horn_strobe boq + DeviceBOQ.strobe_only boq + DeviceBOQ.horn_only boq
    + DeviceBOQ.addressable_horn_strobe boq + DeviceBOQ.addressable_strobe boq
    + DeviceBOQ.speaker_strobe boq in
  let nac_circuits_required :=
    if nonzero nac_devices then Py.ceil (Py.truediv nac_devices 14) else 0 in
  let speaker_total := DeviceBOQ.speaker boq + DeviceBOQ.speaker_strobe boq in
  let relay_count :=
    DeviceBOQ.control_relay boq + ProjectAnswers.smoke_management_relay_count answers in
  let relay_count :=
    if ProjectAnswers.fire_damper_feedback answers
       || ProjectAnswers.fire_damper_led_indication answers
    then Z.max relay_count 8 else relay_count in
  let relay_count :=
    if String.eqb (ProjectAnswers.door_holder_voltage answers) "220vac"
    then relay_count + 1 else relay_count in
  let speaker_wattage := ProjectAnswers.speaker_wattage answers in
  let speaker_wattage :=
    if Qle_bool speaker_wattage 0 && (0 <? speaker_total)
    then inject_Z (speaker_total * 15) else speaker_wattage in
  let fire_phone_circuits :=
    if nonzero (DeviceBOQ.fire_phone_jack boq)
    then Py.ceil (Py.truediv (DeviceBOQ.fire_phone_jack boq) 10) else 0 in
  let requires_network_cards :=
    ProjectAnswers.has_graphics_command_center answers
    || str_in (ProjectAnswers.graphics_software_type answers) ["view_only"; "full_control"]
    || negb (String.eqb (ProjectAnswers.network_type answers) "none") in
  let network_links := 0 in
  let network_links := if requires_network_cards then 1 else network_links in
  let network_links :=
    if str_in (ProjectAnswers.network_type answers) ["smfo"; "mmfo"]
    then Z.max network_links 2 else network_links in
  let network_links :=
    if String.eqb (ProjectAnswers.graphics_software_type answers) "full_control"
    then Z.max network_links 2 else network_links in
  let requires_led_packages :=
    ProjectAnswers.audio_control_led_switches answers
    || ProjectAnswers.monitor_modules_with_leds answers
    || ProjectAnswers.fire_damper_led_indication answers in
  {| protocol := ProtocolType_value (ProjectAnswers.protocol answers);
     voice_evacuation :=
       negb (String.eqb (Py.lower (AudioType_name (ProjectAnswers.audio_type answers)))
               "no_audio");
     prefer_addressable_nac := ProjectAnswers.use_addressable_nac answers;
     has_fire_phone := ProjectAnswers.has_fire_phone answers || (0 <? fire_phone_circuits);
     has_led_switches :=
       ProjectAnswers.audio_control_led_switches answers
       || ProjectAnswers.monitor_modules_with_leds answers;
     has_smoke_management := ProjectAnswers.has_smoke_management answers;
     has_door_holder_220vac :=
       String.eqb (ProjectAnswers.door_holder_voltage answers) "220vac";
     monitor_leds := ProjectAnswers.monitor_modules_with_leds answers;
     graphics_control :=
       String.eqb (ProjectAnswers.graphics_software_type answers) "full_control";
     speaker_wattage := speaker_wattage;
     speaker_count := speaker_total;
     fire_phone_circuits := fire_phone_circuits;
     nac_circuits_required := nac_circuits_required;
     slc_loops_required := slc_loops_required;
     relay_count := relay_count;
     loop_device_count := loop_devices;
     nac_device_count := nac_devices;
     idnet_modules_required := idnet_modules_required;
     requires_printer := ProjectAnswers.has_panel_printer answers;
     requires_network_cards := requires_network_cards;
     network_links := network_links;
     nac_class_a := ProjectAnswers.nac_class_a_wiring answers;
     speaker_class_a := ProjectAnswers.speaker_class_a_wiring answers;
     constant_supervision := ProjectAnswers.constant_supervision_speaker answers;
     requires_led_packages := requires_led_packages;
     fire_damper_control :=
       ProjectAnswers.fire_damper_feedback answers
       || ProjectAnswers.fire_damper_led_indication answers;
     dual_amplifier_per_zone := ProjectAnswers.dual_amplifier_per_zone answers;
     backup_amp_one_to_one := ProjectAnswers.backup_amplifier_one_to_one answers;
     backup_amp_one_for_all := ProjectAnswers.backup_amplifier_one_for_all answers |}.

(** The local [ensure] of [derive_category_requirements]. *)
Definition ensure (category_requirements : pydict Z) (category : string) (quantity : Z)
    : pydict Z :=
  if quantity <=? 0 then category_requirements
  else dict_set category_requirements category
         (Z.max (dict_get_or category_requirements category 0) quantity).

Definition when {A} (b : bool) (f : A -> A) (x : A) : A := if b then f x else x.

Definition derive_category_requirements (requirements : PanelRequirements.t) : pydict Z :=
  let cr : pydict Z := [] in
  let cr := ensure cr "Master Controller" 1 in
  let cr := ensure cr "Power Supplies"
              (Z.max 1 (Py.ceil (Py.truediv (Z.max (nac_circuits_required requirements) 1) 3))) in
  let nac_power_padding :=
    if nonzero (nac_device_count requirements)
    then Py.ceil (Py.truediv (nac_device_count requirements) 56) else 0 in
  let cr := ensure cr "EPS & Accessories"
              (Z.max 1 (Py.ceil (speaker_wattage requirements / 400)%Q + nac_power_padding)) in
  let cr := ensure cr "IDNet Modules" (idnet_modules_required requirements) in
  let cr :=
    when (nonzero (nac_circuits_required requirements))
      (fun cr =>
         if prefer_addressable_nac requirements
         then ensure cr "Notification Modules"
                (Z.max 1 (Py.ceil (Py.truediv (nac_circuits_required requirements) 2)))
         else ensure cr "Notification Modules"
                (Z.max 1 (Py.ceil (Py.truediv (nac_circuits_required requirements) 3)))) cr in
  let cr :=
    when (voice_evacuation requirements)
      (fun cr =>
         let audio_modules := Z.max 1 (Py.ceil (speaker_wattage requirements / 100)%Q) in
         ensure (ensure cr "Audio Options (S4100-0104)" audio_modules)
           "VCC Interfaces (S4100-0104)" 1) cr in
  let cr :=
    when (has_fire_phone requirements)
      (fun cr => ensure cr "Telephone (S4100-0104)"
                   (Z.max 1 (fire_phone_circuits requirements))) cr in
  let cr :=
    when (requires_led_packages requirements)
      (fun cr => ensure cr "LED-Switch (4100-0032)" 1) cr in
  let cr :=
    when (has_smoke_management requirements || nonzero (relay_count requirements))
      (fun cr => ensure cr "Relay Modules"
                   (Z.max 1 (Py.ceil (Py.truediv (Z.max 1 (relay_count requirements)) 3)))) cr in
  let cr :=
    when (graphics_control requirements) (fun cr => ensure cr "Master Controller" 1) cr in
  let cr :=
    when (has_door_holder_220vac requirements)
      (fun cr => ensure cr "Relay Modules" (dict_get_or cr "Relay Modules" 0 + 1)) cr in
  filter (fun kv => 0 < snd kv) cr.

(** [_summarise_space_usage]. *)
Definition space_totals (repository : RuleRepository.t) (module_selection : pydict Z)
    : Q * Q :=
  fold_left
    (fun '(internal, door) '(model_number, quantity) =>
       match RuleRepository.get_module repository model_number with
       | None => (internal, door)
       | Some module =>
           ((internal + ModuleDefinition.internal_space module * inject_Z quantity)%Q,
            (door + ModuleDefinition.door_space module * inject_Z quantity)%Q)
       end)
    module_selection (0%Q, 0%Q).

Definition bays_for (used per_bay : Q) : Z :=
  if Py.Qlt_b 0 used then Py.ceil (used / per_bay)%Q else 0.

Definition _summarise_space_usage (repository : RuleRepository.t)
    (module_selection : pydict Z) : SpaceUsage.t * BayAllocation.t :=
  let '(internal, door) := space_totals repository module_selection in
  let internal_bays := bays_for internal INTERNAL_BLOCKS_PER_BAY in
  let door_bays := bays_for door DOOR_SLOTS_PER_BAY in
  (SpaceUsage.mk internal door,
   BayAllocation.mk internal_bays door_bays (Z.max internal_bays door_bays)).

(** The local [add] of [_derive_specific_modules]; every quantity passed is
    an integer, so [int(math.ceil(quantity))] is the quantity. *)
Definition add (plan : pydict Z) (model : string) (quantity : Z) : pydict Z :=
  if quantity <=? 0 then plan
  else dict_set plan model (Z.max (dict_get_or plan model 0) quantity).

Definition _derive_specific_modules (requirements : PanelRequirements.t) : pydict Z :=
  let plan : pydict Z := [] in
  let plan := add plan (alias "MASTER_CONTROLLER") 1 in
  let plan := add plan (alias "POWER_SUPPLY_MAIN") 1 in
  let plan := add plan (alias "IDNET_DUAL_LOOP") (idnet_modules_required requirements) in
  let plan :=
    when (1 <? idnet_modules_required requirements)
      (fun plan => add plan (alias "POWER_SUPPLY_EXPANSION")
                     (idnet_modules_required requirements - 1)) plan in
  let plan :=
    when (nonzero (nac_circuits_required requirements))
      (fun plan =>
         if prefer_addressable_nac requirements
         then add plan (alias "IDNAC_MODULE")
                (Py.ceil (Py.truediv (nac_circuits_required requirements) 2))
         else add plan (alias "CONVENTIONAL_NAC")
                (Py.ceil (Py.truediv (nac_circuits_required requirements) 3))) plan in
  let plan :=
    when (nac_class_a requirements)
      (fun plan => add plan (alias "NAC_CLASS_A")
                     (Z.max 1 (Py.ceil (Py.truediv (nac_circuits_required requirements) 3))))
      plan in
  let plan :=
    when (constant_supervision requirements)
      (fun plan => add plan (alias "NAC_SUPERVISION")
                     (Z.max 1 (Py.ceil (Py.truediv (nac_circuits_required requirements) 4))))
      plan in
  let plan :=
    when (voice_evacuation requirements)
      (fun plan =>
         let plan := add plan (alias "AUDIO_BASE") 1 in
         let plan := add plan (alias "AUDIO_OPERATOR") 1 in
         let amplifiers := Z.max 1 (Py.ceil (speaker_wattage requirements / 100)%Q) in
         let amplifiers :=
           if backup_amp_one_to_one requirements || dual_amplifier_per_zone requirements
           then amplifiers * 2
           else if backup_amp_one_for_all requirements then amplifiers + 1
           else amplifiers in
         let plan := add plan (alias "AUDIO_AMPLIFIER") amplifiers in
         when (speaker_class_a requirements)
           (fun plan => add plan (alias "AUDIO_CLASS_A")
                          (Z.max 1 (Py.ceil (Py.truediv (speaker_count requirements) 2))))
           plan) plan in
  let plan :=
    when (has_fire_phone requirements)
      (fun plan => add plan (alias "FIRE_PHONE")
                     (Z.max 1 (Py.ceil (Py.truediv
                                          (Z.max 1 (fire_phone_circuits requirements)) 3))))
      plan in
  let plan :=
    when (requires_led_packages requirements)
      (fun plan => add plan (alias "LED_CONTROLLER") 1) plan in
  let plan :=
    when (requires_printer requirements)
      (fun plan => add (add plan (alias "PRINTER") 1) (alias "RS232") 1) plan in
  let plan :=
    when (requires_network_cards requirements)
      (fun plan => add plan (alias "NETWORK_INTERFACE")
                     (Z.max 1 (network_links requirements))) plan in
  let total_relays := relay_count requirements in
  let total_relays :=
    if has_door_holder_220vac requirements
    then Z.max total_relays (relay_count requirements + 1) else total_relays in
  if fire_damper_control requirements
  then add plan (alias "RELAY_ZONE")
         (Z.max 1 (Py.ceil (Py.truediv (Z.max 8 total_relays) 8)))
  else if nonzero total_relays
  then add plan (alias "RELAY_MODULE") (Z.max 1 (Py.ceil (Py.truediv total_relays 3)))
  else plan.

(** The local [merge] of [_derive_enclosure_modules]. *)
Definition merge (plan source : pydict Z) : pydict Z :=
  fold_left
    (fun plan '(model, quantity) =>
       if quantity <=? 0 then plan
       else dict_set plan model (dict_get_or plan model 0 + quantity))
    source plan.

(** The bay count that the enclosure planner packs. *)
Definition required_bays (repository : RuleRepository.t) (module_selection : pydict Z) : Z :=
  Z.max 1 (BayAllocation.recommended_bays
             (snd (_summarise_space_usage repository module_selection))).

Definition _derive_enclosure_modules (repository : RuleRepository.t)
    (module_selection : pydict Z) : pydict Z :=
  let '(space_usage, _) := _summarise_space_usage repository module_selection in
  let required_bays := required_bays repository module_selection in
  let plan := merge [] (_allocate_enclosure_sizes required_bays CABINET_SIZE_TO_MODEL) in
  let door_map :=
    if Py.Qlt_b 0 (SpaceUsage.door_slots space_usage)
    then GLASS_DOOR_SIZE_TO_MODEL else SOLID_DOOR_SIZE_TO_MODEL in
  merge plan (_allocate_enclosure_sizes required_bays door_map).

(** The objective weight of a module in [_build_solver]. *)
Definition objective_weight (module : ModuleDefinition.t) : Z :=
  let unit_cost :=
    if Py.Qlt_b 0 (ModuleDefinition.price module) then ModuleDefinition.price module
    else if Py.Qnonzero (ModuleDefinition.block_count module)
         then ModuleDefinition.block_count module else 1%Q in
  Z.max 1 (Py.round (unit_cost * 100)%Q).

(** The constraints added by the loop over [category_requirements]: a
    category without catalog modules adds none. *)
Definition coverage_constraints (repository : RuleRepository.t)
    (category_requirements : pydict Z) : list (list string * Z) :=
  flat_map
    (fun '(category, min_quantity) =>
       match dict_get_or (RuleRepository.category_to_modules repository) category [] with
       | [] => []
       | modules => [(map ModuleDefinition.model_number modules, min_quantity)]
       end)
    category_requirements.

Definition build_model (repository : RuleRepository.t) (category_requirements : pydict Z)
    : CpSat.CpModel :=
  {| CpSat.int_vars :=
       map (fun module => (ModuleDefinition.model_number module, (0, 20)))
         (RuleRepository.modules repository);
     CpSat.constraints := coverage_constraints repository category_requirements;
     CpSat.objective :=
       map (fun module => (objective_weight module, ModuleDefinition.model_number module))
         (RuleRepository.modules repository) |}.

(** The selection read back from a solution: the non-zero values. *)
Definition read_solution (value : string -> Z) (modules : list ModuleDefinition.t)
    : pydict Z * Q :=
  fold_left
    (fun '(module_selection, total_cost) module =>
       let quantity := value (ModuleDefinition.model_number module) in
       if nonzero quantity
       then (dict_set module_selection (ModuleDefinition.model_number module) quantity,
             (total_cost + ModuleDefinition.price module * inject_Z quantity)%Q)
       else (module_selection, total_cost))
    modules ([], 0%Q).

(** The sort key of the greedy selector:
    [(price if price > 0 else inf, block_count, model_number)];
    [None] is [float("inf")]. *)
Definition greedy_key (module : ModuleDefinition.t) : option Q * Q * string :=
  (if Py.Qlt_b 0 (ModuleDefinition.price module)
   then Some (ModuleDefinition.price module) else None,
   ModuleDefinition.block_count module,
   ModuleDefinition.model_number module).

Definition price_eq (a b : option Q) : bool :=
  match a, b with
  | Some x, Some y => Qeq_bool x y
  | None, None => true
  | _, _ => false
  end.

Definition price_lt (a b : option Q) : bool :=
  match a, b with
  | Some x, Some y => Py.Qlt_b x y
  | Some _, None => true
  | None, _ => false
  end.

(** Tuple comparison: the first components that differ decide. *)
Definition key_lt (a b : option Q * Q * string) : bool :=
  let '(pa, ba, ma) := a in
  let '(pb, bb, mb) := b in
  if negb (price_eq pa pb) then price_lt pa pb
  else if negb (Qeq_bool ba bb) then Py.Qlt_b ba bb
  else String.ltb ma mb.

Definition greedy_sorted (modules : list ModuleDefinition.t) : list ModuleDefinition.t :=
  sorted (fun a b => key_lt (greedy_key a) (greedy_key b)) modules.

(** One iteration of the loop of [_build_greedy_selection]. *)
Definition greedy_step (repository : RuleRepository.t) (acc : pydict Z * Q)
    (item : string * Z) : pydict Z * Q :=
  let '(module_selection, total_cost) := acc in
  let '(category, quantity) := item in
  match greedy_sorted
          (dict_get_or (RuleRepository.category_to_modules repository) category []) with
  | [] => (module_selection, total_cost)
  | chosen :: _ =>
      let unit_cost :=
        if Py.Qlt_b 0 (ModuleDefinition.price chosen) then ModuleDefinition.price chosen
        else default 1%Q (RuleRepository.category_prices repository !! category) in
      (dict_set module_selection (ModuleDefinition.model_number chosen) quantity,
       (total_cost + unit_cost * inject_Z quantity)%Q)
  end.

Definition greedy_selection (repository : RuleRepository.t) (category_requirements : pydict Z)
    : pydict Z * Q :=
  fold_left (greedy_step repository) category_requirements ([], 0%Q).

Definition _build_greedy_selection (repository : RuleRepository.t)
    (category_requirements : pydict Z) : OptimizationResult.t :=
  let '(module_selection, total_cost) := greedy_selection repository category_requirements in
  let '(space_usage, bay_allocation) := _summarise_space_usage repository module_selection in
  OptimizationResult.mk category_requirements module_selection total_cost "GREEDY"
    space_usage bay_allocation.

(** The merge of the solver result with the specific-module plan. *)
Definition merge_plan (module_selection manual_plan : pydict Z) : pydict Z :=
  fold_left
    (fun sel '(model_number, quantity) =>
       dict_set sel model_number (Z.max (dict_get_or sel model_number 0) quantity))
    manual_plan module_selection.

(** The addition of the enclosure plan. *)
Definition add_enclosures (module_selection enclosure_plan : pydict Z) : pydict Z :=
  fold_left
    (fun sel '(model_number, quantity) =>
       dict_set sel model_number (dict_get_or sel model_number 0 + quantity))
    enclosure_plan module_selection.

Section WithSolver.
(** The module-level [cp_model]: [None] when the import failed. *)
Variable cp_model : option CpSat.t.

Definition _build_solver (repository : RuleRepository.t) (category_requirements : pydict Z)
    : option OptimizationResult.t :=
  match cp_model with
  | None => None
  | Some solver =>
      let response := CpSat.Solve solver (build_model repository category_requirements) in
      let '(module_selection, total_cost, status_name) :=
        if CpSat.is_solution (CpSat.status response) then
          let '(sel, cost) :=
            read_solution (CpSat.Value response) (RuleRepository.modules repository) in
          (sel, cost,
           match CpSat.status response with
           | CpSat.OPTIMAL => CpSat.OPTIMAL_str solver
           | _ => "FEASIBLE"
           end)
        else ([], 0%Q, "INFEASIBLE") in
      let '(space_usage, bay_allocation) :=
        _summarise_space_usage repository module_selection in
      Some (OptimizationResult.mk category_requirements module_selection total_cost
              status_name space_usage bay_allocation)
  end.

(** The optimizer's result inside [optimise_panel]. *)
Definition solver_result (repository : RuleRepository.t) (category_requirements : pydict Z)
    : OptimizationResult.t :=
  match _build_solver repository category_requirements with
  | Some r => r
  | None => _build_greedy_selection repository category_requirements
  end.

Definition optimise_panel (repository : RuleRepository.t)
    (answers : ProjectAnswers.t) (boq : DeviceBOQ.t) : OptimizationResult.t :=
  let requirements := build_requirements answers boq in
  let category_requirements := derive_category_requirements requirements in
  let solver_result := solver_result repository category_requirements in
  let manual_plan := _derive_specific_modules requirements in
  let module_selection :=
    merge_plan (OptimizationResult.module_selection solver_result) manual_plan in
  let enclosure_plan := _derive_enclosure_modules repository module_selection in
  let module_selection := add_enclosures module_selection enclosure_plan in
  let estimated_cost :=
    fold_left
      (fun acc '(model_number, quantity) =>
         (acc + RuleRepository.estimate_cost repository model_number quantity)%Q)
      module_selection 0%Q in
  let '(space_usage, bay_allocation) :=
    _summarise_space_usage repository module_selection in
  let solver_status := OptimizationResult.solver_status solver_result in
  let solver_status :=
    if Py.truthy_str solver_status then solver_status ++ "+PLAN" else "PLAN" in
  OptimizationResult.mk category_requirements module_selection estimated_cost
    solver_status space_usage bay_allocation.
End WithSolver.
End RuleEngine.

(** ** Vocabulary of the properties *)



(** What every configuration built by [create_annunciator_config] carries. *)
Definition annunciator_shape (base : gmap string PyVal) (c : PanelConfiguration.t) : Prop :=
  PanelConfiguration.is_remote_annunciator c = true /\
  PanelConfiguration.is_main_panel c = false /\
  PanelConfiguration.constraints c !! "network_connection" = Some (VBool true) /\
  PanelConfiguration.constraints c !! "protocol" = base !! "protocol" /\
  PanelConfiguration.constraints c !! "display_type" = base !! "display_type" /\
  DeviceBOQ.remote_annunciator (PanelConfiguration.boq c) = 1.

(** The door base in the specification's words: the largest slot value, the
    block values joining in only when the text holds no slot value at all. *)
Definition claimed_base_door (text : string) : Q :=
  let slots := Py.Qmax (numeric_slots text) (_inline_slot_usage text) in
  if Qeq_bool slots 0
  then Py.Qmax slots (Py.Qmax (numeric_blocks text) (_inline_block_usage text))
  else slots.

(** Every value of a dictionary satisfies [P]. *)
Definition dict_values_all (P : Z -> Prop) (d : pydict Z) : Prop :=
  forall k v, In (k, v) d -> P v.

(** The selection before the enclosures are added. *)
Definition merged_selection (cp_model : option CpSat.t) (repository : RuleRepository.t)
    (answers : ProjectAnswers.t) (boq : DeviceBOQ.t) : pydict Z :=
  let requirements := RuleEngine.build_requirements answers boq in
  RuleEngine.merge_plan
    (OptimizationResult.module_selection
       (RuleEngine.solver_result cp_model repository
          (RuleEngine.derive_category_requirements requirements)))
    (RuleEngine._derive_specific_modules requirements).

(** A solver for worked inputs: it proposes 20 for every variable and reports
    FEASIBLE when that meets the bounds and the constraints. *)
Definition all_twenty (m : CpSat.CpModel) : bool :=
  forallb (fun '(_, (lb, ub)) => (lb <=? 20) && (20 <=? ub)) (CpSat.int_vars m)
  && forallb (fun '(vars, bound) => bound <=? CpSat.sum_values (fun _ => 20) vars)
       (CpSat.constraints m).

Definition twenty_solver : CpSat.t :=
  CpSat.mk
    (fun m => CpSat.mkResponse (if all_twenty m then CpSat.FEASIBLE else CpSat.INFEASIBLE)
                (fun _ => 20))
    "OPTIMAL".

(** The dictionary filled from the workbook rows is keyed by model number. *)
Definition keyed_by_model (module_lookup : pydict ModuleDefinition.t) : Prop :=
  forall k m, In (k, m) module_lookup -> k = ModuleDefinition.model_number m.

(** [k] is one of the SKUs of [MODULE_ALIASES]. *)
Definition is_alias_sku (k : string) : Prop :=
  exists name, MODULE_ALIASES !! name = Some k.

Definition in_category (c : string) (m : ModuleDefinition.t) : bool :=
  existsb (String.eqb c) (ModuleDefinition.specification_categories m).

(** The quantity selected for a model number, 0 when it is not selected. *)
Definition selected (sel : pydict Z) (model_number : string) : Z :=
  dict_get_or sel model_number 0.

(** Coverage of a category: the selected quantities summed over the catalog
    modules whose specification categories include it. *)
Definition coverage (repository : RuleRepository.t) (sel : pydict Z) (c : string) : Z :=
  CpSat.sum_values (selected sel)
    (map ModuleDefinition.model_number
       (List.filter (in_category c) (RuleRepository.modules repository))).

(** Coverage over the by-category index, which lists a module once for each
    occurrence of the category among its specification categories. *)
Definition index_coverage (repository : RuleRepository.t) (sel : pydict Z) (c : string) : Z :=
  CpSat.sum_values (selected sel)
    (map ModuleDefinition.model_number
       (dict_get_or (RuleRepository.category_to_modules repository) c [])).

(** The module the greedy selector picks for a category. *)
Definition greedy_choice (repository : RuleRepository.t) (c : string) : option string :=
  match RuleEngine.greedy_sorted
          (dict_get_or (RuleRepository.category_to_modules repository) c []) with
  | [] => None
  | chosen :: _ => Some (ModuleDefinition.model_number chosen)
  end.

(** No two demanded categories pick the same module. *)
Definition distinct_choices (repository : RuleRepository.t) (demand : pydict Z) : Prop :=
  NoDup (omap (fun item : string * Z => greedy_choice repository (fst item)) demand).

(** A three-module workbook for worked inputs. *)
Definition demo_module (model_number category : string) (price internal : Q)
    : ModuleDefinition.t :=
  ModuleDefinition.mk model_number "" ["4100ES"] ["IDNet2"] None None None None None None
    [] "Main" "" "internal" [] [category] [] price internal 0.

Definition demo_lookup : pydict ModuleDefinition.t :=
  [ ("4100-9701", demo_module "4100-9701" "Master Controller" 4500 2);
    ("4100-5311", demo_module "4100-5311" "Power Supplies" 1200 1);
    ("4100-3109", demo_module "4100-3109" "IDNet Modules" 950 1) ].

Definition demo_repository : RuleRepository.t :=
  RuleRepository.mk (RuleRepository._load_modules demo_lookup) [] ∅
    RuleRepository.DEFAULT_CATEGORY_PRICES.

(** ** Vocabulary of the further properties *)

(** The bay size of an enclosure SKU, 0 for any other model number. *)
Definition bay_size (model_number : string) : Z :=
  match List.find (fun entry => String.eqb (EnclosureDefinition.model_number entry) model_number)
          ENCLOSURE_DEFINITIONS with
  | Some entry => EnclosureDefinition.size entry
  | None => 0
  end.

(** The bays that a plan of enclosure SKUs provides. *)
Definition packed_bays (plan : pydict Z) : Z :=
  fold_right (fun '(model_number, quantity) acc => bay_size model_number * quantity + acc) 0 plan.

Definition size_model (table : sizemap) (size : Z) : string :=
  default "" (sizemap_get table size).

(** Largest first over the sizes 3, 2, 1: as many 3-bay units as fit, then one
    unit for the bays that remain. *)
Definition largest_first (table : sizemap) (n : Z) : pydict Z :=
  ((if 3 <=? n then [(size_model table 3, n / 3)] else [])
   ++ (if n mod 3 =? 0 then [] else [(size_model table (n mod 3), 1)]))%list.

(** [x] lies between [lo] and [hi]. *)
Definition within (lo hi x : Q) : Prop := (lo <= x)%Q /\ (x <= hi)%Q.

(** The characters of the classes [[0-9]] and [[a-h]]. *)
Definition DIGITS : list ascii := list_ascii_of_string "0123456789".

Definition LETTERS_A_H : list ascii := list_ascii_of_string "abcdefgh".

(** Every price of the pricing tables is positive. *)
Definition prices_positive (repository : RuleRepository.t) : Prop :=
  (forall k p, RuleRepository.module_prices repository !! k = Some p -> (0 < p)%Q) /\
  (forall k p, RuleRepository.category_prices repository !! k = Some p -> (0 < p)%Q).

(** A solver that finds no solution. *)
Definition refusing_solver : CpSat.t :=
  CpSat.mk (fun _ => CpSat.mkResponse CpSat.INFEASIBLE (fun _ => 0)) "OPTIMAL".

(** The questions whose answers [process_answers] uses. *)
Definition CONSULTED_QUESTIONS : list Z :=
  [2; 3; 5; 6; 7; 8; 10; 11; 12; 13; 14; 15; 16; 18; 19; 20; 21; 22; 23; 24; 25; 26; 27;
   28; 29; 30; 31; 32; 33; 34; 35].

(** The answer given to question [k] reads yes once lower-cased and stripped. *)
Definition answered_yes (answers_dict : gmap Z string) (k : Z) : Prop :=
  exists a, answers_dict !! k = Some a /\ Py.strip (Py.lower a) = "yes".

(** The device fields that [get_cpsat_inputs] exports. *)
Definition EXPORTED_FIELDS : list (string * (DeviceBOQ.t -> Z)) :=
  List.filter
    (fun f => negb (String.eqb (fst f) "addressable_strobe"
                    || String.eqb (fst f) "remote_annunciator"))
    DeviceBOQ.fields.

(** [s] is a stripped cell of the sheet. *)
Definition cell_of (sheet : list (list string)) (s : string) : Prop :=
  exists row cell, In row sheet /\ In cell row /\ s = Py.strip cell.

(** A rule as the placement sheet gives it: the non-empty stripped text of a
    cell under a non-empty path of non-empty stripped cells. *)
Definition rule_from_sheet (sheet : list (list string)) (rule : PlacementRule.t) : Prop :=
  PlacementRule.text rule <> "" /\ cell_of sheet (PlacementRule.text rule) /\
  PlacementRule.path rule <> [] /\
  Forall (fun s => s <> "" /\ cell_of sheet s) (PlacementRule.path rule).

(** ** excel_reader.py *)

Module ExcelReader.

(** [str.isalpha] and [str.upper] on the ASCII range. *)
Definition islower (c : ascii) : bool := ((97 <=? Py.code c) && (Py.code c <=? 122))%N.

Definition isalpha (c : ascii) : bool := Py.isupper c || islower c.

Definition upper_char (c : ascii) : ascii :=
  if islower c then ascii_of_N (Py.code c - 32) else c.

Fixpoint upper (s : string) : string :=
  match s with
  | EmptyString => EmptyString
  | String c s' => String (upper_char c) (upper s')
  end.

(** The loop of [_column_index], [index] being the value so far. *)
Fixpoint column_index_loop (index : Z) (column_ref : string) : Z :=
  match column_ref with
  | EmptyString => index
  | String char rest =>
      if negb (isalpha char) then index
      else column_index_loop (index * 26 + (Z.of_N (Py.code (upper_char char)) - 64)) rest
  end.

Definition _column_index (column_ref : string) : Z := column_index_loop 0 column_ref.

(** [enumerate(l, start)]. *)
Fixpoint enumerate {A} (start : nat) (l : list A) : list (nat * A) :=
  match l with
  | [] => []
  | x :: l' => (start, x) :: enumerate (S start) l'
  end.

Module SheetData.
Record t := mk { name : string; rows : list (list string) }.

(** A record: keyed by header name, or by column number without header. *)
Inductive record :=
  | Named (d : pydict string)
  | Indexed (d : list (nat * string)).

(** The inner loop of [records]: one record from one row. *)
Definition record_of (headers row : list string) : pydict string :=
  fold_left
    (fun record '(idx, header_name) =>
       if negb (Py.truthy_str header_name) then record
       else dict_set record header_name (nth idx row ""))
    (enumerate 0 headers) [].

(** [any(value.strip() for value in record.values())]. *)
Definition any_value (record : pydict string) : bool :=
  existsb (fun value => Py.truthy_str (Py.strip value)) (map snd record).

Definition records (self : t) (header : bool) : list record :=
  match rows self with
  | [] => []
  | first :: rest =>
      if negb header then map (fun row => Indexed (enumerate 0 row)) (rows self)
      else
        let headers := map Py.strip first in
        map Named (List.filter any_value (map (record_of headers) rest))
  end.
End SheetData.

Module XLSXReader.

(** A cell of a sheet once parsed: its reference (the [r] attribute, A1 when
    absent) and its text once the shared string or the inline string has been
    resolved. *)
Definition cell : Type := string * string.

(** The column of a cell reference: [_column_index] of its letters. *)
Definition column_of (ref : string) : Z :=
  _column_index (Py.filter_chars isalpha ref).

(** [row_values[column_index] = value] on a dictionary in insertion order. *)
Fixpoint row_set (row_values : list (Z * string)) (column_index : Z) (value : string)
    : list (Z * string) :=
  match row_values with
  | [] => [(column_index, value)]
  | (k, v) :: rest =>
      if k =? column_index then (k, value) :: rest
      else (k, v) :: row_set rest column_index value
  end.

(** The first loop of [read_sheet] over the cells of one row. *)
Definition scan_row (max_column : Z) (cells : list cell) : list (Z * string) * Z :=
  fold_left
    (fun '(row_values, max_column) '(ref, value) =>
       let column_index := column_of ref in
       (row_set row_values column_index value, Z.max max_column column_index))
    cells ([], max_column).

Definition scan_rows (sheet : list (list cell)) : list (list (Z * string)) * Z :=
  fold_left
    (fun '(raw_rows, max_column) cells =>
       let '(row_values, max_column) := scan_row max_column cells in
       ((raw_rows ++ [row_values])%list, max_column))
    sheet ([], 0).

(** [row_list[i] = value]: a negative index counts from the end; [None] is
    [IndexError]. *)
Definition setitem (row_list : list string) (i : Z) (value : string) : option (list string) :=
  let n := Z.of_nat (length row_list) in
  if (0 <=? i) && (i <? n) then Some (<[Z.to_nat i := value]> row_list)
  else if (- n <=? i) && (i <? 0) then Some (<[Z.to_nat (n + i) := value]> row_list)
  else None.

(** The second loop of [read_sheet] for one row. *)
Definition fill_row (max_column : Z) (row_values : list (Z * string)) : option (list string) :=
  fold_left
    (fun row_list '(idx, value) =>
       match row_list with
       | Some row_list => setitem row_list (idx - 1) value
       | None => None
       end)
    row_values (Some (replicate (Z.to_nat max_column) "")).

Fixpoint fill_rows (max_column : Z) (raw_rows : list (list (Z * string)))
    : option (list (list string)) :=
  match raw_rows with
  | [] => Some []
  | row_values :: rest =>
      match fill_row max_column row_values with
      | None => None
      | Some row_list =>
          match fill_rows max_column rest with
          | None => None
          | Some rows => Some (row_list :: rows)
          end
      end
  end.

(** The rows of [read_sheet] from the parsed cells of the sheet's rows. *)
Definition read_sheet_rows (sheet : list (list cell)) : option (list (list string)) :=
  let '(raw_rows, max_column) := scan_rows sheet in
  fill_rows max_column raw_rows.
End XLSXReader.
End ExcelReader.

(** The column letters of a cell reference, and one step of the base-26
    reading of a letter. *)
Definition reference_letters (ref : string) : string :=
  Py.filter_chars ExcelReader.isalpha ref.

Definition letter_step (index : Z) (c : ascii) : Z :=
  index * 26 + (Z.of_N (Py.code (ExcelReader.upper_char c)) - 64).

(** * Properties *)

(** ** Worked inputs *)

Example space_slot_text :
  _derive_space_requirements "4100-0001" "2 slots, block ABCDE" "door" = (0, 5)%Q.
Proof. vm_compute. reflexivity. Qed.

Example numeric_pattern_skips_broken_decimal :
  Re.finditer Re._NUMERIC_SLOT_PATTERN 0 "1.2.3 slots" = ["2.3"].
Proof. reflexivity. Qed.

Example inline_slots_count_distinct_digits :
  _inline_slot_usage "Slot 12 slot 3" = 2%Q.
Proof. reflexivity. Qed.

Example allocate_4_bays :
  _allocate_enclosure_sizes 4 CABINET_SIZE_TO_MODEL = [("4100-9403", 1); ("4100-9401", 1)].
Proof. reflexivity. Qed.

(** Scenario S6: 500 smoke detectors over three panels. *)
Example partition_500_by_3 : MultiPanelBOQHandler.share 500 3 = 167.
Proof. reflexivity. Qed.

(** ** Arithmetic of ceilings *)



Lemma ceil_pos (x y : Q) : (0 < x)%Q -> (0 < y)%Q -> 1 <= Py.ceil (x / y)%Q.
Proof.
  intros Hx Hy. unfold Py.ceil.
  assert (Hq : (0 < x / y)%Q).
  { apply Qlt_shift_div_l; [assumption | rewrite Qmult_0_l; assumption]. }
  pose proof (Qle_ceiling (x / y)) as Hc.
  assert (Hz : (0 < inject_Z (Qceiling (x / y)))%Q) by (eapply Qlt_le_trans; eassumption).
  change 0%Q with (inject_Z 0) in Hz. rewrite <- Zlt_Qlt in Hz. lia.
Qed.

Lemma Qlt_b_true (a b : Q) : Py.Qlt_b a b = true <-> (a < b)%Q.
Proof.
  unfold Py.Qlt_b. rewrite negb_true_iff. split.
  - intros H. apply Qnot_le_lt. intros Hle. apply Qle_bool_iff in Hle. congruence.
  - intros H. destruct (Qle_bool b a) eqn:E; [|reflexivity].
    apply Qle_bool_iff in E. exfalso. eapply Qlt_not_le; eassumption.
Qed.

Lemma Qlt_b_false (a b : Q) : Py.Qlt_b a b = false <-> (b <= a)%Q.
Proof.
  unfold Py.Qlt_b. rewrite negb_false_iff. apply Qle_bool_iff.
Qed.

(** ** The BOQ partitioner *)







(** ** Question 26 *)

Lemma get_is_true (answers : gmap Z string) (k : Z) (s : string) :
  QandAProcessor.get_is answers k s = true <-> answers !! k = Some s.
Proof.
  unfold QandAProcessor.get_is. destruct (answers !! k) as [v|].
  - rewrite String.eqb_eq. split; congruence.
  - split; discriminate.
Qed.


Example q26_relay_count_needs_no_flag :
  let a := QandAProcessor.process_answers ProjectAnswers.new {[ 26 := "6 relays" ]} in
  ProjectAnswers.has_smoke_management a = false /\
  ProjectAnswers.smoke_management_relay_count a = 6.
Proof. vm_compute. split; reflexivity. Qed.

(** ** The placement-rule keyword check *)

Lemma append_cons (c : ascii) (s t : string) : String c s ++ t = String c (s ++ t).
Proof. reflexivity. Qed.

Lemma append_nil (t : string) : "" ++ t = t.
Proof. reflexivity. Qed.





Example engine_keywords_found :
  let repository :=
    RuleRepository.mk []
      [ PlacementRule.mk ["Bay 1"] "Power Supply goes in block A";
        PlacementRule.mk ["Bay 1"] "Audio controller and AMPLIFIER below";
        PlacementRule.mk ["Door"] "Display or annunciator on the door" ] ∅ ∅ in
  RuleRepository.ensure_rule_keywords repository RuleEngine.REQUIRED_KEYWORDS
  = (repository, RuleRepository.Returned).
Proof. vm_compute. reflexivity. Qed.

Example engine_keywords_missing :
  let repository :=
    RuleRepository.mk [] [ PlacementRule.mk ["Bay 1"] "Power supply goes in block A" ] ∅ ∅ in
  snd (RuleRepository.ensure_rule_keywords repository ["Power Supply"; "Amplifier"; "display"])
  = RuleRepository.ValueError
      "Missing critical placement guidelines in workbook: Amplifier, display".
Proof. vm_compute. reflexivity. Qed.

(** ** Remote annunciators *)

Lemma base_constraints_protocol (a : ProjectAnswers.t) :
  QandAProcessor.to_cpsat_constraints a !! "protocol"
  = Some (VStr (ProtocolType_value (ProjectAnswers.protocol a))).
Proof.
  unfold QandAProcessor.to_cpsat_constraints.
  destruct (AudioType_eqb (ProjectAnswers.audio_type a) NO_AUDIO);
    [|rewrite lookup_insert_ne by discriminate]; reflexivity.
Qed.

Lemma base_constraints_display (a : ProjectAnswers.t) :
  QandAProcessor.to_cpsat_constraints a !! "display_type"
  = Some (VStr (ProjectAnswers.display_type a)).
Proof.
  unfold QandAProcessor.to_cpsat_constraints.
  destruct (AudioType_eqb (ProjectAnswers.audio_type a) NO_AUDIO);
    [|rewrite lookup_insert_ne by discriminate]; reflexivity.
Qed.

Lemma processed_display_type (self_answers : ProjectAnswers.t) (qa : gmap Z string) :
  let d := ProjectAnswers.display_type (QandAProcessor.process_answers self_answers qa) in
  d = "touch_screen" \/ d = "2x40_lcd".
Proof.
  cbn. destruct (_ || _); [left | right]; reflexivity.
Qed.

Lemma create_annunciator_config_shape (base : gmap string PyVal) (audio mic led : bool)
    (proto : PyVal) (display : string) :
  base !! "protocol" = Some proto ->
  base !! "display_type" = Some (VStr display) ->
  display = "touch_screen" \/ display = "2x40_lcd" ->
  annunciator_shape base
    (RemoteAnnunciatorHandler.create_annunciator_config base audio mic led).
Proof.
  intros Hp Hd Hdisplay. unfold annunciator_shape.
  unfold RemoteAnnunciatorHandler.create_annunciator_config.
  cbn [PanelConfiguration.is_remote_annunciator PanelConfiguration.is_main_panel
       PanelConfiguration.constraints PanelConfiguration.boq DeviceBOQ.remote_annunciator].
  rewrite Hp, Hd. cbn [default from_option RemoteAnnunciatorHandler.is_str].
  repeat split.
  - destruct audio; [rewrite !lookup_insert_ne by discriminate|]; reflexivity.
  - destruct audio; [rewrite !lookup_insert_ne by discriminate|]; reflexivity.
  - destruct audio; [rewrite !lookup_insert_ne by discriminate|];
      destruct Hdisplay as [-> | ->]; reflexivity.
Qed.

(** C6 (as amended): when the answers ask for a remote annunciator with audio
    control, exactly one annunciator configuration is emitted, whatever the
    BOQ's [remote_annunciator] count; otherwise one is emitted per unit of
    that count. Every emitted annunciator configuration is flagged
    [is_remote_annunciator], is not a main panel, has [network_connection]
    true, and takes its protocol and display type from the main panels'
    constraints. *)
Theorem annunciator_configs_emitted (self : ProjectConfigurator.t) (qa : gmap Z string)
    (total_boq : DeviceBOQ.t) (num_panels : Z) :
  let answers := QandAProcessor.process_answers ProjectAnswers.new qa in
  exists (base : gmap string PyVal) (mains anns : list PanelConfiguration.t),
    ProjectConfigurator.process_project self true qa total_boq num_panels
    = Some (ProjectConfigurator.mk (Some answers)
              (ProjectConfigurator.panel_configurations self ++ mains ++ anns)%list,
            (ProjectConfigurator.panel_configurations self ++ mains ++ anns)%list) /\
    Forall (fun c => PanelConfiguration.is_main_panel c = true /\
                     PanelConfiguration.is_remote_annunciator c = false /\
                     PanelConfiguration.constraints c = base) mains /\
    base !! "protocol" = Some (VStr (ProtocolType_value (ProjectAnswers.protocol answers))) /\
    base !! "display_type" = Some (VStr (ProjectAnswers.display_type answers)) /\
    length anns
    = (if ProjectAnswers.remote_annunciator_with_audio_control answers then 1%nat
       else Z.to_nat (DeviceBOQ.remote_annunciator total_boq)) /\
    Forall (annunciator_shape base) anns.
Proof.
  intros answers. unfold ProjectConfigurator.process_project. cbn [negb].
  fold answers.
  set (base0 := QandAProcessor.to_cpsat_constraints answers).
  set (base := if 0 <? DeviceBOQ.fire_phone_jack total_boq then _ else base0).
  assert (Hproto : base !! "protocol"
                   = Some (VStr (ProtocolType_value (ProjectAnswers.protocol answers)))).
  { subst base. destruct (0 <? _); [rewrite !lookup_insert_ne by discriminate|];
      apply base_constraints_protocol. }
  assert (Hdisp : base !! "display_type"
                  = Some (VStr (ProjectAnswers.display_type answers))).
  { subst base. destruct (0 <? _); [rewrite !lookup_insert_ne by discriminate|];
      apply base_constraints_display. }
  pose proof (processed_display_type ProjectAnswers.new qa) as Hd. cbv zeta in Hd.
  fold answers in Hd.
  eexists base, _, _. split; [reflexivity|].
  split.
  { apply Forall_forall. intros c Hc.
    apply elem_of_lookup_imap in Hc as (i & b & -> & _). repeat split. }
  split; [exact Hproto|]. split; [exact Hdisp|].
  unfold ProjectConfigurator.annunciator_configs.
  destruct (ProjectAnswers.remote_annunciator_with_audio_control answers); cbn [negb].
  - rewrite andb_false_r. cbn [app]. split; [reflexivity|].
    constructor; [|constructor].
    eapply create_annunciator_config_shape; eassumption.
  - rewrite andb_true_r. destruct (0 <? DeviceBOQ.remote_annunciator total_boq) eqn:E.
    + cbn [app]. rewrite length_map, length_seq. split; [reflexivity|].
      apply Forall_forall. intros c Hc. apply list_elem_of_In, in_map_iff in Hc as (i & <- & _).
      pose proof (create_annunciator_config_shape base false false false _ _
                    Hproto Hdisp Hd) as Hs.
      exact Hs.
    + cbn [app length]. split; [|constructor].
      apply Z.ltb_ge in E. destruct (DeviceBOQ.remote_annunciator total_boq); cbn; lia.
Qed.

(** C6 as stated fails when the audio-control annunciator is asked for and the
    BOQ also counts annunciators: two are requested, one is emitted. *)
Lemma annunciator_count_ignored_with_audio_control :
  let total_boq := DeviceBOQ.mk 0 0 0 0 0 0 0 0 0 0 0 0 0 0 0 2 None in
  let emitted :=
    snd <$> ProjectConfigurator.process_project ProjectConfigurator.new true
              {[ 35 := "yes" ]} total_boq 1 in
  DeviceBOQ.remote_annunciator total_boq = 2 /\
  (fun configs => map PanelConfiguration.is_remote_annunciator configs) <$> emitted
  = Some [false; true].
Proof. vm_compute. split; reflexivity. Qed.

(** ** The door footprint base *)

Lemma Qmax_cases (a b : Q) :
  (Py.Qmax a b = a /\ (b <= a)%Q) \/ (Py.Qmax a b = b /\ (a < b)%Q).
Proof.
  unfold Py.Qmax. destruct (Py.Qlt_b a b) eqn:E.
  - right. split; [reflexivity | now apply Qlt_b_true].
  - left. split; [reflexivity | now apply Qlt_b_false].
Qed.

Lemma Qmax_ub_l (a b : Q) : (a <= Py.Qmax a b)%Q.
Proof.
  destruct (Qmax_cases a b) as [[-> _] | [-> H]];
    [apply Qle_refl | now apply Qlt_le_weak].
Qed.

Lemma Qmax_ub_r (a b : Q) : (b <= Py.Qmax a b)%Q.
Proof.
  destruct (Qmax_cases a b) as [[-> H] | [-> _]]; [assumption | apply Qle_refl].
Qed.

(** The maximum of four numbers, as [max(a, b, c, d)] computes it. *)
Lemma max4_spec (a b c d : Q) :
  let m := max_default0 [a; b; c; d] in
  ((a <= m)%Q /\ (b <= m)%Q /\ (c <= m)%Q /\ (d <= m)%Q) /\
  (m = a \/ m = b \/ m = c \/ m = d).
Proof.
  cbn. split.
  - repeat split.
    + eapply Qle_trans; [apply Qmax_ub_l|]. eapply Qle_trans; apply Qmax_ub_l.
    + eapply Qle_trans; [apply Qmax_ub_r|]. eapply Qle_trans; apply Qmax_ub_l.
    + eapply Qle_trans; [apply Qmax_ub_r|]. apply Qmax_ub_l.
    + apply Qmax_ub_r.
  - destruct (Qmax_cases (Py.Qmax (Py.Qmax a b) c) d) as [[-> _] | [-> _]]; [|tauto].
    destruct (Qmax_cases (Py.Qmax a b) c) as [[-> _] | [-> _]]; [|tauto].
    destruct (Qmax_cases a b) as [[-> _] | [-> _]]; tauto.
Qed.

(** C9 (as amended): for a model outside the override table and a mount of
    [door] or [both], the door base is the largest of: the numeric slot value,
    the inline slot value, the numeric block value when the numeric slot value
    is 0, and the inline block value when the inline slot value is 0. Each
    block value is switched off by the slot value of its own pattern family
    only. The door footprint is this base, raised to 1 when it is not positive
    (and to at least 1 for mount [both]). *)
Theorem door_base_by_pattern_family (model_number physical_size mounted_on : string) :
  SPACE_OVERRIDES !! model_number = None ->
  str_in (Py.lower (Py.strip mounted_on)) ["door"; "both"] = true ->
  let text := Py.strip physical_size in
  let ns := numeric_slots text in
  let isl := _inline_slot_usage text in
  let nb := numeric_blocks text in
  let ib := _inline_block_usage text in
  let bd := base_door text in
  (ns <= bd)%Q /\ (isl <= bd)%Q /\
  (ns == 0 -> nb <= bd)%Q /\ (isl == 0 -> ib <= bd)%Q /\
  (bd = ns \/ bd = isl \/ (ns == 0 /\ bd = nb)%Q \/ (isl == 0 /\ bd = ib)%Q \/ bd = 0%Q) /\
  snd (_derive_space_requirements model_number physical_size mounted_on)
  = (let door := if Qle_bool bd 0 then 1%Q else bd in
     if String.eqb (Py.lower (Py.strip mounted_on)) "both" then Py.Qmax door 1 else door).
Proof.
  intros Hover Hmount text ns isl nb ib bd.
  pose proof (max4_spec ns isl (if Qeq_bool ns 0 then nb else 0%Q)
                (if Qeq_bool isl 0 then ib else 0%Q)) as [(H1 & H2 & H3 & H4) Hmem].
  cbv zeta in Hmem. fold text ns isl nb ib in H1, H2, H3, H4, Hmem.
  change (max_default0 _) with bd in H1, H2, H3, H4, Hmem.
  split; [exact H1|]. split; [exact H2|]. split; [|split; [|split]].
  - intros Hz. apply Qeq_bool_iff in Hz. now rewrite Hz in H3.
  - intros Hz. apply Qeq_bool_iff in Hz. now rewrite Hz in H4.
  - destruct Hmem as [H | [H | [H | H]]]; [tauto | tauto | |].
    + destruct (Qeq_bool ns 0) eqn:E; [apply Qeq_bool_iff in E|]; tauto.
    + destruct (Qeq_bool isl 0) eqn:E; [apply Qeq_bool_iff in E|]; tauto.
  - unfold _derive_space_requirements. rewrite Hover. fold text.
    set (mount := Py.lower (Py.strip mounted_on)) in *.
    assert (Hm : mount = "door" \/ mount = "both").
    { cbn in Hmount. rewrite !orb_true_iff, !String.eqb_eq in Hmount.
      destruct Hmount as [H | [H | H]]; [left | right | discriminate]; congruence. }
    fold bd.
    destruct Hm as [-> | ->]; cbn [str_in existsb String.eqb Ascii.eqb Bool.eqb
                                     orb andb negb snd];
      rewrite ?andb_false_r; cbn [snd]; reflexivity.
Qed.

Lemma door_base_by_pattern_family_witness :
  snd (_derive_space_requirements "4100-0001" "2 slots, block ABCDE" "door")
  = (let door := if Qle_bool (base_door (Py.strip "2 slots, block ABCDE")) 0
                 then 1%Q else base_door (Py.strip "2 slots, block ABCDE") in
     if String.eqb (Py.lower (Py.strip "door")) "both" then Py.Qmax door 1 else door).
Proof.
  apply (door_base_by_pattern_family "4100-0001" "2 slots, block ABCDE" "door");
    reflexivity.
Defined.

(** C9 as stated fails when only one slot pattern matches: in
    ["2 slots, block ABCDE"] the numeric slot value is 2 and there is no inline
    slot value, so the inline block value 5 still enters the door base. *)
Lemma door_base_counts_blocks_beside_slots :
  let text := "2 slots, block ABCDE" in
  SPACE_OVERRIDES !! "4100-0001" = None /\
  Py.strip text = text /\
  numeric_slots text = 2%Q /\
  _inline_block_usage text = 5%Q /\
  claimed_base_door text = 2%Q /\
  base_door text = 5%Q /\
  _derive_space_requirements "4100-0001" text "door" = (0, 5)%Q.
Proof. vm_compute. repeat split. Qed.

(** ** Dictionaries *)

Section PyDictFacts.
Context {V : Type}.
Implicit Types (d : pydict V) (k : string) (v : V).

Lemma dict_get_set d k k' v :
  dict_get (dict_set d k v) k' = if String.eqb k k' then Some v else dict_get d k'.
Proof.
  induction d as [|[k0 v0] d IH]; cbn.
  - destruct (String.eqb k k'); reflexivity.
  - destruct (String.eqb k0 k) eqn:E0; cbn.
    + apply String.eqb_eq in E0. subst k0. destruct (String.eqb k k'); reflexivity.
    + rewrite IH. destruct (String.eqb k0 k') eqn:E1; [|reflexivity].
      apply String.eqb_eq in E1. subst k0. now rewrite String.eqb_sym, E0.
Qed.

Lemma dict_get_or_set d k k' v dflt :
  dict_get_or (dict_set d k v) k' dflt
  = if String.eqb k k' then v else dict_get_or d k' dflt.
Proof.
  unfold dict_get_or. rewrite dict_get_set. destruct (String.eqb k k'); reflexivity.
Qed.

Lemma dict_set_In d k v k' v' :
  In (k', v') (dict_set d k v) -> (k' = k /\ v' = v) \/ In (k', v') d.
Proof.
  induction d as [|[k0 v0] d IH]; cbn.
  - intros [H | []]. left. split; congruence.
  - destruct (String.eqb k0 k) eqn:E0; cbn.
    + apply String.eqb_eq in E0. subst k0.
      intros [H | H]; [left; split; congruence | right; now right].
    + intros [H | H]; [right; now left|]. destruct (IH H); [now left | right; now right].
Qed.

Lemma dict_get_In d k v : dict_get d k = Some v -> In (k, v) d.
Proof.
  induction d as [|[k0 v0] d IH]; cbn; [discriminate|].
  destruct (String.eqb k0 k) eqn:E0.
  - apply String.eqb_eq in E0. intros [= ->]. left. congruence.
  - intros H. right. now apply IH.
Qed.

Lemma dict_get_key d k v : dict_get d k = Some v -> In k (dict_keys d).
Proof.
  intros H. apply dict_get_In in H. unfold dict_keys.
  apply in_map_iff. now exists (k, v).
Qed.

Lemma dict_key_get d k : In k (dict_keys d) -> exists v, dict_get d k = Some v.
Proof.
  induction d as [|[k0 v0] d IH]; cbn; [intros []|].
  destruct (String.eqb k0 k) eqn:E0; [eauto|].
  intros [H | H]; [|now apply IH].
  subst k0. now rewrite String.eqb_refl in E0.
Qed.

Lemma dict_set_keys d k v k' :
  In k' (dict_keys (dict_set d k v)) -> k' = k \/ In k' (dict_keys d).
Proof.
  unfold dict_keys. rewrite !in_map_iff. intros ([k0 v0] & <- & H).
  apply dict_set_In in H as [[-> _] | H]; [now left | right].
  now exists (k0, v0).
Qed.
End PyDictFacts.

Lemma dict_values_all_get (P : Z -> Prop) (d : pydict Z) (k : string) :
  dict_values_all P d -> P 0 -> P (dict_get_or d k 0).
Proof.
  intros Hd H0. unfold dict_get_or. destruct (dict_get d k) as [v|] eqn:E; cbn.
  - eapply Hd, dict_get_In, E.
  - exact H0.
Qed.

Lemma dict_values_all_set (P : Z -> Prop) (d : pydict Z) (k : string) (v : Z) :
  dict_values_all P d -> P v -> dict_values_all P (dict_set d k v).
Proof.
  intros Hd Hv k' v' Hin. apply dict_set_In in Hin as [[_ ->] | Hin]; eauto.
Qed.

(** ** Merging the plan and the enclosures into the selection *)

(** Arithmetic over dictionary lookups: the lookups are atoms for [lia]. *)
Ltac lookups_lia :=
  repeat match goal with
    | |- context [@dict_get_or Z ?d ?k ?v] =>
        let z := fresh "z" in set (z := @dict_get_or Z d k v) in *; clearbody z
    | H : context [@dict_get_or Z ?d ?k ?v] |- _ =>
        let z := fresh "z" in set (z := @dict_get_or Z d k v) in *; clearbody z
    end;
  lia.

Lemma merge_plan_ge (plan sel : pydict Z) (m : string) :
  dict_get_or sel m 0 <= dict_get_or (RuleEngine.merge_plan sel plan) m 0.
Proof.
  unfold RuleEngine.merge_plan. revert sel.
  induction plan as [|[k q] plan IH]; intros sel; cbn [fold_left]; [lia|].
  etransitivity; [|apply IH]. rewrite dict_get_or_set.
  destruct (String.eqb k m) eqn:E; [apply String.eqb_eq in E; subst k|]; lookups_lia.
Qed.

Lemma merge_plan_ge_plan (plan sel : pydict Z) (m : string) (q : Z) :
  In (m, q) plan -> q <= dict_get_or (RuleEngine.merge_plan sel plan) m 0.
Proof.
  unfold RuleEngine.merge_plan. revert sel.
  induction plan as [|[k q'] plan IH]; intros sel; cbn [fold_left In]; [intros []|].
  intros [[= -> ->] | Hin]; [|now apply IH].
  etransitivity; [|apply merge_plan_ge]. rewrite dict_get_or_set, String.eqb_refl. lookups_lia.
Qed.

Lemma merge_plan_keys (plan sel : pydict Z) (m : string) :
  In m (dict_keys (RuleEngine.merge_plan sel plan)) ->
  In m (dict_keys sel) \/ In m (dict_keys plan).
Proof.
  unfold RuleEngine.merge_plan. revert sel.
  induction plan as [|[k q] plan IH]; intros sel; cbn [fold_left]; [now left|].
  intros H. apply IH in H as [H | H]; [|right; now right].
  apply dict_set_keys in H as [-> | H]; [right; now left | now left].
Qed.

Lemma add_enclosures_ge (encl sel : pydict Z) (m : string) :
  dict_values_all (fun v => 0 <= v) encl ->
  dict_get_or sel m 0 <= dict_get_or (RuleEngine.add_enclosures sel encl) m 0.
Proof.
  unfold RuleEngine.add_enclosures. revert sel.
  induction encl as [|[k q] encl IH]; intros sel Hpos; cbn [fold_left]; [lia|].
  etransitivity; [|apply IH; intros k' v' H; apply (Hpos k' v'); now right].
  rewrite dict_get_or_set. assert (0 <= q) by (apply (Hpos k q); now left).
  destruct (String.eqb k m) eqn:E; [apply String.eqb_eq in E; subst k|]; lookups_lia.
Qed.

Lemma add_enclosures_keys (encl sel : pydict Z) (m : string) :
  In m (dict_keys (RuleEngine.add_enclosures sel encl)) ->
  In m (dict_keys sel) \/ In m (dict_keys encl).
Proof.
  unfold RuleEngine.add_enclosures. revert sel.
  induction encl as [|[k q] encl IH]; intros sel; cbn [fold_left]; [now left|].
  intros H. apply IH in H as [H | H]; [|right; now right].
  apply dict_set_keys in H as [-> | H]; [right; now left | now left].
Qed.

Lemma merge_positive (source plan : pydict Z) :
  dict_values_all (fun v => 0 < v) plan ->
  dict_values_all (fun v => 0 < v) (RuleEngine.merge plan source).
Proof.
  unfold RuleEngine.merge. revert plan.
  induction source as [|[k q] source IH]; intros plan Hplan; cbn [fold_left]; [assumption|].
  apply IH. destruct (q <=? 0) eqn:E; [assumption|]. apply Z.leb_gt in E.
  apply dict_values_all_set; [assumption|].
  pose proof (dict_values_all_get (fun v => 0 <= v) plan k) as H.
  cbn beta in H. assert (0 <= dict_get_or plan k 0); [|lookups_lia].
  apply H; [|lia]. intros k' v' Hin. apply Hplan in Hin. lia.
Qed.

Lemma merge_keys (source plan : pydict Z) (m : string) :
  In m (dict_keys (RuleEngine.merge plan source)) ->
  In m (dict_keys plan) \/ In m (dict_keys source).
Proof.
  unfold RuleEngine.merge. revert plan.
  induction source as [|[k q] source IH]; intros plan; cbn [fold_left]; [now left|].
  intros H. apply IH in H as [H | H]; [|right; now right].
  destruct (q <=? 0); [now left|].
  apply dict_set_keys in H as [-> | H]; [right; now left | now left].
Qed.

Lemma enclosure_plan_positive (repository : RuleRepository.t) (sel : pydict Z) :
  dict_values_all (fun v => 0 < v) (RuleEngine._derive_enclosure_modules repository sel).
Proof.
  unfold RuleEngine._derive_enclosure_modules.
  destruct (RuleEngine._summarise_space_usage repository sel) as [usage bays].
  apply merge_positive, merge_positive. intros k v [].
Qed.

(** ** The catalog indices *)

Lemma insert_sorted_In {A} (lt : A -> A -> bool) (x y : A) (l : list A) :
  In y (insert_sorted lt x l) <-> y = x \/ In y l.
Proof.
  induction l as [|z l IH]; cbn.
  - intuition congruence.
  - destruct (lt x z); cbn; [intuition congruence|]. rewrite IH. intuition congruence.
Qed.

Lemma sorted_In {A} (lt : A -> A -> bool) (y : A) (l : list A) :
  In y (sorted lt l) <-> In y l.
Proof.
  unfold sorted.
  enough (H : forall acc, In y (fold_left (fun acc x => insert_sorted lt x acc) l acc)
                          <-> In y acc \/ In y l).
  { rewrite H. cbn. tauto. }
  induction l as [|x l IH]; intros acc; cbn [fold_left].
  - cbn. tauto.
  - rewrite IH, insert_sorted_In. cbn. intuition congruence.
Qed.

Lemma dict_append_get (d : pydict (list ModuleDefinition.t)) (k c : string)
    (m : ModuleDefinition.t) :
  dict_get_or (RuleRepository.dict_append d k m) c []
  = if String.eqb k c then (dict_get_or d k [] ++ [m])%list else dict_get_or d c [].
Proof.
  unfold RuleRepository.dict_append. apply dict_get_or_set.
Qed.

Lemma category_index_members (mods : list ModuleDefinition.t) (c : string)
    (m : ModuleDefinition.t) :
  In m (dict_get_or (RuleRepository.build_category_index mods) c []) ->
  In m mods /\ In c (ModuleDefinition.specification_categories m).
Proof.
  unfold RuleRepository.build_category_index.
  enough (H : forall acc,
             In m (dict_get_or
                     (fold_left
                        (fun d m0 => fold_left (fun d c0 => RuleRepository.dict_append d c0 m0)
                                       (ModuleDefinition.specification_categories m0) d)
                        mods acc) c []) ->
             In m (dict_get_or acc c []) \/
             (In m mods /\ In c (ModuleDefinition.specification_categories m))).
  { intros Hin. apply H in Hin as [[] | Hin]. exact Hin. }
  induction mods as [|m0 mods IH]; intros acc; cbn [fold_left]; [now left|].
  intros Hin. apply IH in Hin as [Hin | [Hin Hc]]; [|right; split; [now right | exact Hc]].
  assert (Hinner : forall cats d,
             In m (dict_get_or (fold_left (fun d c0 => RuleRepository.dict_append d c0 m0)
                                  cats d) c []) ->
             In m (dict_get_or d c []) \/ (m = m0 /\ In c cats)).
  { clear. induction cats as [|c0 cats IH]; intros d; cbn [fold_left]; [now left|].
    intros Hin. apply IH in Hin as [Hin | [-> Hc]]; [|right; split; [reflexivity | now right]].
    rewrite dict_append_get in Hin. destruct (String.eqb c0 c) eqn:E; [|now left].
    apply String.eqb_eq in E. subst c0. apply in_app_or in Hin as [Hin | [<- | []]].
    - now left.
    - right. split; [reflexivity | now left]. }
  apply Hinner in Hin as [Hin | [-> Hc]]; [now left | right]. split; [now left | exact Hc].
Qed.

Lemma module_index_lookup (mods : list ModuleDefinition.t) (k : string) :
  is_Some (RuleRepository.build_module_index mods !! k) <->
  In k (map ModuleDefinition.model_number mods).
Proof.
  unfold RuleRepository.build_module_index.
  enough (H : forall acc : gmap string ModuleDefinition.t,
             is_Some (fold_left (fun idx m => <[ModuleDefinition.model_number m := m]> idx)
                        mods acc !! k)
             <-> is_Some (acc !! k) \/ In k (map ModuleDefinition.model_number mods)).
  { rewrite H, lookup_empty. split; [intros [[? [=]] | ?]; assumption | now right]. }
  induction mods as [|m mods IH]; intros acc; cbn [fold_left map In]; [tauto|].
  rewrite IH, lookup_insert_is_Some. destruct (decide (ModuleDefinition.model_number m = k));
    intuition congruence.
Qed.

(** ** Where the optimizer's keys and values come from *)

Lemma read_solution_spec (value : string -> Z) (mods : list ModuleDefinition.t) :
  let sel := fst (RuleEngine.read_solution value mods) in
  (forall k v, In (k, v) sel ->
     v = value k /\ In k (map ModuleDefinition.model_number mods)) /\
  (forall k, In k (map ModuleDefinition.model_number mods) ->
     dict_get_or sel k 0 = value k).
Proof.
  unfold RuleEngine.read_solution.
  enough (H : forall (acc : pydict Z) (cost : Q),
             (forall k v, dict_get acc k = Some v -> v = value k) ->
             let sel := fst (fold_left
                               (fun '(module_selection, total_cost) module =>
                                  let quantity := value (ModuleDefinition.model_number module) in
                                  if RuleEngine.nonzero quantity
                                  then (dict_set module_selection
                                          (ModuleDefinition.model_number module) quantity,
                                        (total_cost
                                         + ModuleDefinition.price module * inject_Z quantity)%Q)
                                  else (module_selection, total_cost))
                               mods (acc, cost)) in
             (forall k v, In (k, v) sel ->
                In (k, v) acc \/
                (v = value k /\ In k (map ModuleDefinition.model_number mods))) /\
             (forall k, dict_get_or acc k 0 = value k \/
                        In k (map ModuleDefinition.model_number mods) ->
                        dict_get_or sel k 0 = value k)).
  { specialize (H [] 0%Q ltac:(intros k v [=])). cbv zeta in *. destruct H as [H1 H2]. split.
    - intros k v Hin. destruct (H1 k v Hin) as [[] | ?]. assumption.
    - intros k Hin. apply H2. now right. }
  induction mods as [|m mods IH]; intros acc cost Hacc; cbn [fold_left map In].
  - cbn. split; [now left | intros k [H | []]; exact H].
  - cbv zeta.
    destruct (RuleEngine.nonzero (value (ModuleDefinition.model_number m))) eqn:E.
    + destruct (IH (dict_set acc (ModuleDefinition.model_number m)
                      (value (ModuleDefinition.model_number m)))
                  (cost + ModuleDefinition.price m
                          * inject_Z (value (ModuleDefinition.model_number m)))%Q)
        as [H1 H2].
      { intros k v. rewrite dict_get_set.
        destruct (String.eqb (ModuleDefinition.model_number m) k) eqn:Ek; [|apply Hacc].
        apply String.eqb_eq in Ek. subst k. congruence. }
      split.
      * intros k v Hin. apply H1 in Hin as [Hin | [Hv Hk]]; [|right; split; [exact Hv | now right]].
        apply dict_set_In in Hin as [[-> ->] | Hin]; [right | now left].
        split; [reflexivity | now left].
      * intros k Hk. apply H2. rewrite dict_get_or_set.
        destruct (String.eqb (ModuleDefinition.model_number m) k) eqn:Ek.
        -- left. apply String.eqb_eq in Ek. now subst k.
        -- destruct Hk as [Hk | [Hk | Hk]]; [now left | | now right].
           subst k. now rewrite String.eqb_refl in Ek.
    + destruct (IH acc cost Hacc) as [H1 H2]. split.
      * intros k v Hin. apply H1 in Hin as [Hin | [Hv Hk]]; [now left | right].
        split; [exact Hv | now right].
      * intros k Hk. apply H2. destruct Hk as [Hk | [Hk | Hk]]; [now left | | now right].
        subst k. left.
        unfold RuleEngine.nonzero in E. apply negb_false_iff, Z.eqb_eq in E.
        rewrite E. unfold dict_get_or.
        destruct (dict_get acc (ModuleDefinition.model_number m)) as [v|] eqn:Eg;
          [|reflexivity].
        cbn. apply Hacc in Eg. congruence.
Qed.

Lemma greedy_selection_spec (repository : RuleRepository.t) (demand : pydict Z) :
  forall k v, In (k, v) (fst (RuleEngine.greedy_selection repository demand)) ->
    In k (map ModuleDefinition.model_number (RuleRepository.modules repository)) /\
    exists c, In (c, v) demand.
Proof.
  unfold RuleEngine.greedy_selection.
  enough (H : forall acc k v,
             In (k, v) (fst (fold_left (RuleEngine.greedy_step repository) demand acc)) ->
             In (k, v) (fst acc) \/
             (In k (map ModuleDefinition.model_number (RuleRepository.modules repository)) /\
              exists c, In (c, v) demand)).
  { intros k v Hin. apply H in Hin as [[] | Hin]. exact Hin. }
  induction demand as [|[c q] demand IH]; intros [sel cost] k v; cbn [fold_left]; [now left|].
  intros Hin. apply IH in Hin as [Hin | [Hk [c' Hc']]];
    [|right; split; [exact Hk | exists c'; now right]].
  unfold RuleEngine.greedy_step in Hin.
  destruct (RuleEngine.greedy_sorted _) as [|chosen rest] eqn:Es; [now left|].
  cbn [fst] in Hin. apply dict_set_In in Hin as [[-> ->] | Hin]; [right | now left].
  split; [|exists c; now left].
  assert (Hch : In chosen (RuleEngine.greedy_sorted
                             (dict_get_or (RuleRepository.category_to_modules repository) c [])))
    by (rewrite Es; now left).
  apply sorted_In, category_index_members in Hch as [Hch _].
  apply in_map_iff. now exists chosen.
Qed.

(** ** The shape of [optimise_panel]'s result *)

Lemma summarise_fst_snd (repository : RuleRepository.t) (sel : pydict Z) :
  RuleEngine._summarise_space_usage repository sel
  = (fst (RuleEngine._summarise_space_usage repository sel),
     snd (RuleEngine._summarise_space_usage repository sel)).
Proof. destruct (RuleEngine._summarise_space_usage repository sel). reflexivity. Qed.

(** The optimizer's selection: the solution read back from the solver, nothing
    when the solver reports no solution, the greedy selection without solver. *)
Lemma solver_result_selection (cp_model : option CpSat.t) (repository : RuleRepository.t)
    (demand : pydict Z) :
  OptimizationResult.module_selection (RuleEngine.solver_result cp_model repository demand)
  = match cp_model with
    | Some solver =>
        let response := CpSat.Solve solver (RuleEngine.build_model repository demand) in
        if CpSat.is_solution (CpSat.status response)
        then fst (RuleEngine.read_solution (CpSat.Value response)
                    (RuleRepository.modules repository))
        else []
    | None => fst (RuleEngine.greedy_selection repository demand)
    end.
Proof.
  unfold RuleEngine.solver_result, RuleEngine._build_solver,
    RuleEngine._build_greedy_selection.
  destruct cp_model as [solver|].
  - cbv zeta. destruct (CpSat.is_solution _).
    + destruct (RuleEngine.read_solution _ _) as [sel cost].
      rewrite (summarise_fst_snd repository sel). reflexivity.
    + rewrite (summarise_fst_snd repository []). reflexivity.
  - destruct (RuleEngine.greedy_selection repository demand) as [sel cost].
    rewrite (summarise_fst_snd repository sel). reflexivity.
Qed.

Lemma optimise_panel_selection (cp_model : option CpSat.t) (repository : RuleRepository.t)
    (answers : ProjectAnswers.t) (boq : DeviceBOQ.t) :
  OptimizationResult.module_selection
    (RuleEngine.optimise_panel cp_model repository answers boq)
  = RuleEngine.add_enclosures (merged_selection cp_model repository answers boq)
      (RuleEngine._derive_enclosure_modules repository
         (merged_selection cp_model repository answers boq)).
Proof.
  unfold RuleEngine.optimise_panel, merged_selection. cbv zeta.
  rewrite summarise_fst_snd. reflexivity.
Qed.

Lemma optimise_panel_bays (cp_model : option CpSat.t) (repository : RuleRepository.t)
    (answers : ProjectAnswers.t) (boq : DeviceBOQ.t) :
  let result := RuleEngine.optimise_panel cp_model repository answers boq in
  (OptimizationResult.space_usage result, OptimizationResult.bay_allocation result)
  = RuleEngine._summarise_space_usage repository
      (OptimizationResult.module_selection result).
Proof.
  cbv zeta. rewrite optimise_panel_selection.
  unfold RuleEngine.optimise_panel. cbv zeta. fold (merged_selection cp_model repository answers boq).
  rewrite (summarise_fst_snd repository (RuleEngine.add_enclosures _ _)). reflexivity.
Qed.

Lemma derived_demand_positive (requirements : PanelRequirements.t) :
  dict_values_all (fun v => 0 < v) (RuleEngine.derive_category_requirements requirements).
Proof.
  intros k v Hin. unfold RuleEngine.derive_category_requirements in Hin. cbv zeta in Hin.
  apply list_elem_of_In, list_elem_of_filter in Hin as [Hpos _]. exact Hpos.
Qed.

(** With a solver that keeps the declared bounds [0..20], and a demand without
    negative quantities, the optimizer selects no negative quantity. *)
Lemma optimizer_selection_nonneg (cp_model : option CpSat.t) (repository : RuleRepository.t)
    (demand : pydict Z) :
  (forall solver, cp_model = Some solver -> CpSat.sound solver) ->
  dict_values_all (fun v => 0 <= v) demand ->
  dict_values_all (fun v => 0 <= v)
    (OptimizationResult.module_selection (RuleEngine.solver_result cp_model repository demand)).
Proof.
  intros Hsound Hdemand k v. rewrite solver_result_selection.
  destruct cp_model as [solver|].
  - cbv zeta. destruct (CpSat.is_solution _) eqn:Es; [|intros []].
    intros Hin. apply read_solution_spec in Hin as [-> Hk].
    destruct (Hsound solver eq_refl _ Es) as [Hbounds _].
    apply in_map_iff in Hk as (m & <- & Hm).
    apply (Hbounds (ModuleDefinition.model_number m) 0 20).
    cbn [RuleEngine.build_model CpSat.int_vars]. apply in_map_iff. now exists m.
  - intros Hin. apply greedy_selection_spec in Hin as [_ [c Hc]]. exact (Hdemand c v Hc).
Qed.

Lemma optimizer_selection_keys (cp_model : option CpSat.t) (repository : RuleRepository.t)
    (demand : pydict Z) (k : string) :
  In k (dict_keys (OptimizationResult.module_selection
                     (RuleEngine.solver_result cp_model repository demand))) ->
  In k (map ModuleDefinition.model_number (RuleRepository.modules repository)).
Proof.
  rewrite solver_result_selection. unfold dict_keys. rewrite in_map_iff.
  intros ([k' v] & <- & Hin). cbn [fst]. destruct cp_model as [solver|].
  - cbv zeta in Hin. destruct (CpSat.is_solution _); [|destruct Hin].
    now apply read_solution_spec in Hin as [_ Hk].
  - now apply greedy_selection_spec in Hin as [Hk _].
Qed.

Lemma twenty_solver_sound : CpSat.sound twenty_solver.
Proof.
  intros m Hs. cbn in Hs. destruct (all_twenty m) eqn:E; [|discriminate].
  unfold all_twenty in E. apply andb_prop in E as [Ev Ec].
  rewrite forallb_forall in Ev, Ec. split.
  - intros v lb ub Hin. specialize (Ev _ Hin). cbn in Ev. cbn. lia.
  - intros vars bound Hin. specialize (Ec _ Hin). cbn in Ec. cbn. lia.
Defined.

Lemma twenty_solver_only (solver : CpSat.t) :
  Some twenty_solver = Some solver -> CpSat.sound solver.
Proof. intros [= <-]. exact twenty_solver_sound. Defined.

Lemma no_solver_sound (solver : CpSat.t) : None = Some solver -> CpSat.sound solver.
Proof. intros [=]. Defined.

(** C2: for every answers/BOQ input and every model number, the final
    selection of [optimise_panel] holds at least the optimizer's quantity and
    at least the plan's quantity, an absent model counting as 0. The solver is
    taken to keep its contract (values inside the declared bounds). *)
Theorem merge_monotone (cp_model : option CpSat.t) (repository : RuleRepository.t)
    (answers : ProjectAnswers.t) (boq : DeviceBOQ.t) (m : string) :
  (forall solver, cp_model = Some solver -> CpSat.sound solver) ->
  let requirements := RuleEngine.build_requirements answers boq in
  let optimizer :=
    OptimizationResult.module_selection
      (RuleEngine.solver_result cp_model repository
         (RuleEngine.derive_category_requirements requirements)) in
  let plan := RuleEngine._derive_specific_modules requirements in
  let final :=
    OptimizationResult.module_selection
      (RuleEngine.optimise_panel cp_model repository answers boq) in
  dict_get_or optimizer m 0 <= dict_get_or final m 0 /\
  dict_get_or plan m 0 <= dict_get_or final m 0.
Proof.
  intros Hsound requirements optimizer plan final.
  assert (Hencl : dict_get_or (RuleEngine.merge_plan optimizer plan) m 0
                  <= dict_get_or final m 0).
  { unfold final. rewrite optimise_panel_selection.
    apply add_enclosures_ge. intros k v Hin.
    apply enclosure_plan_positive in Hin. lia. }
  pose proof (merge_plan_ge plan optimizer m) as Hopt.
  split; [lookups_lia|].
  unfold dict_get_or at 1. destruct (dict_get plan m) as [q|] eqn:Eq; cbn [default from_option id].
  - apply dict_get_In in Eq. pose proof (merge_plan_ge_plan plan optimizer m q Eq).
    lookups_lia.
  - assert (0 <= dict_get_or optimizer m 0); [|lookups_lia].
    apply (dict_values_all_get (fun v => 0 <= v)); [|lia].
    apply optimizer_selection_nonneg; [exact Hsound|].
    intros k v Hin. apply derived_demand_positive in Hin. lia.
Qed.

(** ** The essential SKUs of the plan *)

Lemma add_keeps (plan : pydict Z) (k k' : string) (q : Z) :
  1 <= dict_get_or plan k 0 -> 1 <= dict_get_or (RuleEngine.add plan k' q) k 0.
Proof.
  intros H. unfold RuleEngine.add. destruct (q <=? 0); [exact H|].
  rewrite dict_get_or_set.
  destruct (String.eqb k' k) eqn:E; [apply String.eqb_eq in E; subst k'|]; lookups_lia.
Qed.

Lemma add_puts (plan : pydict Z) (k : string) (q : Z) :
  1 <= q -> 1 <= dict_get_or (RuleEngine.add plan k q) k 0.
Proof.
  intros H. unfold RuleEngine.add. destruct (q <=? 0) eqn:E; [apply Z.leb_le in E; lia|].
  rewrite dict_get_or_set, String.eqb_refl. lookups_lia.
Qed.

Lemma when_keeps (k : string) (b : bool) (f : pydict Z -> pydict Z) (plan : pydict Z) :
  (forall p, 1 <= dict_get_or p k 0 -> 1 <= dict_get_or (f p) k 0) ->
  1 <= dict_get_or plan k 0 -> 1 <= dict_get_or (RuleEngine.when b f plan) k 0.
Proof. intros Hf H. unfold RuleEngine.when. destruct b; auto. Qed.

Ltac plan_keeps :=
  repeat first
    [ assumption
    | apply add_puts; lia
    | apply add_keeps
    | apply when_keeps; [intros ? ?; cbv beta zeta |]
    | match goal with |- context [if ?c then _ else _] => destruct c end ].

Lemma plan_has_master_controller (requirements : PanelRequirements.t) :
  1 <= dict_get_or (RuleEngine._derive_specific_modules requirements)
         (alias "MASTER_CONTROLLER") 0.
Proof.
  unfold RuleEngine._derive_specific_modules. cbv zeta.
  assert (H0 : 1 <= dict_get_or (RuleEngine.add [] (alias "MASTER_CONTROLLER") 1)
                      (alias "MASTER_CONTROLLER") 0) by (apply add_puts; lia).
  revert H0. generalize (RuleEngine.add [] (alias "MASTER_CONTROLLER") 1).
  intros p0 H0. plan_keeps.
Qed.

Lemma plan_has_main_power_supply (requirements : PanelRequirements.t) :
  1 <= dict_get_or (RuleEngine._derive_specific_modules requirements)
         (alias "POWER_SUPPLY_MAIN") 0.
Proof.
  unfold RuleEngine._derive_specific_modules. cbv zeta.
  assert (H0 : forall p, 1 <= dict_get_or (RuleEngine.add p (alias "POWER_SUPPLY_MAIN") 1)
                                (alias "POWER_SUPPLY_MAIN") 0)
    by (intros p; apply add_puts; lia).
  specialize (H0 (RuleEngine.add [] (alias "MASTER_CONTROLLER") 1)).
  revert H0.
  generalize (RuleEngine.add (RuleEngine.add [] (alias "MASTER_CONTROLLER") 1)
                (alias "POWER_SUPPLY_MAIN") 1).
  intros p0 H0. plan_keeps.
Qed.

Example essential_aliases :
  alias "MASTER_CONTROLLER" = "4100-9701" /\ alias "POWER_SUPPLY_MAIN" = "4100-5311".
Proof. split; reflexivity. Qed.

Lemma final_at_least_plan (cp_model : option CpSat.t) (repository : RuleRepository.t)
    (answers : ProjectAnswers.t) (boq : DeviceBOQ.t) (k : string) :
  1 <= dict_get_or (RuleEngine._derive_specific_modules
                      (RuleEngine.build_requirements answers boq)) k 0 ->
  1 <= dict_get_or (OptimizationResult.module_selection
                      (RuleEngine.optimise_panel cp_model repository answers boq)) k 0.
Proof.
  intros Hplan. rewrite optimise_panel_selection.
  etransitivity; [|apply add_enclosures_ge].
  - unfold merged_selection. cbv zeta. unfold dict_get_or in Hplan.
    destruct (dict_get _ k) as [q|] eqn:Eq; cbn [default from_option id] in Hplan; [|lia].
    apply dict_get_In in Eq.
    etransitivity; [exact Hplan | apply merge_plan_ge_plan, Eq].
  - intros k' v Hin. apply enclosure_plan_positive in Hin. lia.
Qed.

(** C3: for every answers/BOQ input, whatever the solver does (absent,
    INFEASIBLE or with a solution), the plan holds the master controller and
    the main power supply, the selection returned by [optimise_panel] holds
    both with quantity at least 1, and so is not empty. *)
Theorem selection_never_empty (cp_model : option CpSat.t) (repository : RuleRepository.t)
    (answers : ProjectAnswers.t) (boq : DeviceBOQ.t) :
  let plan := RuleEngine._derive_specific_modules (RuleEngine.build_requirements answers boq) in
  let final :=
    OptimizationResult.module_selection
      (RuleEngine.optimise_panel cp_model repository answers boq) in
  1 <= dict_get_or plan "4100-9701" 0 /\
  1 <= dict_get_or plan "4100-5311" 0 /\
  1 <= dict_get_or final "4100-9701" 0 /\
  1 <= dict_get_or final "4100-5311" 0 /\
  final <> [].
Proof.
  cbv zeta.
  pose proof (plan_has_master_controller (RuleEngine.build_requirements answers boq)) as Hmc.
  pose proof (plan_has_main_power_supply (RuleEngine.build_requirements answers boq)) as Hps.
  change (alias "MASTER_CONTROLLER") with "4100-9701" in Hmc.
  change (alias "POWER_SUPPLY_MAIN") with "4100-5311" in Hps.
  pose proof (final_at_least_plan cp_model repository answers boq _ Hmc) as Hfmc.
  pose proof (final_at_least_plan cp_model repository answers boq _ Hps) as Hfps.
  repeat split; try assumption.
  intros Hempty. rewrite Hempty in Hfmc. cbn in Hfmc. lia.
Qed.

(** ** Bays *)

(** [bays_for used 8] is 0 without usage, else the least bay count whose
    eight units hold the usage. *)
Lemma bays_for_spec (used : Q) :
  let bays := RuleEngine.bays_for used 8 in
  ((0 < used)%Q ->
     1 <= bays /\ (used <= 8 * inject_Z bays)%Q /\ (8 * (inject_Z bays - 1) < used)%Q) /\
  (~ (0 < used)%Q -> bays = 0).
Proof.
  cbv zeta. unfold RuleEngine.bays_for. split.
  - intros Hpos. rewrite (proj2 (Qlt_b_true 0 used) Hpos).
    split; [apply ceil_pos; [assumption | reflexivity]|].
    unfold Py.ceil. pose proof (Qle_ceiling (used / 8)) as Hle.
    pose proof (Qceiling_lt (used / 8)) as Hlt.
    unfold Z.sub in Hlt. rewrite inject_Z_plus in Hlt. change (inject_Z (- (1))) with (- (1))%Q in Hlt.
    set (c := inject_Z (Qceiling (used / 8))) in *. clearbody c.
    assert (Heq : (used == (used / 8) * 8)%Q) by (field; discriminate).
    set (y := (used / 8)%Q) in *. clearbody y. clear Hpos.
    split; rewrite Heq; clear Heq; lra.
  - intros Hneg. destruct (Py.Qlt_b 0 used) eqn:E; [|reflexivity].
    apply Qlt_b_true in E. contradiction.
Qed.

Lemma bays_for_nonneg (used : Q) : 0 <= RuleEngine.bays_for used 8.
Proof.
  destruct (bays_for_spec used) as [Hpos Hzero]. cbv zeta in *.
  destruct (Qlt_le_dec 0 used) as [H | H].
  - destruct (Hpos H). lia.
  - rewrite Hzero; [lia|]. intros Hlt. eapply Qlt_not_le; eassumption.
Qed.

(** C4 (as amended): the bay allocation reported by [optimise_panel] has
    [recommended_bays = max(internal_bays, door_bays)], each of the two being 0
    when the selection uses no such space and the ceiling of usage/8
    otherwise; so [recommended_bays >= 1] exactly when the selected catalog
    modules use some internal block or door slot. The floor of one bay is
    applied only to the bay count that the enclosure planner packs. *)
Theorem recommended_bays_reported (cp_model : option CpSat.t) (repository : RuleRepository.t)
    (answers : ProjectAnswers.t) (boq : DeviceBOQ.t) :
  let result := RuleEngine.optimise_panel cp_model repository answers boq in
  let internal := SpaceUsage.internal_blocks (OptimizationResult.space_usage result) in
  let door := SpaceUsage.door_slots (OptimizationResult.space_usage result) in
  let bays := OptimizationResult.bay_allocation result in
  BayAllocation.recommended_bays bays
  = Z.max (BayAllocation.internal_bays bays) (BayAllocation.door_bays bays) /\
  ((0 < internal)%Q ->
     (internal <= 8 * inject_Z (BayAllocation.internal_bays bays))%Q /\
     (8 * (inject_Z (BayAllocation.internal_bays bays) - 1) < internal)%Q) /\
  (~ (0 < internal)%Q -> BayAllocation.internal_bays bays = 0) /\
  ((0 < door)%Q ->
     (door <= 8 * inject_Z (BayAllocation.door_bays bays))%Q /\
     (8 * (inject_Z (BayAllocation.door_bays bays) - 1) < door)%Q) /\
  (~ (0 < door)%Q -> BayAllocation.door_bays bays = 0) /\
  (1 <= BayAllocation.recommended_bays bays <-> (0 < internal)%Q \/ (0 < door)%Q) /\
  1 <= RuleEngine.required_bays repository
         (merged_selection cp_model repository answers boq).
Proof.
  cbv zeta.
  pose proof (optimise_panel_bays cp_model repository answers boq) as Hb. cbv zeta in Hb.
  set (result := RuleEngine.optimise_panel cp_model repository answers boq) in *.
  unfold RuleEngine._summarise_space_usage in Hb.
  destruct (RuleEngine.space_totals repository (OptimizationResult.module_selection result))
    as [internal door].
  injection Hb as Hu Ha. rewrite Hu, Ha.
  cbn [SpaceUsage.internal_blocks SpaceUsage.door_slots BayAllocation.internal_bays
       BayAllocation.door_bays BayAllocation.recommended_bays].
  change INTERNAL_BLOCKS_PER_BAY with 8%Q. change DOOR_SLOTS_PER_BAY with 8%Q.
  destruct (bays_for_spec internal) as [Hip Hiz].
  destruct (bays_for_spec door) as [Hdp Hdz]. cbv zeta in *.
  pose proof (bays_for_nonneg internal) as Hin.
  pose proof (bays_for_nonneg door) as Hdn.
  split; [reflexivity|].
  split; [intros H; apply Hip in H; tauto|]. split; [exact Hiz|].
  split; [intros H; apply Hdp in H; tauto|]. split; [exact Hdz|].
  split.
  - split.
    + intros Hrec. destruct (Qlt_le_dec 0 internal) as [H | H]; [now left|].
      destruct (Qlt_le_dec 0 door) as [H' | H']; [now right|].
      rewrite Hiz, Hdz in Hrec; [lia | |]; intros Hlt; eapply Qlt_not_le; eassumption.
    + intros [H | H]; [apply Hip in H | apply Hdp in H]; lia.
  - unfold RuleEngine.required_bays. lia.
Qed.

(** C4 as stated fails for a catalog whose selected modules carry no
    footprint: with the synthetic enclosures as the only catalog entries the
    selection holds five models and the reported [recommended_bays] is 0. *)
Lemma recommended_bays_can_be_zero :
  let repository :=
    RuleRepository.mk (RuleRepository._load_modules []) [] ∅
      RuleRepository.DEFAULT_CATEGORY_PRICES in
  let result := RuleEngine.optimise_panel None repository ProjectAnswers.new DeviceBOQ.new in
  OptimizationResult.module_selection result
  = [("4100-9701", 1); ("4100-5311", 1); ("4100-3109", 1); ("4100-9401", 1); ("4100-9404", 1)]
  /\ BayAllocation.recommended_bays (OptimizationResult.bay_allocation result) = 0.
Proof. vm_compute. split; reflexivity. Qed.

(** ** Which keys of the selection resolve in the catalog *)

Lemma merge_synthetic_keyed (d : pydict ModuleDefinition.t) (s : ModuleDefinition.t) :
  keyed_by_model d -> keyed_by_model (RuleRepository.merge_synthetic d s).
Proof.
  intros Hd k m Hin. unfold RuleRepository.merge_synthetic in Hin.
  destruct (dict_get d (ModuleDefinition.model_number s)) as [existing|] eqn:E.
  - apply dict_set_In in Hin as [[-> ->] | Hin]; [|now apply Hd].
    apply dict_get_In, Hd in E. exact E.
  - apply dict_set_In in Hin as [[-> ->] | Hin]; [reflexivity | now apply Hd].
Qed.

Lemma merge_synthetic_keys (d : pydict ModuleDefinition.t) (s : ModuleDefinition.t)
    (k : string) :
  k = ModuleDefinition.model_number s \/ In k (dict_keys d) ->
  In k (dict_keys (RuleRepository.merge_synthetic d s)).
Proof.
  intros Hk.
  assert (Hset : forall v, In k (dict_keys (dict_set d (ModuleDefinition.model_number s) v))).
  { intros v.
    assert (Hget : exists x, dict_get (dict_set d (ModuleDefinition.model_number s) v) k
                             = Some x).
    { rewrite dict_get_set.
      destruct (String.eqb (ModuleDefinition.model_number s) k) eqn:E; [eauto|].
      destruct Hk as [-> | Hk]; [now rewrite String.eqb_refl in E|].
      now apply dict_key_get. }
    destruct Hget as [x Hx]. eapply dict_get_key, Hx. }
  unfold RuleRepository.merge_synthetic.
  destruct (dict_get d (ModuleDefinition.model_number s)); apply Hset.
Qed.

Lemma load_modules_has_synthetic (module_lookup : pydict ModuleDefinition.t) (k : string) :
  keyed_by_model module_lookup ->
  In k (map ModuleDefinition.model_number SYNTHETIC_MODULES) ->
  In k (map ModuleDefinition.model_number (RuleRepository._load_modules module_lookup)).
Proof.
  unfold RuleRepository._load_modules. generalize SYNTHETIC_MODULES as synthetic.
  intros synthetic Hkeyed Hk.
  enough (H : forall d, keyed_by_model d ->
             In k (dict_keys d) \/ In k (map ModuleDefinition.model_number synthetic) ->
             keyed_by_model (fold_left RuleRepository.merge_synthetic synthetic d) /\
             In k (dict_keys (fold_left RuleRepository.merge_synthetic synthetic d))).
  { destruct (H module_lookup Hkeyed (or_intror Hk)) as [Hfinal Hin].
    unfold dict_keys in Hin. apply in_map_iff in Hin as ([k' m] & <- & Hin).
    cbn [fst]. rewrite (Hfinal k' m Hin). apply in_map_iff. exists m. split; [reflexivity|].
    apply in_map_iff. now exists (k', m). }
  clear. induction synthetic as [|s synthetic IH]; intros d Hd Hk; cbn [fold_left].
  - split; [exact Hd|]. destruct Hk as [Hk | []]. exact Hk.
  - apply IH; [now apply merge_synthetic_keyed|].
    destruct Hk as [Hk | [Hk | Hk]].
    + left. apply merge_synthetic_keys. now right.
    + left. apply merge_synthetic_keys. now left.
    + now right.
Qed.

Lemma sizemap_get_In (d : sizemap) (size : Z) :
  In size (map fst d) -> exists v, sizemap_get d size = Some v /\ In v (map snd d).
Proof.
  induction d as [|[k v] d IH]; cbn; [intros []|].
  destruct (k =? size) eqn:E; [intros _; exists v; split; [reflexivity | now left]|].
  intros [H | H]; [apply Z.eqb_neq in E; contradiction|].
  destruct (IH H) as (v' & Hv & Hin). exists v'. split; [exact Hv | now right].
Qed.

Lemma allocate_loop_keys (d : sizemap) (last_idx : nat) (sizes : list Z) :
  (forall size, In size sizes -> In size (map fst d)) ->
  forall idx remaining plan k,
    (forall k', In k' (dict_keys plan) -> In k' (map snd d)) ->
    In k (dict_keys (snd (allocate_loop d last_idx idx sizes remaining plan))) ->
    In k (map snd d).
Proof.
  induction sizes as [|size sizes IH]; intros Hsizes idx remaining plan k Hplan;
    cbn [allocate_loop snd]; [apply Hplan|].
  destruct (remaining <=? 0); [apply Hplan|].
  destruct (_ <=? 0).
  - apply IH; [intros s Hs; apply Hsizes; now right | exact Hplan].
  - apply IH; [intros s Hs; apply Hsizes; now right|].
    intros k' Hk'. apply dict_set_keys in Hk' as [-> | Hk']; [|now apply Hplan].
    destruct (sizemap_get_In d size (Hsizes size (or_introl eq_refl))) as (v & -> & Hv).
    exact Hv.
Qed.

Lemma allocate_enclosure_keys (required_bays : Z) (d : sizemap) (k : string) :
  In k (dict_keys (_allocate_enclosure_sizes required_bays d)) -> In k (map snd d).
Proof.
  unfold _allocate_enclosure_sizes. destruct d as [|entry d']; [intros []|].
  set (d := entry :: d'). destruct (required_bays <=? 0); [intros []|].
  set (sizes := sorted _ (map fst d)).
  assert (Hsizes : forall size, In size sizes -> In size (map fst d)).
  { intros size Hs. now apply sorted_In in Hs. }
  pose proof (allocate_loop_keys d (pred (length sizes)) sizes Hsizes 0 required_bays []) as Hl.
  destruct (allocate_loop d _ 0 sizes required_bays []) as [remaining plan].
  cbn [snd] in Hl. destruct (0 <? remaining); [|apply Hl; intros k' []].
  intros Hk. apply dict_set_keys in Hk as [-> | Hk]; [|eapply Hl; [intros k' []|exact Hk]].
  assert (Hlast : In (List.last sizes 0) sizes).
  { assert (Hne : sizes <> []).
    { intros Hnil. assert (Hin : In (fst entry) sizes) by (apply sorted_In; now left).
      rewrite Hnil in Hin. destruct Hin. }
    clear -Hne. induction sizes as [|a [|b sizes] IH]; [contradiction | now left|].
    right. apply IH. discriminate. }
  destruct (sizemap_get_In d _ (Hsizes _ Hlast)) as (v & -> & Hv). exact Hv.
Qed.

Lemma enclosure_plan_keys (repository : RuleRepository.t) (sel : pydict Z) (k : string) :
  In k (dict_keys (RuleEngine._derive_enclosure_modules repository sel)) ->
  In k (map ModuleDefinition.model_number SYNTHETIC_MODULES).
Proof.
  unfold RuleEngine._derive_enclosure_modules.
  destruct (RuleEngine._summarise_space_usage repository sel) as [usage bays].
  intros Hk. apply merge_keys in Hk as [Hk | Hk].
  - apply merge_keys in Hk as [[] | Hk]. apply allocate_enclosure_keys in Hk.
    revert Hk. vm_compute. tauto.
  - apply allocate_enclosure_keys in Hk.
    destruct (Py.Qlt_b 0 (SpaceUsage.door_slots usage)); revert Hk; vm_compute; tauto.
Qed.

Lemma add_alias_keys (plan : pydict Z) (name : string) (q : Z) :
  is_Some (MODULE_ALIASES !! name) ->
  (forall k, In k (dict_keys plan) -> is_alias_sku k) ->
  forall k, In k (dict_keys (RuleEngine.add plan (alias name) q)) -> is_alias_sku k.
Proof.
  intros [sku Hname] Hplan k. unfold RuleEngine.add. destruct (q <=? 0); [apply Hplan|].
  intros Hk. apply dict_set_keys in Hk as [-> | Hk]; [|now apply Hplan].
  exists name. unfold alias. rewrite Hname. reflexivity.
Qed.

Lemma when_alias_keys (b : bool) (f : pydict Z -> pydict Z) (plan : pydict Z) :
  (forall p, (forall k, In k (dict_keys p) -> is_alias_sku k) ->
             forall k, In k (dict_keys (f p)) -> is_alias_sku k) ->
  (forall k, In k (dict_keys plan) -> is_alias_sku k) ->
  forall k, In k (dict_keys (RuleEngine.when b f plan)) -> is_alias_sku k.
Proof.
  intros Hf Hplan. unfold RuleEngine.when. destruct b; [apply Hf, Hplan | exact Hplan].
Qed.

Lemma plan_keys_are_aliases (requirements : PanelRequirements.t) (k : string) :
  In k (dict_keys (RuleEngine._derive_specific_modules requirements)) -> is_alias_sku k.
Proof.
  revert k. unfold RuleEngine._derive_specific_modules. cbv zeta.
  repeat first
    [ assumption
    | apply add_alias_keys; [eexists; reflexivity |]
    | apply when_alias_keys; [intros ? ?; cbv beta zeta |]
    | match goal with |- context [if ?c then _ else _] => destruct c end
    | (intros k []) ].
Qed.

(** C7 (as amended): in a catalog loaded from the workbook, every model-number
    key that the optimizer (CP-SAT or greedy) and the enclosure planner put
    into the selection resolves in the by-model index; a key of the final
    selection that does not resolve is a key of the specific-module plan and
    one of the [MODULE_ALIASES] SKUs, which the plan adds whether or not the
    workbook lists them. *)
Theorem selection_keys_resolve_or_planned (cp_model : option CpSat.t)
    (module_lookup : pydict ModuleDefinition.t) (rules : list PlacementRule.t)
    (module_prices category_prices : gmap string Q)
    (answers : ProjectAnswers.t) (boq : DeviceBOQ.t) :
  keyed_by_model module_lookup ->
  let repository :=
    RuleRepository.mk (RuleRepository._load_modules module_lookup) rules
      module_prices category_prices in
  let requirements := RuleEngine.build_requirements answers boq in
  let optimizer :=
    OptimizationResult.module_selection
      (RuleEngine.solver_result cp_model repository
         (RuleEngine.derive_category_requirements requirements)) in
  let plan := RuleEngine._derive_specific_modules requirements in
  let enclosures :=
    RuleEngine._derive_enclosure_modules repository
      (merged_selection cp_model repository answers boq) in
  let final :=
    OptimizationResult.module_selection
      (RuleEngine.optimise_panel cp_model repository answers boq) in
  (forall k, In k (dict_keys optimizer) ->
     is_Some (RuleRepository.module_index repository !! k)) /\
  (forall k, In k (dict_keys enclosures) ->
     is_Some (RuleRepository.module_index repository !! k)) /\
  (forall k, In k (dict_keys final) ->
     is_Some (RuleRepository.module_index repository !! k) \/
     (In k (dict_keys plan) /\ is_alias_sku k)).
Proof.
  intros Hkeyed repository requirements optimizer plan enclosures final.
  assert (Hopt : forall k, In k (dict_keys optimizer) ->
                   is_Some (RuleRepository.module_index repository !! k)).
  { intros k Hk. apply module_index_lookup. now apply optimizer_selection_keys in Hk. }
  assert (Hencl : forall k, In k (dict_keys enclosures) ->
                    is_Some (RuleRepository.module_index repository !! k)).
  { intros k Hk. apply module_index_lookup. apply enclosure_plan_keys in Hk.
    now apply load_modules_has_synthetic. }
  split; [exact Hopt|]. split; [exact Hencl|].
  intros k Hk. unfold final in Hk. rewrite optimise_panel_selection in Hk.
  apply add_enclosures_keys in Hk as [Hk | Hk]; [|left; now apply Hencl].
  apply merge_plan_keys in Hk as [Hk | Hk]; [left; now apply Hopt | right].
  split; [exact Hk | now apply plan_keys_are_aliases in Hk].
Qed.

Lemma selection_keys_resolve_or_planned_witness :
  let repository :=
    RuleRepository.mk (RuleRepository._load_modules []) [] ∅
      RuleRepository.DEFAULT_CATEGORY_PRICES in
  is_Some (RuleRepository.module_index repository !! "4100-9401").
Proof.
  intros repository.
  apply (proj1 (proj2 (selection_keys_resolve_or_planned None [] [] ∅
                         RuleRepository.DEFAULT_CATEGORY_PRICES
                         ProjectAnswers.new DeviceBOQ.new
                         (fun k m (H : In (k, m) []) => match H with end)))).
  vm_compute. left. reflexivity.
Defined.

(** C7 as stated fails for a workbook that does not list the master
    controller: the plan adds ["4100-9701"] all the same. *)
Lemma planned_sku_outside_catalog :
  let repository :=
    RuleRepository.mk (RuleRepository._load_modules []) [] ∅
      RuleRepository.DEFAULT_CATEGORY_PRICES in
  let final :=
    OptimizationResult.module_selection
      (RuleEngine.optimise_panel None repository ProjectAnswers.new DeviceBOQ.new) in
  dict_get final "4100-9701" = Some 1 /\
  RuleRepository.module_index repository !! "4100-9701" = None /\
  RuleRepository.get_module repository "4100-9701" = None.
Proof. vm_compute. repeat split. Qed.

(** ** Category coverage *)

Lemma sum_values_cons (f : string -> Z) (v : string) (vars : list string) :
  CpSat.sum_values f (v :: vars) = f v + CpSat.sum_values f vars.
Proof. reflexivity. Qed.

Lemma sum_values_ext (f g : string -> Z) (vars : list string) :
  (forall v, In v vars -> f v = g v) -> CpSat.sum_values f vars = CpSat.sum_values g vars.
Proof.
  induction vars as [|v vars IH]; intros H; [reflexivity|].
  rewrite !sum_values_cons, (H v (or_introl eq_refl)), IH; [reflexivity|].
  intros w Hw. apply H. now right.
Qed.

Lemma sum_values_nonneg (f : string -> Z) (vars : list string) :
  (forall v, In v vars -> 0 <= f v) -> 0 <= CpSat.sum_values f vars.
Proof.
  induction vars as [|v vars IH]; intros Hpos; [cbn; lia|].
  rewrite sum_values_cons. pose proof (Hpos v (or_introl eq_refl)).
  assert (0 <= CpSat.sum_values f vars); [|lia].
  apply IH. intros u Hu. apply Hpos. now right.
Qed.

Lemma sum_values_member (f : string -> Z) (vars : list string) (x : string) :
  (forall v, In v vars -> 0 <= f v) -> In x vars -> f x <= CpSat.sum_values f vars.
Proof.
  induction vars as [|v vars IH]; intros Hpos Hx; [destruct Hx|].
  rewrite sum_values_cons. destruct Hx as [Hx | Hx].
  - subst v.
    assert (0 <= CpSat.sum_values f vars); [|lia].
    apply sum_values_nonneg. intros u Hu. apply Hpos. now right.
  - pose proof (Hpos v (or_introl eq_refl)).
    assert (f x <= CpSat.sum_values f vars); [|lia].
    apply IH; [|exact Hx]. intros u Hu. apply Hpos. now right.
Qed.

Lemma category_index_nodup (mods : list ModuleDefinition.t) (c : string) :
  Forall (fun m => NoDup (ModuleDefinition.specification_categories m)) mods ->
  dict_get_or (RuleRepository.build_category_index mods) c []
  = List.filter (in_category c) mods.
Proof.
  intros Hnodup. unfold RuleRepository.build_category_index.
  enough (H : forall acc,
             dict_get_or
               (fold_left
                  (fun d m => fold_left (fun d c0 => RuleRepository.dict_append d c0 m)
                                (ModuleDefinition.specification_categories m) d)
                  mods acc) c []
             = (dict_get_or acc c [] ++ List.filter (in_category c) mods)%list).
  { rewrite H. reflexivity. }
  induction Hnodup as [|m mods Hm _ IH]; intros acc; cbn [fold_left List.filter].
  - now rewrite app_nil_r.
  - rewrite IH. clear IH.
    assert (Hinner : forall cats d, NoDup cats ->
               dict_get_or (fold_left (fun d c0 => RuleRepository.dict_append d c0 m) cats d)
                 c []
               = (dict_get_or d c [] ++ if existsb (String.eqb c) cats then [m] else [])%list).
    { clear. induction cats as [|c0 cats IH]; intros d Hnd; cbn [fold_left existsb].
      - now rewrite app_nil_r.
      - apply NoDup_cons in Hnd as [Hnotin Hnd]. rewrite IH by assumption.
        rewrite dict_append_get, (String.eqb_sym c c0).
        destruct (String.eqb c0 c) eqn:E; cbn [orb]; [|reflexivity].
        apply String.eqb_eq in E. subst c0.
        assert (Hno : existsb (String.eqb c) cats = false).
        { apply not_true_iff_false. intros Hex. apply existsb_exists in Hex as (x & Hx & Hcx).
          apply String.eqb_eq in Hcx. subst x. apply Hnotin. now apply list_elem_of_In. }
        rewrite Hno, app_nil_r. reflexivity. }
    rewrite Hinner by assumption. unfold in_category.
    destruct (existsb _ _); rewrite <- app_assoc; reflexivity.
Qed.

Lemma coverage_by_index (repository : RuleRepository.t) (sel : pydict Z) (c : string) :
  Forall (fun m => NoDup (ModuleDefinition.specification_categories m))
    (RuleRepository.modules repository) ->
  index_coverage repository sel c = coverage repository sel c.
Proof.
  intros H. unfold index_coverage, coverage, RuleRepository.category_to_modules.
  now rewrite category_index_nodup.
Qed.

Lemma greedy_step_choice (repository : RuleRepository.t) (acc : pydict Z * Q)
    (c : string) (q : Z) :
  fst (RuleEngine.greedy_step repository acc (c, q))
  = match greedy_choice repository c with
    | Some ch => dict_set (fst acc) ch q
    | None => fst acc
    end.
Proof.
  unfold RuleEngine.greedy_step, greedy_choice. destruct acc as [sel cost].
  destruct (RuleEngine.greedy_sorted _); reflexivity.
Qed.

Lemma greedy_later_steps_keep (repository : RuleRepository.t) (rest : pydict Z)
    (acc : pydict Z * Q) (ch : string) :
  ~ In ch (omap (fun item : string * Z => greedy_choice repository (fst item)) rest) ->
  selected (fst (fold_left (RuleEngine.greedy_step repository) rest acc)) ch
  = selected (fst acc) ch.
Proof.
  revert acc. induction rest as [|[c q] rest IH]; intros acc Hnot; cbn [fold_left];
    [reflexivity|].
  cbn [omap list_omap fst] in Hnot.
  rewrite IH.
  - rewrite greedy_step_choice. destruct (greedy_choice repository c) as [ch'|]; [|reflexivity].
    unfold selected. rewrite dict_get_or_set.
    destruct (String.eqb ch' ch) eqn:E; [|reflexivity].
    apply String.eqb_eq in E. subst ch'. exfalso. apply Hnot. now left.
  - intros Hin. apply Hnot. destruct (greedy_choice repository c); [now right | exact Hin].
Qed.

Lemma greedy_assigns_demand (repository : RuleRepository.t) (demand : pydict Z)
    (c ch : string) (d : Z) :
  distinct_choices repository demand ->
  In (c, d) demand ->
  greedy_choice repository c = Some ch ->
  selected (fst (RuleEngine.greedy_selection repository demand)) ch = d.
Proof.
  intros Hdistinct Hin Hch. unfold RuleEngine.greedy_selection.
  apply in_split in Hin as (l1 & l2 & ->).
  rewrite fold_left_app. cbn [fold_left].
  unfold distinct_choices in Hdistinct.
  rewrite omap_app in Hdistinct. cbn [omap list_omap fst] in Hdistinct.
  rewrite Hch in Hdistinct.
  apply NoDup_app in Hdistinct as (_ & _ & Hnd). apply NoDup_cons in Hnd as [Hnotin _].
  rewrite greedy_later_steps_keep.
  - rewrite greedy_step_choice, Hch. unfold selected.
    now rewrite dict_get_or_set, String.eqb_refl.
  - intros H. apply Hnotin. now apply list_elem_of_In.
Qed.

Lemma merge_monotone_witness :
  let optimizer :=
    OptimizationResult.module_selection
      (RuleEngine.solver_result (Some twenty_solver) demo_repository
         (RuleEngine.derive_category_requirements
            (RuleEngine.build_requirements ProjectAnswers.new DeviceBOQ.new))) in
  let plan :=
    RuleEngine._derive_specific_modules
      (RuleEngine.build_requirements ProjectAnswers.new DeviceBOQ.new) in
  let final :=
    OptimizationResult.module_selection
      (RuleEngine.optimise_panel (Some twenty_solver) demo_repository
         ProjectAnswers.new DeviceBOQ.new) in
  dict_get_or optimizer "4100-9701" 0 <= dict_get_or final "4100-9701" 0 /\
  dict_get_or plan "4100-9701" 0 <= dict_get_or final "4100-9701" 0.
Proof.
  exact (merge_monotone (Some twenty_solver) demo_repository
           ProjectAnswers.new DeviceBOQ.new "4100-9701" twenty_solver_only).
Defined.

Example demo_selection_with_solver :
  OptimizationResult.module_selection
    (RuleEngine.optimise_panel (Some twenty_solver) demo_repository
       ProjectAnswers.new DeviceBOQ.new)
  = [ ("4100-9701", 20); ("4100-5311", 20); ("4100-3109", 20);
      ("4100-9401", 21); ("4100-9402", 20); ("4100-9403", 23); ("4100-9404", 21);
      ("4100-9405", 20); ("4100-9406", 23); ("4100-9407", 20); ("4100-9408", 20);
      ("4100-9409", 20) ].
Proof. vm_compute. reflexivity. Qed.

(** Scenario S1 on the greedy path. *)
Example demo_selection_greedy :
  OptimizationResult.module_selection
    (RuleEngine.optimise_panel None demo_repository ProjectAnswers.new DeviceBOQ.new)
  = [ ("4100-9701", 1); ("4100-5311", 1); ("4100-3109", 1);
      ("4100-9401", 1); ("4100-9404", 1) ].
Proof. vm_compute. reflexivity. Qed.

(** C1 (as amended): for every category of the demand map that has at least
    one catalog module, the optimizer's selection covers the demanded minimum,
    summed over the category's modules: on the CP-SAT path when the solver
    reports OPTIMAL or FEASIBLE (a sound solver), on the greedy path when no
    quantity is negative and no two demanded categories pick the same module.
    The sum runs over the by-category index; it is the sum over the catalog
    modules whose specification categories include the category whenever no
    module lists a category twice. A category without catalog modules adds no
    constraint and is skipped by the greedy selector. *)
Theorem demanded_categories_covered (cp_model : option CpSat.t)
    (repository : RuleRepository.t) (demand : pydict Z) (c : string) (d : Z) :
  In (c, d) demand ->
  dict_get_or (RuleRepository.category_to_modules repository) c [] <> [] ->
  match cp_model with
  | Some solver =>
      CpSat.sound solver /\
      CpSat.is_solution
        (CpSat.status (CpSat.Solve solver (RuleEngine.build_model repository demand))) = true
  | None =>
      dict_values_all (fun v => 0 <= v) demand /\ distinct_choices repository demand
  end ->
  let sel :=
    OptimizationResult.module_selection
      (RuleEngine.solver_result cp_model repository demand) in
  d <= index_coverage repository sel c /\
  (Forall (fun m => NoDup (ModuleDefinition.specification_categories m))
     (RuleRepository.modules repository) ->
   d <= coverage repository sel c).
Proof.
  intros Hin Hne Hpath sel.
  assert (Hidx : d <= index_coverage repository sel c).
  { unfold sel, index_coverage. rewrite solver_result_selection.
    set (mods := dict_get_or (RuleRepository.category_to_modules repository) c []) in *.
    destruct cp_model as [solver|].
    - destruct Hpath as [Hsound Hsol]. cbv zeta. rewrite Hsol.
      destruct (Hsound _ Hsol) as [_ Hcons].
      erewrite sum_values_ext.
      + apply Hcons. cbn [RuleEngine.build_model CpSat.constraints].
        unfold RuleEngine.coverage_constraints. apply in_flat_map.
        exists (c, d). split; [exact Hin|]. fold mods.
        destruct mods as [|m0 mods']; [contradiction | now left].
      + intros v Hv. unfold selected. apply read_solution_spec.
        apply in_map_iff in Hv as (m & <- & Hm).
        apply category_index_members in Hm as [Hm _].
        apply in_map_iff. now exists m.
    - destruct Hpath as [Hpos Hdistinct].
      destruct (greedy_choice repository c) as [ch|] eqn:Ech.
      + rewrite <- (greedy_assigns_demand repository demand c ch d Hdistinct Hin Ech).
        apply sum_values_member.
        * intros v _. unfold selected. apply (dict_values_all_get (fun v => 0 <= v)); [|lia].
          intros k q Hk. apply greedy_selection_spec in Hk as [_ [c' Hc']].
          exact (Hpos c' q Hc').
        * unfold greedy_choice in Ech. fold mods in Ech.
          destruct (RuleEngine.greedy_sorted mods) as [|chosen rest] eqn:Es; [discriminate|].
          injection Ech as <-. apply in_map_iff. exists chosen. split; [reflexivity|].
          apply (sorted_In (fun a b => RuleEngine.key_lt (RuleEngine.greedy_key a)
                                         (RuleEngine.greedy_key b))).
          fold (RuleEngine.greedy_sorted mods). rewrite Es. now left.
      + exfalso. unfold greedy_choice in Ech. fold mods in Ech.
        destruct (RuleEngine.greedy_sorted mods) as [|chosen rest] eqn:Es; [|discriminate].
        destruct mods as [|m0 mods']; [contradiction|].
        assert (Hm0 : In m0 (RuleEngine.greedy_sorted (m0 :: mods')))
          by (apply sorted_In; now left).
        rewrite Es in Hm0. destruct Hm0. }
  split; [exact Hidx|]. intros Hnodup. now rewrite <- coverage_by_index.
Qed.

Lemma demanded_categories_covered_witness :
  let demand :=
    RuleEngine.derive_category_requirements
      (RuleEngine.build_requirements ProjectAnswers.new DeviceBOQ.new) in
  1 <= index_coverage demo_repository
         (OptimizationResult.module_selection
            (RuleEngine.solver_result (Some twenty_solver) demo_repository demand))
         "Master Controller" /\
  1 <= index_coverage demo_repository
         (OptimizationResult.module_selection
            (RuleEngine.solver_result None demo_repository demand))
         "Master Controller".
Proof.
  intros demand. split.
  - refine (proj1 (demanded_categories_covered (Some twenty_solver) demo_repository demand
                     "Master Controller" 1 _ _ _)).
    + vm_compute. left. reflexivity.
    + vm_compute. discriminate.
    + split; [exact twenty_solver_sound | vm_compute; reflexivity].
  - refine (proj1 (demanded_categories_covered None demo_repository demand
                     "Master Controller" 1 _ _ _)).
    + vm_compute. left. reflexivity.
    + vm_compute. discriminate.
    + split.
      * intros k v Hk. apply derived_demand_positive in Hk. lia.
      * unfold distinct_choices. apply (bool_decide_unpack _). vm_compute. exact I.
Defined.

(** C1 as stated fails for a demanded category the catalog has no module for:
    with the synthetic enclosures as the only catalog entries, ["Master
    Controller"] is demanded once and nothing covers it. *)
Lemma demanded_category_without_modules :
  let repository :=
    RuleRepository.mk (RuleRepository._load_modules []) [] ∅
      RuleRepository.DEFAULT_CATEGORY_PRICES in
  let demand :=
    RuleEngine.derive_category_requirements
      (RuleEngine.build_requirements ProjectAnswers.new DeviceBOQ.new) in
  let sel :=
    OptimizationResult.module_selection (RuleEngine.solver_result None repository demand) in
  dict_get demand "Master Controller" = Some 1 /\
  sel = [] /\
  coverage repository sel "Master Controller" = 0 /\
  RuleEngine.coverage_constraints repository demand = [].
Proof. vm_compute. repeat split. Qed.

(** The greedy selector assigns, it does not accumulate: a module picked for
    two categories keeps the quantity of the later one. *)
Example greedy_overwrites_shared_module :
  let shared :=
    ModuleDefinition.mk "4100-0001" "" [] [] None None None None None None
      [] "" "" "" [] ["Power Supplies"; "Relay Modules"] [] 100 0 0 in
  let repository := RuleRepository.mk [shared] [] ∅ ∅ in
  let demand := [("Power Supplies", 3); ("Relay Modules", 1)] in
  let sel :=
    OptimizationResult.module_selection (RuleEngine.solver_result None repository demand) in
  sel = [("4100-0001", 1)] /\ coverage repository sel "Power Supplies" = 1.
Proof. vm_compute. split; reflexivity. Qed.

(** * Further properties of the code *)

(** ** Enclosure packing *)

Lemma allocate_three_sizes (m1 m2 m3 : string) (n : Z) :
  String.eqb m3 m2 = false -> String.eqb m3 m1 = false -> 1 <= n ->
  _allocate_enclosure_sizes n [(1, m1); (2, m2); (3, m3)]
  = largest_first [(1, m1); (2, m2); (3, m3)] n.
Proof.
  intros H32 H31 Hn. unfold _allocate_enclosure_sizes, largest_first, size_model.
  change (sorted _ (map fst [(1, m1); (2, m2); (3, m3)])) with [3; 2; 1].
  assert (En : (n <=? 0) = false) by (apply Z.leb_gt; lia). rewrite En.
  cbn [length pred allocate_loop List.last sizemap_get Z.eqb Pos.eqb default from_option id
       Nat.eqb dict_get_or dict_get dict_set].
  rewrite En. cbn [andb].
  pose proof (Z.div_mod n 3 ltac:(lia)) as Hdm.
  pose proof (Z.mod_pos_bound n 3 ltac:(lia)) as Hr.
  set (q := n / 3) in *. set (r := n mod 3) in *.
  rewrite andb_false_r.
  destruct (q <=? 0) eqn:Eq.
  - apply Z.leb_le in Eq. assert (q = 0) by lia. assert (Hn3 : (3 <=? n) = false)
      by (apply Z.leb_gt; lia). rewrite Hn3. cbn [app].
    assert (Hcase : n = 1 \/ n = 2) by lia.
    destruct Hcase as [-> | ->]; subst r; reflexivity.
  - apply Z.leb_gt in Eq. assert (Hn3 : (3 <=? n) = true) by (apply Z.leb_le; lia).
    rewrite Hn3. cbn [app]. replace (n - 3 * q) with r by lia.
    assert (Hcase : r = 0 \/ r = 1 \/ r = 2) by lia. clearbody r q.
    destruct Hcase as [-> | [-> | ->]]; cbn; rewrite ?H32, ?H31; reflexivity.
Qed.

Lemma packed_bays_largest_first (table : sizemap) (n : Z) :
  In table [CABINET_SIZE_TO_MODEL; SOLID_DOOR_SIZE_TO_MODEL; GLASS_DOOR_SIZE_TO_MODEL] ->
  1 <= n -> packed_bays (largest_first table n) = n.
Proof.
  intros Htable Hn. unfold largest_first.
  pose proof (Z.div_mod n 3 ltac:(lia)) as Hdm.
  pose proof (Z.mod_pos_bound n 3 ltac:(lia)) as Hr.
  set (q := n / 3) in *. set (r := n mod 3) in *.
  assert (Hcase : r = 0 \/ r = 1 \/ r = 2) by lia.
  assert (Hq : 0 <= q) by (subst q; apply Z.div_pos; lia).
  clearbody q r.
  destruct Htable as [<- | [<- | [<- | []]]];
    destruct (3 <=? n) eqn:E3; [apply Z.leb_le in E3 | apply Z.leb_gt in E3 | apply Z.leb_le in E3
                               | apply Z.leb_gt in E3 | apply Z.leb_le in E3 | apply Z.leb_gt in E3];
    destruct Hcase as [-> | [-> | ->]]; vm_compute bay_size; cbn; lia.
Qed.

(** X1: for a positive bay count, each of the engine's three size tables is
    packed largest first: as many 3-bay units as fit and one 2-bay or 1-bay
    unit for the remainder, so the plan provides exactly the required bays; a
    bay count that is not positive gives the empty plan. *)
Theorem allocate_enclosure_sizes_exact (table : sizemap) (n : Z) :
  In table [CABINET_SIZE_TO_MODEL; SOLID_DOOR_SIZE_TO_MODEL; GLASS_DOOR_SIZE_TO_MODEL] ->
  (n <= 0 -> _allocate_enclosure_sizes n table = []) /\
  (1 <= n ->
     _allocate_enclosure_sizes n table = largest_first table n /\
     packed_bays (_allocate_enclosure_sizes n table) = n).
Proof.
  intros Htable. split.
  - intros Hn. unfold _allocate_enclosure_sizes.
    assert (E : (n <=? 0) = true) by (apply Z.leb_le; lia).
    destruct Htable as [<- | [<- | [<- | []]]]; cbn [CABINET_SIZE_TO_MODEL
      SOLID_DOOR_SIZE_TO_MODEL GLASS_DOOR_SIZE_TO_MODEL]; rewrite E; reflexivity.
  - intros Hn.
    assert (Heq : _allocate_enclosure_sizes n table = largest_first table n).
    { destruct Htable as [<- | [<- | [<- | []]]]; apply allocate_three_sizes;
        solve [reflexivity | assumption]. }
    split; [exact Heq|]. rewrite Heq. now apply packed_bays_largest_first.
Qed.

Lemma allocate_enclosure_sizes_exact_witness :
  _allocate_enclosure_sizes 7 GLASS_DOOR_SIZE_TO_MODEL
  = largest_first GLASS_DOOR_SIZE_TO_MODEL 7 /\
  packed_bays (_allocate_enclosure_sizes 7 GLASS_DOOR_SIZE_TO_MODEL) = 7.
Proof.
  apply (allocate_enclosure_sizes_exact GLASS_DOOR_SIZE_TO_MODEL 7).
  - right. right. left. reflexivity.
  - lia.
Defined.

Lemma dict_set_fresh {V} (d : pydict V) (k : string) (v : V) :
  ~ In k (dict_keys d) -> dict_set d k v = (d ++ [(k, v)])%list.
Proof.
  induction d as [|[k0 v0] d IH]; cbn; [reflexivity|].
  intros Hnot. destruct (String.eqb k0 k) eqn:E.
  - apply String.eqb_eq in E. exfalso. apply Hnot. now left.
  - rewrite IH; [reflexivity|]. intros Hin. apply Hnot. now right.
Qed.

Lemma dict_get_or_fresh (d : pydict Z) (k : string) :
  ~ In k (dict_keys d) -> dict_get_or d k 0 = 0.
Proof.
  intros Hnot. unfold dict_get_or. destruct (dict_get d k) as [v|] eqn:E; [|reflexivity].
  exfalso. apply Hnot. eapply dict_get_key, E.
Qed.

(** Merging a plan of fresh models appends it. *)
Lemma merge_fresh (source plan : pydict Z) :
  dict_values_all (fun v => 0 < v) source ->
  NoDup (dict_keys source) ->
  (forall k, In k (dict_keys source) -> ~ In k (dict_keys plan)) ->
  RuleEngine.merge plan source = (plan ++ source)%list.
Proof.
  unfold RuleEngine.merge. revert plan.
  induction source as [|[k q] source IH]; intros plan Hpos Hnodup Hfresh; cbn [fold_left].
  - now rewrite app_nil_r.
  - assert (Hq : 0 < q) by (apply (Hpos k q); now left).
    assert (E : (q <=? 0) = false) by (apply Z.leb_gt; lia). rewrite E.
    assert (Hk : ~ In k (dict_keys plan)) by (apply Hfresh; now left).
    rewrite dict_get_or_fresh, dict_set_fresh by assumption. cbn [Z.add].
    cbn [dict_keys map fst] in Hnodup. apply NoDup_cons in Hnodup as [Hnotin Hnodup].
    rewrite IH.
    + now rewrite <- app_assoc.
    + intros k' v' Hin. apply (Hpos k' v'). now right.
    + exact Hnodup.
    + intros k' Hk' Hin. unfold dict_keys in Hin. rewrite map_app in Hin.
      apply in_app_or in Hin as [Hin | [<- | []]].
      * apply (Hfresh k'); [now right | exact Hin].
      * apply Hnotin. now apply list_elem_of_In.
Qed.

Lemma largest_first_wf (table : sizemap) (n : Z) :
  In table [CABINET_SIZE_TO_MODEL; SOLID_DOOR_SIZE_TO_MODEL; GLASS_DOOR_SIZE_TO_MODEL] ->
  1 <= n ->
  dict_values_all (fun v => 0 < v) (largest_first table n) /\
  NoDup (dict_keys (largest_first table n)) /\
  (forall k, In k (dict_keys (largest_first table n)) -> In k (map snd table)).
Proof.
  intros Htable Hn. unfold largest_first.
  pose proof (Z.div_mod n 3 ltac:(lia)) as Hdm.
  pose proof (Z.mod_pos_bound n 3 ltac:(lia)) as Hr.
  set (q := n / 3) in *. set (r := n mod 3) in *.
  assert (Hcase : r = 0 \/ r = 1 \/ r = 2) by lia.
  assert (Hq : 3 <= n -> 0 < q) by lia.
  clearbody q r.
  destruct Htable as [<- | [<- | [<- | []]]];
    (destruct (3 <=? n) eqn:E3; [apply Z.leb_le in E3; specialize (Hq E3) | clear Hq]);
    destruct Hcase as [-> | [-> | ->]]; cbn;
    (split; [intros k v Hin; cbn in Hin; intuition (try congruence; try lia);
             match goal with H : (_, _) = (_, _) |- _ => injection H as _ <-; lia end
            | split; [apply (bool_decide_unpack _); vm_compute; exact I
                     | intros k Hin; tauto]]).
Qed.

(** X2: the enclosure plan for a selection is the cabinet packing followed by
    the door packing, both for the same bay count [max(1, recommended_bays)];
    the doors are glass doors exactly when the selection uses door slots, solid
    doors otherwise; cabinets and doors each provide exactly that bay count. *)
Theorem enclosure_plan_structure (repository : RuleRepository.t) (sel : pydict Z) :
  let door_slots :=
    SpaceUsage.door_slots (fst (RuleEngine._summarise_space_usage repository sel)) in
  let bays := RuleEngine.required_bays repository sel in
  exists doors,
    (((0 < door_slots)%Q /\ doors = GLASS_DOOR_SIZE_TO_MODEL) \/
     (~ (0 < door_slots)%Q /\ doors = SOLID_DOOR_SIZE_TO_MODEL)) /\
    1 <= bays /\
    RuleEngine._derive_enclosure_modules repository sel
    = (largest_first CABINET_SIZE_TO_MODEL bays ++ largest_first doors bays)%list /\
    packed_bays (largest_first CABINET_SIZE_TO_MODEL bays) = bays /\
    packed_bays (largest_first doors bays) = bays.
Proof.
  cbv zeta. unfold RuleEngine._derive_enclosure_modules.
  set (bays := RuleEngine.required_bays repository sel).
  assert (Hbays : 1 <= bays) by (unfold bays, RuleEngine.required_bays; lia).
  destruct (RuleEngine._summarise_space_usage repository sel) as [usage alloc]. cbn [fst].
  set (doors := if Py.Qlt_b 0 (SpaceUsage.door_slots usage)
                then GLASS_DOOR_SIZE_TO_MODEL else SOLID_DOOR_SIZE_TO_MODEL).
  assert (Hdoors : In doors [CABINET_SIZE_TO_MODEL; SOLID_DOOR_SIZE_TO_MODEL;
                             GLASS_DOOR_SIZE_TO_MODEL]).
  { unfold doors. destruct (Py.Qlt_b _ _); cbn; tauto. }
  assert (Hcab : In CABINET_SIZE_TO_MODEL [CABINET_SIZE_TO_MODEL; SOLID_DOOR_SIZE_TO_MODEL;
                                           GLASS_DOOR_SIZE_TO_MODEL]) by (now left).
  exists doors. split.
  { unfold doors. destruct (Py.Qlt_b 0 (SpaceUsage.door_slots usage)) eqn:E.
    - left. split; [now apply Qlt_b_true | reflexivity].
    - right. split; [|reflexivity]. intros H. apply Qlt_b_true in H. congruence. }
  split; [exact Hbays|].
  assert (Hda : _allocate_enclosure_sizes bays doors = largest_first doors bays).
  { unfold doors. destruct (Py.Qlt_b _ _); apply allocate_three_sizes;
      solve [reflexivity | assumption]. }
  rewrite Hda.
  change (_allocate_enclosure_sizes bays CABINET_SIZE_TO_MODEL)
    with (_allocate_enclosure_sizes bays [(1, "4100-9401"); (2, "4100-9402"); (3, "4100-9403")]).
  rewrite (allocate_three_sizes "4100-9401" "4100-9402" "4100-9403" bays
             eq_refl eq_refl Hbays).
  change [(1, "4100-9401"); (2, "4100-9402"); (3, "4100-9403")] with CABINET_SIZE_TO_MODEL.
  destruct (largest_first_wf CABINET_SIZE_TO_MODEL bays Hcab Hbays) as (Hcp & Hcn & Hck).
  destruct (largest_first_wf doors bays Hdoors Hbays) as (Hdp & Hdn & Hdk).
  split; [|split; now apply packed_bays_largest_first].
  rewrite (merge_fresh (largest_first CABINET_SIZE_TO_MODEL bays) []);
    [|assumption|assumption|intros k _ []].
  cbn [app]. apply merge_fresh; [assumption | assumption |].
  intros k Hk Hin. apply Hdk in Hk. apply Hck in Hin.
  unfold doors in Hk. destruct (Py.Qlt_b _ _); cbn in Hk, Hin;
    intuition (subst; discriminate).
Qed.

(** ** The space calculator *)

Lemma raised_footprint_positive (base : Q) :
  (0 < (if Qle_bool base 0 then 1 else base))%Q.
Proof.
  destruct (Qle_bool base 0) eqn:E; [reflexivity|].
  apply Qlt_b_true. unfold Py.Qlt_b. now rewrite E.
Qed.

Lemma Qmax_one_r (x : Q) : (1 <= Py.Qmax x 1)%Q.
Proof. apply Qmax_ub_r. Qed.

(** X3: the footprint follows the mount. A model of the override table gets
    its override whatever the text and mount say. Otherwise a mount of
    [internal] gives a positive internal footprint and no door footprint, a
    mount of [door] the converse, a mount of [both] at least 1 on both sides,
    and any other mount gives (0, 0) even when the size text names slots or
    blocks. The mount is read stripped and lower-cased. *)
Theorem footprint_follows_mount (model_number physical_size mounted_on : string) :
  let mount := Py.lower (Py.strip mounted_on) in
  let footprint := _derive_space_requirements model_number physical_size mounted_on in
  match SPACE_OVERRIDES !! model_number with
  | Some override => footprint = override
  | None =>
      (mount = "internal" -> (0 < fst footprint)%Q /\ snd footprint = 0%Q) /\
      (mount = "door" -> fst footprint = 0%Q /\ (0 < snd footprint)%Q) /\
      (mount = "both" -> (1 <= fst footprint)%Q /\ (1 <= snd footprint)%Q) /\
      (mount <> "internal" -> mount <> "door" -> mount <> "both" ->
       footprint = (0, 0)%Q)
  end.
Proof.
  cbv zeta. unfold _derive_space_requirements.
  destruct (SPACE_OVERRIDES !! model_number) as [override|]; [reflexivity|].
  set (mount := Py.lower (Py.strip mounted_on)).
  set (text := Py.strip physical_size).
  split; [|split; [|split]].
  - intros ->. cbn [str_in existsb String.eqb Ascii.eqb Bool.eqb orb andb negb].
    rewrite andb_false_r. cbn [fst snd]. split; [apply raised_footprint_positive | reflexivity].
  - intros ->. cbn [str_in existsb String.eqb Ascii.eqb Bool.eqb orb andb negb].
    rewrite andb_false_r. cbn [fst snd]. split; [reflexivity | apply raised_footprint_positive].
  - intros ->. cbn [str_in existsb String.eqb Ascii.eqb Bool.eqb orb andb negb].
    rewrite andb_false_r. cbn [fst snd]. split; apply Qmax_one_r.
  - intros Hi Hd Hb.
    apply String.eqb_neq in Hi, Hd, Hb. unfold str_in. cbn [existsb].
    rewrite Hi, Hd, Hb.
    cbn [orb andb negb]. destruct (negb (Py.truthy_str text)); reflexivity.
Qed.

Example unknown_mount_ignores_size_text :
  _derive_space_requirements "4100-0001" "4 blocks" "rear" = (0, 0)%Q /\
  _derive_space_requirements "4100-0001" "4 blocks" " Internal " = (4, 0)%Q /\
  _derive_space_requirements "4100-9620" "4 blocks" "rear" = (8, 1)%Q.
Proof. vm_compute. repeat split. Qed.

Lemma Qmax_within (lo hi a b : Q) :
  within lo hi a -> within lo hi b -> within lo hi (Py.Qmax a b).
Proof. intros Ha Hb. unfold Py.Qmax. destruct (Py.Qlt_b a b); assumption. Qed.

Lemma max_default0_within (hi : Q) (values : list Q) :
  (0 <= hi)%Q -> Forall (within 0 hi) values -> within 0 hi (max_default0 values).
Proof.
  intros Hhi Hall. unfold max_default0. destruct Hall as [|v rest Hv Hrest].
  - split; [apply Qle_refl | exact Hhi].
  - revert v Hv. induction Hrest as [|w rest Hw _ IH]; intros v Hv; cbn [fold_left].
    + exact Hv.
    + apply IH. now apply Qmax_within.
Qed.

Lemma numeric_usage_within (pattern : string -> option (string * nat)) (text : string) :
  within 0 32 (_numeric_keyword_usage pattern text).
Proof.
  unfold _numeric_keyword_usage.
  enough (H : forall groups value,
             within 0 32 value ->
             within 0 32
               (fold_left
                  (fun value grp =>
                     match Py.float_of_decimal grp with
                     | None => value
                     | Some quantity =>
                         if Py.Qlt_b 0 quantity && Qle_bool quantity 32
                         then Py.Qmax value quantity else value
                     end) groups value)).
  { apply H. split; discriminate. }
  induction groups as [|grp groups IH]; intros value Hvalue; cbn [fold_left]; [exact Hvalue|].
  apply IH. destruct (Py.float_of_decimal grp) as [quantity|]; [|exact Hvalue].
  destruct (Py.Qlt_b 0 quantity) eqn:E0; [|exact Hvalue].
  destruct (Qle_bool quantity 32) eqn:E32; [|exact Hvalue]. cbn [andb].
  apply Qmax_within; [exact Hvalue|]. split.
  - apply Qlt_le_weak. now apply Qlt_b_true.
  - now apply Qle_bool_iff.
Qed.

Lemma distinct_chars_bound (alphabet : list ascii) (s : string) :
  Forall (fun c => In c alphabet) (list_ascii_of_string s) ->
  distinct_chars s <= Z.of_nat (length alphabet).
Proof.
  intros Hall. unfold distinct_chars. apply Nat2Z.inj_le.
  apply submseteq_length, NoDup_submseteq; [apply NoDup_remove_dups|].
  intros c Hc. apply (proj1 (elem_of_remove_dups _ _)) in Hc.
  rewrite Forall_forall in Hall. apply list_elem_of_In, Hall, Hc.
Qed.

Lemma span_class (p : ascii -> bool) (s : string) :
  Forall (fun c => p c = true) (list_ascii_of_string (fst (Re.span p s))).
Proof.
  induction s as [|c s IH]; cbn; [constructor|].
  destruct (p c) eqn:E; [|constructor].
  destruct (Re.span p s) as [a b]. cbn in *. constructor; assumption.
Qed.

Lemma finditer_attempts {A} (attempt : string -> option (A * nat)) (s : string) (a : A) :
  forall skip, In a (Re.finditer attempt skip s) -> exists s' n, attempt s' = Some (a, n).
Proof.
  induction s as [|c s IH]; intros skip; cbn [Re.finditer]; [intros []|].
  destruct skip as [|k]; [|apply IH].
  destruct (attempt (String c s)) as [[a' n]|] eqn:E; [|apply IH].
  intros [<- | Hin]; [eauto | now apply IH in Hin].
Qed.

Lemma inline_groups_class (word : string) (class : ascii -> bool) (s g : string) :
  In g (Re.finditer (Re.inline_attempt word class) 0 s) ->
  Forall (fun c => class c = true) (list_ascii_of_string g).
Proof.
  intros Hin. apply finditer_attempts in Hin as (s' & n & Hat).
  unfold Re.inline_attempt in Hat. destruct (Re.literal word s') as [r1|]; [|discriminate].
  destruct (Re.span Py.isspace r1) as [ws r2].
  pose proof (span_class class r2) as Hspan.
  destruct (Re.span class r2) as [grp rest]. cbn [fst] in Hspan.
  destruct (Py.truthy_str grp); [|discriminate]. injection Hat as <- _. exact Hspan.
Qed.

Lemma isdigit_DIGITS (c : ascii) : Py.isdigit c = true -> In c DIGITS.
Proof.
  destruct c as [b0 b1 b2 b3 b4 b5 b6 b7].
  destruct b0, b1, b2, b3, b4, b5, b6, b7; vm_compute; intros H;
    solve [discriminate | intuition].
Qed.

Lemma filter_chars_class (p : ascii -> bool) (s : string) :
  Forall (fun c => p c = true) (list_ascii_of_string (Py.filter_chars p s)).
Proof.
  induction s as [|c s IH]; cbn; [constructor|].
  destruct (p c) eqn:E; [cbn; constructor|]; assumption.
Qed.

Lemma a_h_LETTERS (c : ascii) :
  ((97 <=? Py.code c) && (Py.code c <=? 104))%N = true -> In c LETTERS_A_H.
Proof.
  destruct c as [b0 b1 b2 b3 b4 b5 b6 b7].
  destruct b0, b1, b2, b3, b4, b5, b6, b7; vm_compute; intros H;
    solve [discriminate | intuition].
Qed.

Lemma counted_within (hi : Z) (n : Z) :
  n <= hi -> 1 <= hi -> within 0 (inject_Z hi) (inject_Z (Z.max 1 n)).
Proof.
  intros Hn Hhi. split.
  - change 0%Q with (inject_Z 0). rewrite <- Zle_Qle. lia.
  - rewrite <- Zle_Qle. lia.
Qed.

Lemma inline_slot_within (text : string) : within 0 10 (_inline_slot_usage text).
Proof.
  unfold _inline_slot_usage. apply max_default0_within; [discriminate|].
  apply Forall_forall. intros v Hv. apply list_elem_of_In, in_map_iff in Hv as (digits & <- & Hin).
  apply (counted_within 10); [|lia].
  apply (distinct_chars_bound DIGITS).
  apply inline_groups_class in Hin. eapply Forall_impl; [exact Hin|].
  intros c Hc. now apply isdigit_DIGITS.
Qed.

Lemma inline_block_within (text : string) : within 0 8 (_inline_block_usage text).
Proof.
  unfold _inline_block_usage. apply max_default0_within; [discriminate|].
  apply Forall_forall. intros v Hv. apply list_elem_of_In, in_map_iff in Hv as (letters & <- & Hin).
  apply (counted_within 8); [|lia].
  apply (distinct_chars_bound LETTERS_A_H).
  apply list_elem_of_In, list_elem_of_filter in Hin as [_ Hin].
  apply list_elem_of_In, in_map_iff in Hin as (g & <- & _).
  eapply Forall_impl; [apply filter_chars_class|].
  intros c Hc. now apply a_h_LETTERS.
Qed.

Lemma within_widen (lo hi hi' x : Q) : (hi <= hi')%Q -> within lo hi x -> within lo hi' x.
Proof. intros Hh [Hl Hu]. split; [exact Hl | eapply Qle_trans; eassumption]. Qed.

Lemma base_footprints_within (text : string) :
  within 0 32 (base_internal text) /\ within 0 32 (base_door text).
Proof.
  pose proof (numeric_usage_within Re._NUMERIC_SLOT_PATTERN text) as Hns.
  pose proof (numeric_usage_within Re._NUMERIC_BLOCK_PATTERN text) as Hnb.
  pose proof (within_widen 0 10 32 _ ltac:(discriminate) (inline_slot_within text)) as His.
  pose proof (within_widen 0 8 32 _ ltac:(discriminate) (inline_block_within text)) as Hib.
  assert (H0 : within 0 32 0) by (split; discriminate).
  split; (apply max_default0_within; [discriminate|]).
  - repeat (apply List.Forall_cons; [assumption|]). apply List.Forall_nil.
  - apply List.Forall_cons; [assumption|]. apply List.Forall_cons; [assumption|].
    apply List.Forall_cons; [destruct (Qeq_bool _ 0); assumption|].
    apply List.Forall_cons; [destruct (Qeq_bool _ 0); assumption|]. apply List.Forall_nil.
Qed.

(** X4: every footprint the space calculator returns lies between 0 and 32 on
    both sides: numeric counts are accepted only in (0, 32], an inline slot
    list counts at most ten distinct digits, an inline block list at most
    eight distinct letters, and the overrides stay below that. *)
Theorem footprint_bounded (model_number physical_size mounted_on : string) :
  let footprint := _derive_space_requirements model_number physical_size mounted_on in
  within 0 32 (fst footprint) /\ within 0 32 (snd footprint).
Proof.
  cbv zeta. unfold _derive_space_requirements.
  destruct (SPACE_OVERRIDES !! model_number) as [override|] eqn:Eo.
  - apply elem_of_list_to_map_2, list_elem_of_In in Eo. cbn in Eo.
    decompose [or] Eo; try contradiction;
      match goal with H : (_, _) = (_, _) |- _ => injection H as _ <- end;
      cbn; repeat split; discriminate.
  - destruct (base_footprints_within (Py.strip physical_size)) as [Hi Hd].
    set (text := Py.strip physical_size) in *.
    set (mount := Py.lower (Py.strip mounted_on)).
    assert (H0 : within 0 32 0) by (split; discriminate).
    assert (H1 : within 0 32 1) by (split; discriminate).
    set (bi := base_internal text) in *. set (bd := base_door text) in *. clearbody bi bd.
    destruct (negb (Py.truthy_str text) && negb (str_in mount ["internal"; "door"; "both"]));
      [cbn; split; exact H0|].
    destruct (str_in mount ["internal"; "both"]), (str_in mount ["door"; "both"]);
      cbn [andb]; destruct (String.eqb mount "both"); cbn [fst snd];
      repeat match goal with
        | |- context [Qle_bool ?x 0] => destruct (Qle_bool x 0); cbn [fst snd]
        | |- context [negb ?b] => destruct b; cbn [negb fst snd]
        end;
      split; cbn [fst snd]; repeat apply Qmax_within; assumption.
Qed.

(** ** Requirements *)



(** X6: the number of network links is 0, 1 or 2; it is 0 exactly when no
    network card is required, and 2 exactly for a fibre network (smfo, mmfo)
    or full-control graphics software. *)
Theorem network_links_levels (answers : ProjectAnswers.t) (boq : DeviceBOQ.t) :
  let r := RuleEngine.build_requirements answers boq in
  let links := PanelRequirements.network_links r in
  (links = 0 \/ links = 1 \/ links = 2) /\
  (links = 0 <-> PanelRequirements.requires_network_cards r = false) /\
  (links = 2 <->
     ProjectAnswers.network_type answers = "smfo" \/
     ProjectAnswers.network_type answers = "mmfo" \/
     ProjectAnswers.graphics_software_type answers = "full_control").
Proof.
  cbv zeta.
  cbn [RuleEngine.build_requirements PanelRequirements.network_links
       PanelRequirements.requires_network_cards].
  unfold str_in. cbn [existsb]. rewrite !orb_false_r.
  destruct (String.eqb_spec (ProjectAnswers.network_type answers) "smfo") as [Es | Es];
    destruct (String.eqb_spec (ProjectAnswers.network_type answers) "mmfo") as [Em | Em];
    destruct (String.eqb_spec (ProjectAnswers.network_type answers) "none") as [En | En];
    destruct (String.eqb_spec (ProjectAnswers.graphics_software_type answers) "full_control")
      as [Ef | Ef];
    destruct (String.eqb_spec (ProjectAnswers.graphics_software_type answers) "view_only")
      as [Ev | Ev];
    destruct (ProjectAnswers.has_graphics_command_center answers);
    cbn [orb negb andb];
    try (exfalso; congruence);
    (split; [lia|]; split; (split; [try lia; try discriminate; try tauto
                                   | try lia; try discriminate; intuition congruence])).
Qed.

(** ** The specific-module plan, entry by entry *)

Lemma add_get_ne (plan : pydict Z) (k k' : string) (q : Z) :
  String.eqb k' k = false -> dict_get (RuleEngine.add plan k' q) k = dict_get plan k.
Proof.
  intros E. unfold RuleEngine.add. destruct (q <=? 0); [reflexivity|].
  now rewrite dict_get_set, E.
Qed.

Lemma add_get_eq (plan : pydict Z) (k : string) (q : Z) :
  dict_get (RuleEngine.add plan k q) k
  = if q <=? 0 then dict_get plan k else Some (Z.max (dict_get_or plan k 0) q).
Proof.
  unfold RuleEngine.add. destruct (q <=? 0); [reflexivity|].
  now rewrite dict_get_set, String.eqb_refl.
Qed.

Lemma when_get_ne (k : string) (b : bool) (f : pydict Z -> pydict Z) (plan : pydict Z) :
  (forall p, dict_get (f p) k = dict_get p k) ->
  dict_get (RuleEngine.when b f plan) k = dict_get plan k.
Proof. intros Hf. unfold RuleEngine.when. destruct b; [apply Hf | reflexivity]. Qed.

(** Steps of the plan that write other model numbers leave a lookup alone. *)
Ltac peel_plan :=
  repeat first
    [ rewrite add_get_ne by reflexivity
    | rewrite when_get_ne by (intros; cbv beta zeta; peel_plan; reflexivity)
    | match goal with |- context [if ?c then _ else _] => destruct c end ].

(** X7: the plan never holds both relay SKUs: with fire-damper control it has
    no generic relay module 4100-6033, without it no zone relay 4100-5013. *)
Theorem plan_relay_sku_exclusive (requirements : PanelRequirements.t) :
  let plan := RuleEngine._derive_specific_modules requirements in
  (PanelRequirements.fire_damper_control requirements = true ->
   dict_get plan "4100-6033" = None) /\
  (PanelRequirements.fire_damper_control requirements = false ->
   dict_get plan "4100-5013" = None) /\
  (dict_get plan "4100-6033" = None \/ dict_get plan "4100-5013" = None).
Proof.
  cbv zeta.
  assert (H1 : PanelRequirements.fire_damper_control requirements = true ->
               dict_get (RuleEngine._derive_specific_modules requirements) "4100-6033" = None).
  { intros Hfd. unfold RuleEngine._derive_specific_modules. cbv zeta. rewrite Hfd.
    peel_plan; reflexivity. }
  assert (H2 : PanelRequirements.fire_damper_control requirements = false ->
               dict_get (RuleEngine._derive_specific_modules requirements) "4100-5013" = None).
  { intros Hfd. unfold RuleEngine._derive_specific_modules. cbv zeta. rewrite Hfd.
    peel_plan; reflexivity. }
  split; [exact H1|]. split; [exact H2|].
  destruct (PanelRequirements.fire_damper_control requirements); [left | right]; auto.
Qed.

Lemma plan_relay_sku_exclusive_witness :
  dict_get (RuleEngine._derive_specific_modules
              (RuleEngine.build_requirements
                 (QandAProcessor.process_answers ProjectAnswers.new {[ 32 := "yes" ]})
                 DeviceBOQ.new)) "4100-6033" = None.
Proof.
  apply (proj1 (plan_relay_sku_exclusive _)). reflexivity.
Defined.

Ltac peel_outer :=
  repeat first
    [ rewrite add_get_ne by reflexivity
    | rewrite when_get_ne by (intros; cbv beta zeta; peel_plan; reflexivity) ].

(** X8: the amplifier count of the plan. Without voice evacuation the plan has
    no amplifier 4100-1248. With it the count is A = max(1, ceil(watts/100)),
    doubled once when dual amplifiers per zone or one-to-one backup (or both)
    are asked for, and raised by one for a one-for-all backup only when no
    doubling applies. No other step of the plan changes the count. *)
Theorem plan_amplifier_count (requirements : PanelRequirements.t) :
  let plan := RuleEngine._derive_specific_modules requirements in
  let base := Z.max 1 (Py.ceil (PanelRequirements.speaker_wattage requirements / 100)%Q) in
  let amplifiers :=
    if PanelRequirements.backup_amp_one_to_one requirements
       || PanelRequirements.dual_amplifier_per_zone requirements
    then base * 2
    else if PanelRequirements.backup_amp_one_for_all requirements then base + 1 else base in
  dict_get plan "4100-1248"
  = if PanelRequirements.voice_evacuation requirements then Some amplifiers else None.
Proof.
  cbv zeta. unfold RuleEngine._derive_specific_modules. cbv zeta.
  set (base := Z.max 1 (Py.ceil (PanelRequirements.speaker_wattage requirements / 100)%Q)).
  set (amplifiers :=
         if PanelRequirements.backup_amp_one_to_one requirements
            || PanelRequirements.dual_amplifier_per_zone requirements
         then base * 2
         else if PanelRequirements.backup_amp_one_for_all requirements then base + 1 else base).
  assert (Hamp : 1 <= amplifiers).
  { unfold amplifiers, base.
    destruct (PanelRequirements.backup_amp_one_to_one requirements
              || PanelRequirements.dual_amplifier_per_zone requirements);
      [|destruct (PanelRequirements.backup_amp_one_for_all requirements)]; lia. }
  clearbody amplifiers.
  destruct (PanelRequirements.fire_damper_control requirements);
    [|destruct (RuleEngine.nonzero _)]; peel_outer;
    (unfold RuleEngine.when at 1;
     destruct (PanelRequirements.voice_evacuation requirements);
     [ peel_outer; rewrite add_get_eq; unfold dict_get_or; peel_outer;
       cbn [dict_get default from_option];
       destruct (amplifiers <=? 0) eqn:E; [apply Z.leb_le in E; lia | f_equal; lia]
     | peel_outer; reflexivity ]).
Qed.

(** X9: the loop cards and power supplies of the plan: one dual-loop IDNet
    card 4100-3109 per required IDNet module, exactly one main power supply
    4100-5311 and one master controller 4100-9701, and one expansion power
    supply 4100-5325 for each IDNet module beyond the first (none when there is
    a single module). *)
Theorem plan_loop_cards_and_supplies (requirements : PanelRequirements.t) :
  let plan := RuleEngine._derive_specific_modules requirements in
  let idnet := PanelRequirements.idnet_modules_required requirements in
  dict_get plan "4100-9701" = Some 1 /\
  dict_get plan "4100-5311" = Some 1 /\
  dict_get plan "4100-3109" = (if idnet <=? 0 then None else Some idnet) /\
  dict_get plan "4100-5325" = (if 1 <? idnet then Some (idnet - 1) else None).
Proof.
  cbv zeta. unfold RuleEngine._derive_specific_modules. cbv zeta.
  set (idnet := PanelRequirements.idnet_modules_required requirements).
  repeat split.
  - destruct (PanelRequirements.fire_damper_control requirements);
      [|destruct (RuleEngine.nonzero _)]; peel_outer; reflexivity.
  - destruct (PanelRequirements.fire_damper_control requirements);
      [|destruct (RuleEngine.nonzero _)]; peel_outer; reflexivity.
  - destruct (PanelRequirements.fire_damper_control requirements);
      [|destruct (RuleEngine.nonzero _)]; peel_outer;
      rewrite add_get_eq; unfold dict_get_or; peel_outer; cbn [dict_get default from_option];
      destruct (idnet <=? 0) eqn:E; try reflexivity; apply Z.leb_gt in E; f_equal; lia.
  - destruct (PanelRequirements.fire_damper_control requirements);
      [|destruct (RuleEngine.nonzero _)]; peel_outer;
      (unfold RuleEngine.when at 1; destruct (1 <? idnet) eqn:E;
       [ rewrite add_get_eq; unfold dict_get_or; peel_outer; cbn [dict_get default from_option];
         apply Z.ltb_lt in E; destruct (idnet - 1 <=? 0) eqn:E'; [apply Z.leb_le in E'; lia|];
         f_equal; lia
       | peel_outer; reflexivity ]).
Qed.

(** ** Quantities of the returned selection *)

Lemma read_solution_nonzero (value : string -> Z) (mods : list ModuleDefinition.t) :
  forall k v, In (k, v) (fst (RuleEngine.read_solution value mods)) -> v <> 0.
Proof.
  unfold RuleEngine.read_solution.
  enough (H : forall acc : pydict Z * Q,
             dict_values_all (fun v => v <> 0) (fst acc) ->
             dict_values_all (fun v => v <> 0)
               (fst (fold_left
                       (fun '(module_selection, total_cost) module =>
                          let quantity := value (ModuleDefinition.model_number module) in
                          if RuleEngine.nonzero quantity
                          then (dict_set module_selection
                                  (ModuleDefinition.model_number module) quantity,
                                (total_cost
                                 + ModuleDefinition.price module * inject_Z quantity)%Q)
                          else (module_selection, total_cost))
                       mods acc))).
  { apply H. intros k v []. }
  induction mods as [|m mods IH]; intros [sel cost] Hacc; cbn [fold_left]; [exact Hacc|].
  apply IH. cbv zeta. destruct (RuleEngine.nonzero _) eqn:E; cbn [fst]; [|exact Hacc].
  apply dict_values_all_set; [exact Hacc|].
  unfold RuleEngine.nonzero in E. apply negb_true_iff, Z.eqb_neq in E. exact E.
Qed.

Lemma optimizer_selection_positive (cp_model : option CpSat.t)
    (repository : RuleRepository.t) (requirements : PanelRequirements.t) :
  (forall solver, cp_model = Some solver -> CpSat.sound solver) ->
  dict_values_all (fun v => 1 <= v)
    (OptimizationResult.module_selection
       (RuleEngine.solver_result cp_model repository
          (RuleEngine.derive_category_requirements requirements))).
Proof.
  intros Hsound k v Hin.
  assert (Hnn : 0 <= v).
  { revert Hin. apply (optimizer_selection_nonneg cp_model repository _ Hsound).
    intros k' v' H. apply derived_demand_positive in H. lia. }
  rewrite solver_result_selection in Hin. destruct cp_model as [solver|].
  - cbv zeta in Hin. destruct (CpSat.is_solution _); [|destruct Hin].
    apply read_solution_nonzero in Hin. lia.
  - apply greedy_selection_spec in Hin as [_ [c Hc]].
    apply derived_demand_positive in Hc. lia.
Qed.

Lemma add_values_positive (plan : pydict Z) (k : string) (q : Z) :
  dict_values_all (fun v => 1 <= v) plan ->
  dict_values_all (fun v => 1 <= v) (RuleEngine.add plan k q).
Proof.
  intros H. unfold RuleEngine.add. destruct (q <=? 0) eqn:E; [exact H|].
  apply Z.leb_gt in E. apply dict_values_all_set; [exact H | lia].
Qed.

Lemma when_values_positive (b : bool) (f : pydict Z -> pydict Z) (plan : pydict Z) :
  (forall p, dict_values_all (fun v => 1 <= v) p -> dict_values_all (fun v => 1 <= v) (f p)) ->
  dict_values_all (fun v => 1 <= v) plan ->
  dict_values_all (fun v => 1 <= v) (RuleEngine.when b f plan).
Proof. intros Hf H. unfold RuleEngine.when. destruct b; auto. Qed.

Lemma plan_values_positive (requirements : PanelRequirements.t) :
  dict_values_all (fun v => 1 <= v) (RuleEngine._derive_specific_modules requirements).
Proof.
  unfold RuleEngine._derive_specific_modules. cbv zeta.
  assert (H0 : dict_values_all (fun v => 1 <= v) ([] : pydict Z)) by (intros k v []).
  revert H0. generalize ([] : pydict Z). intros p0 H0.
  repeat first
    [ assumption
    | apply add_values_positive
    | apply when_values_positive; [intros ? ?; cbv beta zeta |]
    | match goal with |- context [if ?c then _ else _] => destruct c end ].
Qed.

Lemma merge_plan_values_positive (plan sel : pydict Z) :
  dict_values_all (fun v => 1 <= v) sel ->
  dict_values_all (fun v => 1 <= v) plan ->
  dict_values_all (fun v => 1 <= v) (RuleEngine.merge_plan sel plan).
Proof.
  unfold RuleEngine.merge_plan. revert sel.
  induction plan as [|[k q] plan IH]; intros sel Hsel Hplan; cbn [fold_left]; [exact Hsel|].
  apply IH.
  - apply dict_values_all_set; [exact Hsel|].
    assert (1 <= q) by (apply (Hplan k q); now left). lia.
  - intros k' v' H. apply (Hplan k' v'). now right.
Qed.

Lemma add_enclosures_values_positive (encl sel : pydict Z) :
  dict_values_all (fun v => 1 <= v) sel ->
  dict_values_all (fun v => 0 < v) encl ->
  dict_values_all (fun v => 1 <= v) (RuleEngine.add_enclosures sel encl).
Proof.
  unfold RuleEngine.add_enclosures. revert sel.
  induction encl as [|[k q] encl IH]; intros sel Hsel Hencl; cbn [fold_left]; [exact Hsel|].
  apply IH.
  - apply dict_values_all_set; [exact Hsel|].
    assert (0 < q) by (apply (Hencl k q); now left).
    assert (0 <= dict_get_or sel k 0); [|lookups_lia].
    apply (dict_values_all_get (fun v => 0 <= v)); [|lia].
    intros k' v' H'. apply Hsel in H'. lia.
  - intros k' v' H. apply (Hencl k' v'). now right.
Qed.

Lemma final_values_positive (cp_model : option CpSat.t) (repository : RuleRepository.t)
    (answers : ProjectAnswers.t) (boq : DeviceBOQ.t) :
  (forall solver, cp_model = Some solver -> CpSat.sound solver) ->
  dict_values_all (fun v => 1 <= v)
    (OptimizationResult.module_selection
       (RuleEngine.optimise_panel cp_model repository answers boq)).
Proof.
  intros Hsound. rewrite optimise_panel_selection.
  apply add_enclosures_values_positive; [|apply enclosure_plan_positive].
  unfold merged_selection. cbv zeta.
  apply merge_plan_values_positive;
    [now apply optimizer_selection_positive | apply plan_values_positive].
Qed.

(** X10: no line of the returned bill of modules is empty. With a solver that
    keeps its contract (or without solver), every quantity of the plan, of the
    enclosure plan and of the selection returned by [optimise_panel] is at
    least 1: no model number is listed with quantity zero or less. *)
Theorem selection_quantities_positive (cp_model : option CpSat.t)
    (repository : RuleRepository.t) (answers : ProjectAnswers.t) (boq : DeviceBOQ.t) :
  (forall solver, cp_model = Some solver -> CpSat.sound solver) ->
  let requirements := RuleEngine.build_requirements answers boq in
  let result := RuleEngine.optimise_panel cp_model repository answers boq in
  dict_values_all (fun v => 1 <= v) (RuleEngine._derive_specific_modules requirements) /\
  dict_values_all (fun v => 1 <= v) (OptimizationResult.module_selection result) /\
  forall k, In k (dict_keys (OptimizationResult.module_selection result)) ->
            1 <= selected (OptimizationResult.module_selection result) k.
Proof.
  intros Hsound requirements result.
  pose proof (final_values_positive cp_model repository answers boq Hsound) as Hfinal.
  split; [apply plan_values_positive|]. split; [exact Hfinal|].
  intros k Hk. apply dict_key_get in Hk as [v Hv]. unfold selected, dict_get_or.
  fold result in Hfinal. rewrite Hv. cbn [default from_option id].
  apply dict_get_In in Hv. exact (Hfinal k v Hv).
Qed.

Lemma selection_quantities_positive_witness :
  dict_values_all (fun v => 1 <= v)
    (OptimizationResult.module_selection
       (RuleEngine.optimise_panel (Some twenty_solver) demo_repository
          ProjectAnswers.new DeviceBOQ.new)).
Proof.
  exact (proj1 (proj2 (selection_quantities_positive (Some twenty_solver) demo_repository
                         ProjectAnswers.new DeviceBOQ.new twenty_solver_only))).
Defined.

(** ** The estimated cost *)

Lemma optimise_panel_cost (cp_model : option CpSat.t) (repository : RuleRepository.t)
    (answers : ProjectAnswers.t) (boq : DeviceBOQ.t) :
  let result := RuleEngine.optimise_panel cp_model repository answers boq in
  OptimizationResult.estimated_cost result
  = fold_left
      (fun acc '(model_number, quantity) =>
         (acc + RuleRepository.estimate_cost repository model_number quantity)%Q)
      (OptimizationResult.module_selection result) 0%Q.
Proof.
  cbv zeta. rewrite optimise_panel_selection.
  unfold RuleEngine.optimise_panel. cbv zeta.
  fold (merged_selection cp_model repository answers boq).
  rewrite (summarise_fst_snd repository (RuleEngine.add_enclosures _ _)). reflexivity.
Qed.

Lemma inject_Z_pos (q : Z) : 1 <= q -> (0 < inject_Z q)%Q.
Proof. intros H. unfold Qlt. cbn. lia. Qed.

Lemma estimate_cost_positive (repository : RuleRepository.t) (model_number : string)
    (quantity : Z) :
  prices_positive repository -> 1 <= quantity ->
  (0 < RuleRepository.estimate_cost repository model_number quantity)%Q.
Proof.
  intros [Hm Hc] Hq. apply inject_Z_pos in Hq.
  assert (H1000 : (0 < 1000)%Q) by reflexivity.
  unfold RuleRepository.estimate_cost. cbv zeta.
  destruct (RuleRepository.get_module repository model_number) as [m|].
  - destruct (Py.Qlt_b 0 (ModuleDefinition.price m)) eqn:E.
    + apply Qlt_b_true in E. now apply Qmult_lt_0_compat.
    + destruct (RuleRepository.module_prices repository !! model_number) as [p|] eqn:Ep.
      * apply Hm in Ep. now apply Qmult_lt_0_compat.
      * destruct (ModuleDefinition.specification_categories m) as [|category rest].
        -- now apply Qmult_lt_0_compat.
        -- destruct (RuleRepository.category_prices repository !! category) as [p|] eqn:Ec.
           ++ apply Hc in Ec. now apply Qmult_lt_0_compat.
           ++ now apply Qmult_lt_0_compat.
  - destruct (RuleRepository.module_prices repository !! model_number) as [p|] eqn:Ep.
    + apply Hm in Ep. now apply Qmult_lt_0_compat.
    + now apply Qmult_lt_0_compat.
Qed.

Lemma cost_sum_grows (repository : RuleRepository.t) (sel : pydict Z) (acc : Q) :
  prices_positive repository ->
  dict_values_all (fun v => 1 <= v) sel ->
  (acc <= fold_left
            (fun acc '(model_number, quantity) =>
               (acc + RuleRepository.estimate_cost repository model_number quantity)%Q)
            sel acc)%Q /\
  (sel <> [] ->
   (acc < fold_left
            (fun acc '(model_number, quantity) =>
               (acc + RuleRepository.estimate_cost repository model_number quantity)%Q)
            sel acc)%Q).
Proof.
  intros Hprices. revert acc.
  induction sel as [|[k q] sel IH]; intros acc Hsel; cbn [fold_left].
  - split; [apply Qle_refl | congruence].
  - assert (Hq : 1 <= q) by (apply (Hsel k q); now left).
    pose proof (estimate_cost_positive repository k q Hprices Hq) as Hcost.
    assert (Hstep : (acc < acc + RuleRepository.estimate_cost repository k q)%Q).
    { rewrite <- (Qplus_0_r acc) at 1. apply Qplus_lt_r. exact Hcost. }
    destruct (IH (acc + RuleRepository.estimate_cost repository k q)%Q) as [Hle _].
    { intros k' v' H. apply (Hsel k' v'). now right. }
    split; [|intros _]; [apply Qlt_le_weak|]; eapply Qlt_le_trans; eassumption.
Qed.

(** X11: the estimated cost is a price. With positive prices in the pricing
    tables and a solver that keeps its contract (or no solver), the estimated
    cost returned by [optimise_panel] is strictly positive, and it is at least
    the cost estimated for any single line of the returned selection. *)
Theorem estimated_cost_positive (cp_model : option CpSat.t)
    (repository : RuleRepository.t) (answers : ProjectAnswers.t) (boq : DeviceBOQ.t) :
  (forall solver, cp_model = Some solver -> CpSat.sound solver) ->
  prices_positive repository ->
  let result := RuleEngine.optimise_panel cp_model repository answers boq in
  (0 < OptimizationResult.estimated_cost result)%Q /\
  forall k v, In (k, v) (OptimizationResult.module_selection result) ->
    (RuleRepository.estimate_cost repository k v
     <= OptimizationResult.estimated_cost result)%Q.
Proof.
  intros Hsound Hprices result.
  pose proof (final_values_positive cp_model repository answers boq Hsound) as Hpos.
  pose proof (final_at_least_plan cp_model repository answers boq _
                (plan_has_master_controller _)) as Hmc.
  fold result in Hpos, Hmc.
  unfold result at 1 3. rewrite optimise_panel_cost. cbv zeta. fold result.
  revert Hpos Hmc. generalize (OptimizationResult.module_selection result). intros sel Hpos Hmc.
  split.
  - apply cost_sum_grows; [assumption | assumption |].
    intros ->. cbn in Hmc. lia.
  - clear Hmc.
    assert (Hgen : forall (acc : Q) k v, (0 <= acc)%Q -> In (k, v) sel ->
              (RuleRepository.estimate_cost repository k v
               <= fold_left
                    (fun acc '(model_number, quantity) =>
                       (acc + RuleRepository.estimate_cost repository model_number quantity)%Q)
                    sel acc)%Q).
    { induction sel as [|[k0 q0] sel IH]; intros acc k v Hacc Hin; [destruct Hin|].
      cbn [fold_left].
      assert (Hq0 : 1 <= q0) by (apply (Hpos k0 q0); now left).
      pose proof (estimate_cost_positive repository k0 q0 Hprices Hq0) as Hc0.
      assert (Hpos' : dict_values_all (fun v => 1 <= v) sel)
        by (intros k' v' H; apply (Hpos k' v'); now right).
      destruct Hin as [[= -> ->] | Hin].
      - eapply Qle_trans; [|apply cost_sum_grows; assumption].
        rewrite <- (Qplus_0_l (RuleRepository.estimate_cost repository k v)) at 1.
        apply Qplus_le_l. exact Hacc.
      - apply IH; [exact Hpos' | | exact Hin].
        apply Qlt_le_weak. eapply Qle_lt_trans; [exact Hacc|].
        rewrite <- (Qplus_0_r acc) at 1. apply Qplus_lt_r. exact Hc0. }
    intros k v Hin. apply Hgen; [apply Qle_refl | exact Hin].
Qed.

Lemma demo_prices_positive : prices_positive demo_repository.
Proof.
  split; intros k p H; cbn [demo_repository RuleRepository.module_prices
                            RuleRepository.category_prices] in H.
  - rewrite lookup_empty in H. discriminate.
  - unfold RuleRepository.DEFAULT_CATEGORY_PRICES in H.
    apply elem_of_list_to_map_2 in H.
    repeat (apply elem_of_cons in H as [H | H]; [injection H as -> ->; reflexivity|]).
    now apply elem_of_nil in H.
Defined.

Lemma estimated_cost_positive_witness :
  (0 < OptimizationResult.estimated_cost
         (RuleEngine.optimise_panel (Some twenty_solver) demo_repository
            ProjectAnswers.new DeviceBOQ.new))%Q.
Proof.
  exact (proj1 (estimated_cost_positive (Some twenty_solver) demo_repository
                  ProjectAnswers.new DeviceBOQ.new twenty_solver_only demo_prices_positive)).
Defined.

(** ** When the solver finds no solution *)

Lemma dict_set_keys_nodup {V} (d : pydict V) (k : string) (v : V) :
  NoDup (dict_keys d) -> NoDup (dict_keys (dict_set d k v)).
Proof.
  induction d as [|[k0 v0] d IH]; cbn.
  - intros _. apply NoDup_singleton.
  - intros H. apply NoDup_cons in H as [Hnotin Hnodup].
    destruct (String.eqb k0 k) eqn:E; cbn.
    + apply NoDup_cons. split; assumption.
    + apply NoDup_cons. split; [|now apply IH].
      intros Hin. apply list_elem_of_In, (dict_set_keys d k v k0) in Hin as [-> | Hin].
      * now rewrite String.eqb_refl in E.
      * apply Hnotin. now apply list_elem_of_In.
Qed.

Lemma add_keys_nodup (plan : pydict Z) (k : string) (q : Z) :
  NoDup (dict_keys plan) -> NoDup (dict_keys (RuleEngine.add plan k q)).
Proof.
  intros H. unfold RuleEngine.add. destruct (q <=? 0); [exact H|].
  now apply dict_set_keys_nodup.
Qed.

Lemma when_keys_nodup (b : bool) (f : pydict Z -> pydict Z) (plan : pydict Z) :
  (forall p, NoDup (dict_keys p) -> NoDup (dict_keys (f p))) ->
  NoDup (dict_keys plan) -> NoDup (dict_keys (RuleEngine.when b f plan)).
Proof. intros Hf H. unfold RuleEngine.when. destruct b; auto. Qed.

Lemma plan_keys_nodup (requirements : PanelRequirements.t) :
  NoDup (dict_keys (RuleEngine._derive_specific_modules requirements)).
Proof.
  unfold RuleEngine._derive_specific_modules. cbv zeta.
  assert (H0 : NoDup (dict_keys ([] : pydict Z))) by apply NoDup_nil_2.
  revert H0. generalize ([] : pydict Z). intros p0 H0.
  repeat first
    [ assumption
    | apply add_keys_nodup
    | apply when_keys_nodup; [intros ? ?; cbv beta zeta |]
    | match goal with |- context [if ?c then _ else _] => destruct c end ].
Qed.

(** Merging a plan of fresh models into a selection appends it. *)
Lemma merge_plan_fresh (plan sel : pydict Z) :
  dict_values_all (fun v => 1 <= v) plan ->
  NoDup (dict_keys plan) ->
  (forall k, In k (dict_keys plan) -> ~ In k (dict_keys sel)) ->
  RuleEngine.merge_plan sel plan = (sel ++ plan)%list.
Proof.
  unfold RuleEngine.merge_plan. revert sel.
  induction plan as [|[k q] plan IH]; intros sel Hpos Hnodup Hfresh; cbn [fold_left].
  - now rewrite app_nil_r.
  - assert (Hq : 1 <= q) by (apply (Hpos k q); now left).
    assert (Hk : ~ In k (dict_keys sel)) by (apply Hfresh; now left).
    rewrite dict_get_or_fresh, dict_set_fresh by assumption.
    replace (Z.max 0 q) with q by lia.
    cbn [dict_keys map fst] in Hnodup. apply NoDup_cons in Hnodup as [Hnotin Hnodup].
    rewrite IH.
    + now rewrite <- app_assoc.
    + intros k' v' Hin. apply (Hpos k' v'). now right.
    + exact Hnodup.
    + intros k' Hk' Hin. unfold dict_keys in Hin. rewrite map_app in Hin.
      apply in_app_or in Hin as [Hin | [<- | []]].
      * apply (Hfresh k'); [now right | exact Hin].
      * apply Hnotin. now apply list_elem_of_In.
Qed.

(** X12: a solver that is present but reports no solution (INFEASIBLE, UNKNOWN
    or MODEL_INVALID) is not replaced by the greedy selector: the selection
    returned by [optimise_panel] is then the specific-module plan alone, in
    the plan's order, with the enclosures computed for the plan added, and the
    status reads INFEASIBLE+PLAN whichever of the three the solver reported. *)
Theorem no_solution_leaves_plan (solver : CpSat.t) (repository : RuleRepository.t)
    (answers : ProjectAnswers.t) (boq : DeviceBOQ.t) :
  let requirements := RuleEngine.build_requirements answers boq in
  let demand := RuleEngine.derive_category_requirements requirements in
  let plan := RuleEngine._derive_specific_modules requirements in
  let result := RuleEngine.optimise_panel (Some solver) repository answers boq in
  CpSat.is_solution
    (CpSat.status (CpSat.Solve solver (RuleEngine.build_model repository demand))) = false ->
  OptimizationResult.module_selection result
  = RuleEngine.add_enclosures plan (RuleEngine._derive_enclosure_modules repository plan) /\
  OptimizationResult.solver_status result = "INFEASIBLE+PLAN".
Proof.
  intros requirements demand plan result Hno.
  assert (Hmerged : merged_selection (Some solver) repository answers boq = plan).
  { unfold merged_selection. cbv zeta. fold requirements. fold demand. fold plan.
    rewrite solver_result_selection. cbv zeta. rewrite Hno.
    rewrite merge_plan_fresh; [reflexivity | apply plan_values_positive
                               | apply plan_keys_nodup | intros k _ []]. }
  split.
  - unfold result. rewrite optimise_panel_selection, Hmerged. reflexivity.
  - unfold result, RuleEngine.optimise_panel. cbv zeta.
    fold requirements. fold demand.
    rewrite (summarise_fst_snd repository (RuleEngine.add_enclosures _ _)).
    cbn [OptimizationResult.solver_status].
    unfold RuleEngine.solver_result, RuleEngine._build_solver. cbv zeta. rewrite Hno.
    rewrite (summarise_fst_snd repository []). reflexivity.
Qed.

Lemma no_solution_leaves_plan_witness :
  OptimizationResult.solver_status
    (RuleEngine.optimise_panel (Some refusing_solver) demo_repository
       ProjectAnswers.new DeviceBOQ.new) = "INFEASIBLE+PLAN".
Proof.
  exact (proj2 (no_solution_leaves_plan refusing_solver demo_repository
                  ProjectAnswers.new DeviceBOQ.new eq_refl)).
Defined.

(** ** Which answers count *)

Lemma normalise_lookup (answers_dict : gmap Z string) (k : Z) :
  QandAProcessor.normalise answers_dict !! k
  = (fun v => Py.strip (Py.lower v)) <$> answers_dict !! k.
Proof. unfold QandAProcessor.normalise. apply lookup_fmap. Qed.

(** X13: only the answers to questions 2, 3, 5-8, 10-16 and 18-35 count. Two
    answer dictionaries that agree on these questions give the same
    [ProjectAnswers]; the answers to questions 1, 4, 9 and 17, and to any
    number outside 1..35, change nothing, whether present or not. *)
Theorem answers_outside_consulted_ignored (self_answers : ProjectAnswers.t)
    (d1 d2 : gmap Z string) :
  (forall k, In k CONSULTED_QUESTIONS -> d1 !! k = d2 !! k) ->
  QandAProcessor.process_answers self_answers d1
  = QandAProcessor.process_answers self_answers d2.
Proof.
  intros Hagree.
  assert (H : forall k, In k CONSULTED_QUESTIONS ->
                QandAProcessor.normalise d1 !! k = QandAProcessor.normalise d2 !! k).
  { intros k Hk. rewrite !normalise_lookup, (Hagree k Hk). reflexivity. }
  unfold QandAProcessor.process_answers. cbv zeta.
  unfold QandAProcessor.get_is, QandAProcessor.get_or.
  repeat match goal with
    | |- context [QandAProcessor.normalise d1 !! ?k] =>
        rewrite (H k) by (unfold CONSULTED_QUESTIONS; cbn [In];
                          repeat first [left; reflexivity | right])
    end.
  reflexivity.
Qed.

Lemma answers_outside_consulted_ignored_witness :
  QandAProcessor.process_answers ProjectAnswers.new {[ 9 := "yes" ]}
  = QandAProcessor.process_answers ProjectAnswers.new ∅.
Proof.
  apply answers_outside_consulted_ignored.
  intros k Hk. unfold CONSULTED_QUESTIONS in Hk. cbn [In] in Hk.
  repeat (destruct Hk as [<- | Hk]; [reflexivity|]). destruct Hk.
Defined.

(** ** Main panels *)

Lemma base_constraints_jack_count (a : ProjectAnswers.t) :
  QandAProcessor.to_cpsat_constraints a !! "fire_phone_jack_count"
  = Some (VInt (ProjectAnswers.fire_phone_jack_count a)).
Proof.
  unfold QandAProcessor.to_cpsat_constraints.
  destruct (AudioType_eqb (ProjectAnswers.audio_type a) NO_AUDIO);
    [|rewrite lookup_insert_ne by discriminate]; reflexivity.
Qed.

Lemma base_constraints_no_circuits (a : ProjectAnswers.t) :
  QandAProcessor.to_cpsat_constraints a !! "fire_phone_circuits" = None.
Proof.
  unfold QandAProcessor.to_cpsat_constraints.
  destruct (AudioType_eqb (ProjectAnswers.audio_type a) NO_AUDIO);
    [|rewrite lookup_insert_ne by discriminate]; reflexivity.
Qed.

(** X14: the main panels of a project. [process_project] keeps the
    configurations of earlier calls and appends [max(1, num_panels)] main
    panels named PANEL-1, PANEL-2, ... before any annunciator. With one panel
    (or a panel count below 1) the panel carries the total BOQ unchanged; with
    more, each carries the ceiling share with no remote annunciator. Every
    main panel carries the same constraints, and these hold the project's
    total fire-phone jack count and [ceil(jacks / 10)] circuits (not the
    panel's share) when the BOQ has jacks, and no circuit entry otherwise. *)
Theorem main_panels_emitted (self : ProjectConfigurator.t) (qa : gmap Z string)
    (total_boq : DeviceBOQ.t) (num_panels : Z) :
  let jacks := DeviceBOQ.fire_phone_jack total_boq in
  exists (mains anns : list PanelConfiguration.t),
    ProjectConfigurator.process_project self true qa total_boq num_panels
    = Some (ProjectConfigurator.mk
              (Some (QandAProcessor.process_answers ProjectAnswers.new qa))
              (ProjectConfigurator.panel_configurations self ++ mains ++ anns)%list,
            (ProjectConfigurator.panel_configurations self ++ mains ++ anns)%list) /\
    length mains = Z.to_nat (Z.max 1 num_panels) /\
    Forall (fun c => PanelConfiguration.is_main_panel c = false) anns /\
    forall (i : nat) c, mains !! i = Some c ->
      PanelConfiguration.panel_id c = "PANEL-" ++ pretty (Z.of_nat i + 1) /\
      PanelConfiguration.is_main_panel c = true /\
      PanelConfiguration.boq c
      = (if 1 <? num_panels then MultiPanelBOQHandler.panel_boq total_boq num_panels
         else total_boq) /\
      PanelConfiguration.constraints c !! "fire_phone_jack_count"
      = Some (VInt (Z.max 0 jacks)) /\
      PanelConfiguration.constraints c !! "fire_phone_circuits"
      = (if 0 <? jacks then Some (VInt (Py.ceil (Py.truediv jacks 10))) else None).
Proof.
  cbv zeta. unfold ProjectConfigurator.process_project. cbn [negb].
  set (answers := QandAProcessor.process_answers ProjectAnswers.new qa).
  set (base0 := QandAProcessor.to_cpsat_constraints answers).
  set (base := if 0 <? DeviceBOQ.fire_phone_jack total_boq then _ else base0).
  set (panel_boqs := if 1 <? num_panels then _ else [total_boq]).
  eexists _, _. split; [reflexivity|].
  split; [|split].
  - rewrite length_imap. unfold panel_boqs. destruct (1 <? num_panels) eqn:E.
    + apply Z.ltb_lt in E. unfold MultiPanelBOQHandler._divide_equal.
      rewrite length_map, length_seq. f_equal. lia.
    + apply Z.ltb_ge in E. cbn [length]. replace (Z.max 1 num_panels) with 1 by lia.
      reflexivity.
  - unfold ProjectConfigurator.annunciator_configs. apply Forall_app. split.
    + destruct (ProjectAnswers.remote_annunciator_with_audio_control answers);
        [constructor; [reflexivity | constructor] | constructor].
    + destruct (_ && _); [|constructor].
      apply Forall_forall. intros c Hc. apply list_elem_of_In, in_map_iff in Hc as (i & <- & _).
      reflexivity.
  - intros i c Hc. rewrite list_lookup_imap in Hc.
    destruct (panel_boqs !! i) as [b|] eqn:Eb; [|discriminate].
    cbn in Hc. injection Hc as <-.
    cbn [ProjectConfigurator.main_config PanelConfiguration.panel_id
         PanelConfiguration.is_main_panel PanelConfiguration.boq
         PanelConfiguration.constraints].
    split; [reflexivity|]. split; [reflexivity|]. split; [|split].
    + apply list_elem_of_lookup_2, list_elem_of_In in Eb. unfold panel_boqs in Eb.
      destruct (1 <? num_panels).
      * unfold MultiPanelBOQHandler._divide_equal in Eb.
        apply in_map_iff in Eb as (j & <- & _). reflexivity.
      * destruct Eb as [<- | []]. reflexivity.
    + unfold base. destruct (0 <? DeviceBOQ.fire_phone_jack total_boq) eqn:E.
      * apply Z.ltb_lt in E. rewrite lookup_insert_ne by discriminate.
        rewrite lookup_insert_eq. do 2 f_equal. lia.
      * apply Z.ltb_ge in E. unfold base0. rewrite base_constraints_jack_count.
        replace (Z.max 0 (DeviceBOQ.fire_phone_jack total_boq)) with 0 by lia.
        reflexivity.
    + unfold base. destruct (0 <? DeviceBOQ.fire_phone_jack total_boq).
      * now rewrite lookup_insert_eq.
      * apply base_constraints_no_circuits.
Qed.

(** ** The BOQ handed to the optimizer *)

Lemma exported_fields :
  EXPORTED_FIELDS
  = [ ("smoke_detector", DeviceBOQ.smoke_detector);
      ("heat_detector", DeviceBOQ.heat_detector);
      ("duct_detector", DeviceBOQ.duct_detector);
      ("beam_detector", DeviceBOQ.beam_detector);
      ("manual_station", DeviceBOQ.manual_station);
      ("horn_strobe", DeviceBOQ.horn_strobe);
      ("strobe_only", DeviceBOQ.strobe_only);
      ("horn_only", DeviceBOQ.horn_only);
      ("addressable_horn_strobe", DeviceBOQ.addressable_horn_strobe);
      ("speaker", DeviceBOQ.speaker);
      ("speaker_strobe", DeviceBOQ.speaker_strobe);
      ("monitor_module", DeviceBOQ.monitor_module);
      ("control_relay", DeviceBOQ.control_relay);
      ("fire_phone_jack", DeviceBOQ.fire_phone_jack) ].
Proof. reflexivity. Qed.

Lemma dict_get_filter_positive (d : pydict Z) (k : string) :
  NoDup (dict_keys d) ->
  dict_get (List.filter (fun kv : string * Z => 0 <? snd kv) d) k
  = match dict_get d k with
    | Some v => if 0 <? v then Some v else None
    | None => None
    end.
Proof.
  induction d as [|[k0 v0] d IH]; cbn [List.filter dict_get dict_keys map fst snd];
    [reflexivity|].
  intros Hnodup. apply NoDup_cons in Hnodup as [Hnotin Hnodup]. specialize (IH Hnodup).
  destruct (String.eqb k0 k) eqn:E.
  - apply String.eqb_eq in E. subst k0.
    destruct (0 <? v0); cbn [dict_get]; [now rewrite String.eqb_refl|].
    rewrite IH. destruct (dict_get d k) as [v|] eqn:Ev; [|reflexivity].
    exfalso. apply Hnotin, list_elem_of_In. eapply dict_get_key, Ev.
  - destruct (0 <? v0); cbn [dict_get]; [rewrite E|]; exact IH.
Qed.

Lemma map_lookup {A B} (f : A -> B) (l : list A) (i : nat) :
  map f l !! i = f <$> l !! i.
Proof.
  revert i. induction l as [|x l IH]; intros [|i]; cbn; try reflexivity. apply IH.
Qed.

(** X15: what [get_cpsat_inputs] exports. There is one input per stored
    configuration, in order, with the configuration's constraints. Its BOQ
    dictionary holds exactly the positive quantities of fourteen device
    fields: a lookup with default 0 gives [max(0, field)] for each of them,
    every entry is a positive field value, and [addressable_strobe] and
    [remote_annunciator] are never exported. So the BOQ exported for a remote
    annunciator configuration is empty. *)
Theorem cpsat_inputs_export (self : ProjectConfigurator.t) :
  let inputs := ProjectConfigurator.get_cpsat_inputs self in
  length inputs = length (ProjectConfigurator.panel_configurations self) /\
  (forall (i : nat) config,
     ProjectConfigurator.panel_configurations self !! i = Some config ->
     exists d,
       inputs !! i = Some (d, PanelConfiguration.constraints config) /\
       (forall name f, In (name, f) EXPORTED_FIELDS ->
          dict_get_or d name 0 = Z.max 0 (f (PanelConfiguration.boq config))) /\
       (forall k v, In (k, v) d ->
          0 < v /\ exists f, In (k, f) EXPORTED_FIELDS /\
                             v = f (PanelConfiguration.boq config)) /\
       dict_get d "addressable_strobe" = None /\
       dict_get d "remote_annunciator" = None) /\
  (forall base audio microphone led,
     ProjectConfigurator.boq_dict
       (PanelConfiguration.boq
          (RemoteAnnunciatorHandler.create_annunciator_config base audio microphone led))
     = []).
Proof.
  cbv zeta. unfold ProjectConfigurator.get_cpsat_inputs.
  split; [apply length_map|]. split; [|reflexivity].
  intros i config Hi.
  exists (ProjectConfigurator.boq_dict (PanelConfiguration.boq config)).
  set (b := PanelConfiguration.boq config).
  assert (Hnodup : NoDup (dict_keys
            [ ("smoke_detector", DeviceBOQ.smoke_detector b);
              ("heat_detector", DeviceBOQ.heat_detector b);
              ("duct_detector", DeviceBOQ.duct_detector b);
              ("beam_detector", DeviceBOQ.beam_detector b);
              ("manual_station", DeviceBOQ.manual_station b);
              ("horn_strobe", DeviceBOQ.horn_strobe b);
              ("strobe_only", DeviceBOQ.strobe_only b);
              ("horn_only", DeviceBOQ.horn_only b);
              ("addressable_horn_strobe", DeviceBOQ.addressable_horn_strobe b);
              ("speaker", DeviceBOQ.speaker b);
              ("speaker_strobe", DeviceBOQ.speaker_strobe b);
              ("monitor_module", DeviceBOQ.monitor_module b);
              ("control_relay", DeviceBOQ.control_relay b);
              ("fire_phone_jack", DeviceBOQ.fire_phone_jack b) ])).
  { apply (bool_decide_unpack _). vm_compute. exact I. }
  split; [|split; [|split; [|split]]].
  - rewrite map_lookup, Hi. reflexivity.
  - intros name f Hin. rewrite exported_fields in Hin. unfold dict_get_or.
    unfold ProjectConfigurator.boq_dict. rewrite (dict_get_filter_positive _ _ Hnodup).
    cbn [In] in Hin.
    repeat (destruct Hin as [[= <- <-] | Hin];
            [cbn [dict_get String.eqb Ascii.eqb Bool.eqb];
             match goal with |- context [0 <? ?x] =>
               destruct (0 <? x) eqn:E;
               [apply Z.ltb_lt in E | apply Z.ltb_ge in E];
               cbn [default from_option id]; lia
             end|]).
    destruct Hin.
  - intros k v Hin. unfold ProjectConfigurator.boq_dict in Hin.
    apply filter_In in Hin as [Hin Hpos]. cbn [snd] in Hpos. apply Z.ltb_lt in Hpos.
    split; [exact Hpos|]. rewrite exported_fields. cbn [In] in Hin.
    repeat (destruct Hin as [[= <- <-] | Hin];
            [eexists; split; [|reflexivity]; cbn [In];
             repeat first [left; reflexivity | right]|]).
    destruct Hin.
  - unfold ProjectConfigurator.boq_dict. rewrite (dict_get_filter_positive _ _ Hnodup).
    reflexivity.
  - unfold ProjectConfigurator.boq_dict. rewrite (dict_get_filter_positive _ _ Hnodup).
    reflexivity.
Qed.

(** ** From the answers to the audio equipment *)

Lemma answered_yes_spec (answers_dict : gmap Z string) (k : Z) :
  QandAProcessor.get_is (QandAProcessor.normalise answers_dict) k "yes" = true
  <-> answered_yes answers_dict k.
Proof.
  rewrite get_is_true, normalise_lookup. unfold answered_yes.
  destruct (answers_dict !! k) as [a|]; cbn.
  - split.
    + intros [= H]. now exists a.
    + intros (a' & [= <-] & H). now rewrite H.
  - split; [discriminate | intros (a' & [=] & _)].
Qed.

Lemma plan_audio_entries (requirements : PanelRequirements.t) :
  let plan := RuleEngine._derive_specific_modules requirements in
  let voice := PanelRequirements.voice_evacuation requirements in
  dict_get plan "4100-9620" = (if voice then Some 1 else None) /\
  dict_get plan "4100-1254" = (if voice then Some 1 else None) /\
  (voice = true -> 1 <= dict_get_or plan "4100-1248" 0) /\
  (voice = false ->
   dict_get plan "4100-1248" = None /\ dict_get plan "4100-1249" = None).
Proof.
  cbv zeta. unfold RuleEngine._derive_specific_modules. cbv zeta.
  set (base := Z.max 1 (Py.ceil (PanelRequirements.speaker_wattage requirements / 100)%Q)).
  set (amplifiers :=
         if PanelRequirements.backup_amp_one_to_one requirements
            || PanelRequirements.dual_amplifier_per_zone requirements
         then base * 2
         else if PanelRequirements.backup_amp_one_for_all requirements then base + 1 else base).
  assert (Hamp : 1 <= amplifiers).
  { unfold amplifiers, base.
    destruct (PanelRequirements.backup_amp_one_to_one requirements
              || PanelRequirements.dual_amplifier_per_zone requirements);
      [|destruct (PanelRequirements.backup_amp_one_for_all requirements)]; lia. }
  clearbody amplifiers.
  split; [|split; [|split; [|intros Hv; split]]].
  - destruct (PanelRequirements.fire_damper_control requirements);
      [|destruct (RuleEngine.nonzero _)]; peel_outer;
      (unfold RuleEngine.when at 1;
       destruct (PanelRequirements.voice_evacuation requirements);
       [ peel_outer; rewrite add_get_eq; unfold dict_get_or; peel_outer; reflexivity
       | peel_outer; reflexivity ]).
  - destruct (PanelRequirements.fire_damper_control requirements);
      [|destruct (RuleEngine.nonzero _)]; peel_outer;
      (unfold RuleEngine.when at 1;
       destruct (PanelRequirements.voice_evacuation requirements);
       [ peel_outer; rewrite add_get_eq; unfold dict_get_or; peel_outer; reflexivity
       | peel_outer; reflexivity ]).
  - intros Hv. unfold dict_get_or.
    destruct (PanelRequirements.fire_damper_control requirements);
      [|destruct (RuleEngine.nonzero _)]; peel_outer;
      (unfold RuleEngine.when at 1; rewrite Hv;
       peel_outer; rewrite add_get_eq;
       destruct (amplifiers <=? 0) eqn:E; [apply Z.leb_le in E; lia|];
       cbn [default from_option id]; lia).
  - destruct (PanelRequirements.fire_damper_control requirements);
      [|destruct (RuleEngine.nonzero _)]; peel_outer;
      (unfold RuleEngine.when at 1; rewrite Hv; peel_outer; reflexivity).
  - destruct (PanelRequirements.fire_damper_control requirements);
      [|destruct (RuleEngine.nonzero _)]; peel_outer;
      (unfold RuleEngine.when at 1; rewrite Hv; peel_outer; reflexivity).
Qed.

(** X16: from the answers to the audio equipment. The requirements ask for
    voice evacuation exactly when question 8 or question 10 is answered yes
    (case and surrounding blanks ignored). Then the plan holds one audio base
    4100-9620 and one operator interface 4100-1254, and the selection returned
    by [optimise_panel] holds both and at least one amplifier 4100-1248,
    whatever the solver does. Otherwise the plan holds none of them, nor the
    class A adapter 4100-1249. *)
Theorem voice_equipment_from_answers (cp_model : option CpSat.t)
    (repository : RuleRepository.t) (self_answers : ProjectAnswers.t)
    (answers_dict : gmap Z string) (boq : DeviceBOQ.t) :
  let answers := QandAProcessor.process_answers self_answers answers_dict in
  let requirements := RuleEngine.build_requirements answers boq in
  let plan := RuleEngine._derive_specific_modules requirements in
  let final :=
    OptimizationResult.module_selection
      (RuleEngine.optimise_panel cp_model repository answers boq) in
  let voice := answered_yes answers_dict 8 \/ answered_yes answers_dict 10 in
  (PanelRequirements.voice_evacuation requirements = true <-> voice) /\
  (voice ->
   dict_get plan "4100-9620" = Some 1 /\ dict_get plan "4100-1254" = Some 1 /\
   1 <= selected final "4100-9620" /\ 1 <= selected final "4100-1254" /\
   1 <= selected final "4100-1248") /\
  (~ voice ->
   dict_get plan "4100-9620" = None /\ dict_get plan "4100-1254" = None /\
   dict_get plan "4100-1248" = None /\ dict_get plan "4100-1249" = None).
Proof.
  intros answers requirements plan final voice.
  assert (Hiff : PanelRequirements.voice_evacuation requirements = true <-> voice).
  { unfold voice. rewrite <- !answered_yes_spec.
    unfold requirements, answers.
    cbn [RuleEngine.build_requirements PanelRequirements.voice_evacuation
         QandAProcessor.process_answers ProjectAnswers.audio_type].
    destruct (QandAProcessor.get_is _ 8 "yes"), (QandAProcessor.get_is _ 10 "yes");
      cbn; intuition discriminate. }
  destruct (plan_audio_entries requirements) as (Hbase & Hop & Hamp & Hnone).
  cbv zeta in Hbase, Hop, Hamp, Hnone. fold plan in Hbase, Hop, Hamp, Hnone.
  split; [exact Hiff|]. split.
  - intros Hv. apply Hiff in Hv. rewrite Hv in Hbase, Hop. specialize (Hamp Hv).
    split; [exact Hbase|]. split; [exact Hop|]. unfold selected, final.
    repeat split; apply final_at_least_plan; fold requirements; fold plan;
      [unfold dict_get_or; rewrite Hbase | unfold dict_get_or; rewrite Hop | exact Hamp];
      cbn; lia.
  - intros Hnv.
    assert (Hv : PanelRequirements.voice_evacuation requirements = false).
    { destruct (PanelRequirements.voice_evacuation requirements); [|reflexivity].
      exfalso. apply Hnv, Hiff. reflexivity. }
    rewrite Hv in Hbase, Hop. destruct (Hnone Hv) as [H1 H2]. repeat split; assumption.
Qed.

(** ** The category demand, entry by entry *)

Lemma filter_positive_id (d : pydict Z) :
  dict_values_all (fun v => 1 <= v) d ->
  filter (fun kv : string * Z => 0 < snd kv) d = d.
Proof.
  unfold pydict in *. induction d as [|[k v] d IH]; intros H; [reflexivity|].
  assert (Hv : 1 <= v) by (apply (H k v); now left).
  rewrite filter_cons_True by (cbn [snd]; lia).
  f_equal. apply IH. intros k' v' Hin. apply (H k' v'). now right.
Qed.

(** X17: the category demand. Every demanded quantity is at least 1 and no
    category is listed twice. The master controller is demanded exactly once,
    with or without full graphics control (the second request for it changes
    nothing). The relay modules are demanded when there is smoke management or
    a relay, [max(1, ceil(max(1, relays) / 3))] of them, and a 220 VAC door
    holder adds one module to that (or demands one by itself). The audio
    options and the VCC interface are demanded exactly with voice evacuation. *)
Theorem category_demand_entries (requirements : PanelRequirements.t) :
  let demand := RuleEngine.derive_category_requirements requirements in
  let relays := PanelRequirements.relay_count requirements in
  let relay_modules :=
    if PanelRequirements.has_smoke_management requirements || RuleEngine.nonzero relays
    then Z.max 1 (Py.ceil (Py.truediv (Z.max 1 relays) 3)) else 0 in
  dict_values_all (fun v => 1 <= v) demand /\
  NoDup (dict_keys demand) /\
  dict_get demand "Master Controller" = Some 1 /\
  dict_get demand "Relay Modules"
  = (if PanelRequirements.has_door_holder_220vac requirements then Some (relay_modules + 1)
     else if PanelRequirements.has_smoke_management requirements || RuleEngine.nonzero relays
          then Some relay_modules else None) /\
  dict_get demand "Audio Options (S4100-0104)"
  = (if PanelRequirements.voice_evacuation requirements
     then Some (Z.max 1 (Py.ceil (PanelRequirements.speaker_wattage requirements / 100)%Q))
     else None) /\
  dict_get demand "VCC Interfaces (S4100-0104)"
  = (if PanelRequirements.voice_evacuation requirements then Some 1 else None).
Proof.
  cbv zeta. unfold RuleEngine.derive_category_requirements. cbv zeta.
  change RuleEngine.ensure with RuleEngine.add.
  set (relays := PanelRequirements.relay_count requirements).
  set (audio := Z.max 1 (Py.ceil (PanelRequirements.speaker_wattage requirements / 100)%Q)).
  set (relay_q := Z.max 1 (Py.ceil (Py.truediv (Z.max 1 relays) 3))).
  assert (Haudio : 1 <= audio) by (unfold audio; lia).
  assert (Hrelay : 1 <= relay_q) by (unfold relay_q; lia).
  clearbody audio relay_q.
  rewrite filter_positive_id.
  2:{ assert (H0 : dict_values_all (fun v => 1 <= v) ([] : pydict Z)) by (intros k v []).
      revert H0. generalize ([] : pydict Z). intros p0 H0.
      repeat first
        [ assumption
        | apply add_values_positive
        | apply when_values_positive; [intros ? ?; cbv beta zeta |]
        | match goal with |- context [if ?c then _ else _] => destruct c end ]. }
  split; [|split; [|split; [|split; [|split]]]].
  - assert (H0 : dict_values_all (fun v => 1 <= v) ([] : pydict Z)) by (intros k v []).
    revert H0. generalize ([] : pydict Z). intros p0 H0.
    repeat first
      [ assumption
      | apply add_values_positive
      | apply when_values_positive; [intros ? ?; cbv beta zeta |]
      | match goal with |- context [if ?c then _ else _] => destruct c end ].
  - assert (H0 : NoDup (dict_keys ([] : pydict Z))) by apply NoDup_nil_2.
    revert H0. generalize ([] : pydict Z). intros p0 H0.
    repeat first
      [ assumption
      | apply add_keys_nodup
      | apply when_keys_nodup; [intros ? ?; cbv beta zeta |]
      | match goal with |- context [if ?c then _ else _] => destruct c end ].
  - unfold RuleEngine.when at 1 2.
    destruct (PanelRequirements.has_door_holder_220vac requirements),
      (PanelRequirements.graphics_control requirements);
      peel_outer; rewrite ?add_get_eq; peel_outer; rewrite ?add_get_eq;
      unfold dict_get_or; peel_outer; rewrite ?add_get_eq; reflexivity.
  - match goal with
    | |- context [RuleEngine.when (PanelRequirements.has_door_holder_220vac requirements)
                    _ ?cr] => set (CR := cr)
    end.
    assert (HCR : dict_get CR "Relay Modules"
                  = if PanelRequirements.has_smoke_management requirements
                       || RuleEngine.nonzero relays
                    then Some relay_q else None).
    { subst CR. peel_outer. unfold RuleEngine.when at 1.
      destruct (PanelRequirements.has_smoke_management requirements || RuleEngine.nonzero relays).
      - rewrite add_get_eq. unfold dict_get_or. peel_outer.
        cbn [dict_get default from_option id].
        destruct (relay_q <=? 0) eqn:E; [apply Z.leb_le in E; lia|]. f_equal. lia.
      - peel_outer. reflexivity. }
    clearbody CR. unfold RuleEngine.when.
    destruct (PanelRequirements.has_door_holder_220vac requirements);
      [|rewrite HCR; now destruct (_ || _)].
    rewrite add_get_eq. unfold dict_get_or. rewrite HCR.
    destruct (PanelRequirements.has_smoke_management requirements || RuleEngine.nonzero relays);
      cbn [default from_option id];
      match goal with |- context [?x <=? 0] =>
        destruct (x <=? 0) eqn:E; [apply Z.leb_le in E; lia|]
      end; f_equal; lia.
  - peel_outer. unfold RuleEngine.when at 1.
    destruct (PanelRequirements.voice_evacuation requirements).
    + peel_outer. rewrite add_get_eq. unfold dict_get_or. peel_outer.
      cbn [dict_get default from_option id].
      destruct (audio <=? 0) eqn:E; [apply Z.leb_le in E; lia|]. f_equal. lia.
    + peel_outer. reflexivity.
  - peel_outer. unfold RuleEngine.when at 1.
    destruct (PanelRequirements.voice_evacuation requirements).
    + rewrite add_get_eq. unfold dict_get_or. peel_outer. reflexivity.
    + peel_outer. reflexivity.
Qed.

(** ** Loading the placement rules *)

Lemma truthy_str_spec (s : string) : Py.truthy_str s = true <-> s <> "".
Proof.
  unfold Py.truthy_str. rewrite negb_true_iff. split.
  - intros H ->. discriminate.
  - intros H. apply String.eqb_neq. exact H.
Qed.

Lemma placement_row_ok (sheet : list (list string)) (row : list string) :
  forall (idx : nat) (hierarchy : list string),
    (forall cell, In cell row -> cell_of sheet (Py.strip cell)) ->
    (idx + length row <= length hierarchy)%nat ->
    Forall (fun s => s = "" \/ cell_of sheet s) hierarchy ->
    exists hierarchy' found,
      RuleRepository.placement_row row idx hierarchy = Some (hierarchy', found) /\
      length hierarchy' = length hierarchy /\
      Forall (fun s => s = "" \/ cell_of sheet s) hierarchy' /\
      forall rule, found = Some rule -> rule_from_sheet sheet rule.
Proof.
  induction row as [|cell row IH]; intros idx hierarchy Hcells Hlen Hinv;
    cbn [RuleRepository.placement_row].
  - exists hierarchy, None. split; [reflexivity|]. split; [reflexivity|].
    split; [exact Hinv | discriminate].
  - cbn [length] in Hlen.
    destruct (Py.truthy_str (Py.strip cell)) eqn:Ev; cbn [negb].
    + assert (Hidx : (idx <? length hierarchy)%nat = true) by (apply Nat.ltb_lt; lia).
      rewrite Hidx. cbn [negb].
      set (hierarchy' := (take (S idx) (<[idx := Py.strip cell]> hierarchy)
                          ++ replicate (length hierarchy - S idx) "")%list).
      assert (Hinv' : Forall (fun s => s = "" \/ cell_of sheet s) hierarchy').
      { apply Forall_app. split.
        - apply Forall_take, Forall_insert; [exact Hinv|].
          right. apply Hcells. now left.
        - apply Forall_replicate. now left. }
      eexists hierarchy', _. split; [reflexivity|].
      split; [|split; [exact Hinv'|]].
      * unfold hierarchy'. rewrite length_app, length_take, length_insert, length_replicate.
        apply Nat.ltb_lt in Hidx. lia.
      * intros rule Hrule.
        set (path := filter (fun s => Py.truthy_str s = true) (take idx hierarchy')) in *.
        assert (Hpath : Forall (fun s => s <> "" /\ cell_of sheet s) path).
        { apply Forall_forall. intros s Hs. apply list_elem_of_filter in Hs as [Ht Hs].
          apply truthy_str_spec in Ht. split; [exact Ht|].
          assert (Hs' : s ∈ hierarchy').
          { exact (subseteq_take idx hierarchy' s Hs). }
          rewrite Forall_forall in Hinv'. destruct (Hinv' s Hs') as [-> | H];
            [congruence | exact H]. }
        destruct path as [|p path]; [discriminate|]. injection Hrule as <-.
        cbn [PlacementRule.text PlacementRule.path].
        split; [now apply truthy_str_spec|].
        split; [apply Hcells; now left|]. split; [discriminate | exact Hpath].
    + apply IH; [intros c Hc; apply Hcells; now right | lia | exact Hinv].
Qed.

Lemma placement_rows_ok (sheet : list (list string)) (rows : list (list string)) :
  forall (hierarchy : list string) (acc : list PlacementRule.t),
    (forall row, In row rows -> In row sheet /\ (length row <= length hierarchy)%nat) ->
    Forall (fun s => s = "" \/ cell_of sheet s) hierarchy ->
    Forall (rule_from_sheet sheet) acc ->
    exists rules,
      RuleRepository.placement_rows rows hierarchy acc = Some rules /\
      (length rules <= length acc + length rows)%nat /\
      Forall (rule_from_sheet sheet) rules.
Proof.
  induction rows as [|row rows IH]; intros hierarchy acc Hrows Hinv Hacc;
    cbn [RuleRepository.placement_rows].
  - exists acc. split; [reflexivity|]. split; [lia | exact Hacc].
  - destruct (Hrows row (or_introl eq_refl)) as [Hin Hlen].
    destruct (placement_row_ok sheet row 0 hierarchy) as (h' & found & E & Hlen' & Hinv' & Hfound).
    { intros cell Hc. now exists row, cell. }
    { cbn. exact Hlen. }
    { exact Hinv. }
    rewrite E.
    assert (Hrows' : forall r, In r rows -> In r sheet /\ (length r <= length h')%nat).
    { intros r Hr. rewrite Hlen'. apply Hrows. now right. }
    destruct found as [rule|].
    + destruct (IH h' (acc ++ [rule])%list Hrows' Hinv') as (rules & Er & Hn & Hr).
      { apply Forall_app. split; [exact Hacc|]. constructor; [now apply Hfound | constructor]. }
      exists rules. split; [exact Er|]. split; [|exact Hr].
      rewrite length_app in Hn. cbn [length] in *. lia.
    + destruct (IH h' acc Hrows' Hinv' Hacc) as (rules & Er & Hn & Hr).
      exists rules. split; [exact Er|]. split; [|exact Hr]. cbn [length]. lia.
Qed.

(** X18: loading the placement rules from a sheet none of whose rows is longer
    than its first row (as every sheet read from a workbook is) never fails.
    There is at most one rule per row, and every rule has a non-empty text and
    a non-empty path of non-empty entries, all of them stripped cells of the
    sheet. *)
Theorem placement_rules_loaded (sheet : list (list string)) :
  (forall row, In row sheet -> (length row <= length (hd [] sheet))%nat) ->
  exists rules,
    RuleRepository._load_placement_rules sheet = Some rules /\
    (length rules <= length sheet)%nat /\
    Forall (rule_from_sheet sheet) rules.
Proof.
  intros Hrect. unfold RuleRepository._load_placement_rules.
  destruct sheet as [|first rest] eqn:Es.
  - exists []. split; [reflexivity|]. split; [cbn; lia | constructor].
  - rewrite <- Es in *.
    destruct (placement_rows_ok sheet sheet (replicate (length first) "") [])
      as (rules & E & Hn & Hr).
    + intros row Hrow. split; [exact Hrow|]. rewrite length_replicate.
      specialize (Hrect row Hrow). rewrite Es in Hrect. exact Hrect.
    + apply Forall_replicate. now left.
    + constructor.
    + exists rules. split; [exact E|]. split; [exact Hn | exact Hr].
Qed.

Lemma placement_rules_loaded_witness :
  exists rules,
    RuleRepository._load_placement_rules
      [["Power"; ""; ""]; [""; "Bay 1"; ""]; [""; ""; " power supply first "]]
    = Some rules /\
    (length rules <= 3)%nat.
Proof.
  destruct (placement_rules_loaded
              [["Power"; ""; ""]; [""; "Bay 1"; ""]; [""; ""; " power supply first "]])
    as (rules & E & Hn & _).
  - intros row [<- | [<- | [<- | []]]]; cbn; lia.
  - exists rules. split; [exact E | exact Hn].
Defined.

(** ** Reading a sheet *)

Import ExcelReader.

Lemma letter_value_range (c : ascii) :
  isalpha c = true -> 1 <= Z.of_N (Py.code (upper_char c)) - 64 <= 26.
Proof.
  destruct c as [[] [] [] [] [] [] [] []]; intros H; vm_compute in H; try discriminate H;
    split; apply Z.leb_le; vm_compute; reflexivity.
Qed.

Lemma column_index_loop_ge (column_ref : string) :
  forall index, 0 <= index -> index <= column_index_loop index column_ref.
Proof.
  induction column_ref as [|c rest IH]; intros index Hi; cbn [column_index_loop]; [lia|].
  destruct (isalpha c) eqn:E; cbn [negb]; [|lia].
  pose proof (letter_value_range c E) as Hc.
  etransitivity; [|apply IH]; lia.
Qed.

Lemma column_of_nonneg (ref : string) : 0 <= XLSXReader.column_of ref.
Proof. apply (column_index_loop_ge _ 0). lia. Qed.

Lemma row_set_keys (row_values : list (Z * string)) (k : Z) (v : string) (k' : Z) (v' : string) :
  In (k', v') (XLSXReader.row_set row_values k v) -> k' = k \/ In k' (map fst row_values).
Proof.
  induction row_values as [|[k0 v0] rest IH]; cbn.
  - intros [[= <- <-] | []]. now left.
  - destruct (k0 =? k) eqn:E; cbn.
    + apply Z.eqb_eq in E. subst k0. intros [[= <- <-] | H]; [now left|].
      right. right. apply in_map_iff. now exists (k', v').
    + intros [[= <- <-] | H]; [right; now left|].
      destruct (IH H) as [-> | H']; [now left | right; now right].
Qed.

Lemma row_set_nonempty (row_values : list (Z * string)) (k : Z) (v : string) :
  XLSXReader.row_set row_values k v <> [].
Proof.
  destruct row_values as [|[k0 v0] rest]; cbn; [discriminate|].
  destruct (k0 =? k); discriminate.
Qed.

Lemma scan_row_spec (cells : list XLSXReader.cell) :
  forall (row_values : list (Z * string)) (max_column : Z),
    (forall k, In k (map fst row_values) -> 0 <= k <= max_column) ->
    let result :=
      fold_left
        (fun '(row_values, max_column) '(ref, value) =>
           let column_index := XLSXReader.column_of ref in
           (XLSXReader.row_set row_values column_index value,
            Z.max max_column column_index))
        cells (row_values, max_column) in
    max_column <= snd result /\
    (forall k, In k (map fst (fst result)) -> 0 <= k <= snd result) /\
    (forall c, In c cells -> XLSXReader.column_of (fst c) <= snd result) /\
    (row_values <> [] \/ cells <> [] -> fst result <> []).
Proof.
  induction cells as [|[ref value] cells IH]; intros row_values max_column Hkeys; cbn [fold_left].
  - cbv zeta. cbn [fst snd]. split; [lia|]. split; [exact Hkeys|].
    split; [intros c []|]. intros [H | H]; congruence.
  - cbv zeta.
    specialize (IH (XLSXReader.row_set row_values (XLSXReader.column_of ref) value)
                   (Z.max max_column (XLSXReader.column_of ref))).
    cbv zeta in IH. destruct IH as (Hmax & Hk & Hcells & Hne).
    { intros k Hk. apply in_map_iff in Hk as ([k' v'] & <- & Hin). cbn [fst].
      apply row_set_keys in Hin as [-> | Hin].
      - pose proof (column_of_nonneg ref). lia.
      - specialize (Hkeys _ Hin). lia. }
    split; [lia|]. split; [exact Hk|]. split.
    + intros c [<- | Hc]; [cbn [fst]; lia | now apply Hcells].
    + intros _. apply Hne. left. apply row_set_nonempty.
Qed.

Lemma scan_row_result (max_column : Z) (cells : list XLSXReader.cell) :
  0 <= max_column ->
  max_column <= snd (XLSXReader.scan_row max_column cells) /\
  (forall k, In k (map fst (fst (XLSXReader.scan_row max_column cells))) ->
     0 <= k <= snd (XLSXReader.scan_row max_column cells)) /\
  (forall c, In c cells ->
     XLSXReader.column_of (fst c) <= snd (XLSXReader.scan_row max_column cells)) /\
  (cells <> [] -> fst (XLSXReader.scan_row max_column cells) <> []).
Proof.
  intros Hmax. unfold XLSXReader.scan_row.
  pose proof (scan_row_spec cells [] max_column) as H. cbv zeta in H.
  destruct H as (Hm & Hk & Hc & Hne); [intros k []|].
  split; [exact Hm|]. split; [exact Hk|]. split; [exact Hc|].
  intros Hcells. apply Hne. now right.
Qed.

Lemma scan_rows_spec (sheet : list (list XLSXReader.cell)) :
  let result := XLSXReader.scan_rows sheet in
  0 <= snd result /\
  length (fst result) = length sheet /\
  (forall row_values k, In row_values (fst result) -> In k (map fst row_values) ->
     0 <= k <= snd result) /\
  (forall row c, In row sheet -> In c row -> XLSXReader.column_of (fst c) <= snd result) /\
  ((exists row, In row sheet /\ row <> []) ->
   exists row_values, In row_values (fst result) /\ row_values <> []).
Proof.
  unfold XLSXReader.scan_rows.
  enough (H : forall (raw_rows : list (list (Z * string))) (max_column : Z),
             0 <= max_column ->
             (forall row_values k, In row_values raw_rows -> In k (map fst row_values) ->
                0 <= k <= max_column) ->
             let result :=
               fold_left
                 (fun '(raw_rows, max_column) cells =>
                    let '(row_values, max_column) := XLSXReader.scan_row max_column cells in
                    ((raw_rows ++ [row_values])%list, max_column))
                 sheet (raw_rows, max_column) in
             max_column <= snd result /\
             length (fst result) = (length raw_rows + length sheet)%nat /\
             (forall row_values k, In row_values (fst result) ->
                In k (map fst row_values) -> 0 <= k <= snd result) /\
             (forall row c, In row sheet -> In c row ->
                XLSXReader.column_of (fst c) <= snd result) /\
             ((exists rv, In rv raw_rows /\ rv <> []) \/
              (exists row, In row sheet /\ row <> []) ->
              exists row_values, In row_values (fst result) /\ row_values <> [])).
  { specialize (H [] 0 ltac:(lia)). cbv zeta in H. destruct H as (H1 & H2 & H3 & H4 & H5).
    - intros rv k [].
    - cbv zeta. split; [lia|]. split; [exact H2|]. split; [exact H3|]. split; [exact H4|].
      intros Hex. apply H5. now right. }
  induction sheet as [|cells sheet IH]; intros raw_rows max_column Hmax Hkeys; cbn [fold_left].
  - cbv zeta. cbn [fst snd length]. split; [lia|]. split; [lia|]. split; [exact Hkeys|].
    split; [intros row c []|]. intros [H | (row & [] & _)]. exact H.
  - destruct (scan_row_result max_column cells Hmax) as (Hm & Hk & Hc & Hne).
    destruct (XLSXReader.scan_row max_column cells) as [row_values max_column'].
    cbn [fst snd] in Hm, Hk, Hc, Hne.
    specialize (IH (raw_rows ++ [row_values])%list max_column' ltac:(lia)).
    cbv zeta in IH. destruct IH as (H1 & H2 & H3 & H4 & H5).
    { intros rv k Hrv Hin. apply in_app_or in Hrv as [Hrv | [<- | []]].
      - specialize (Hkeys rv k Hrv Hin). lia.
      - now apply Hk. }
    cbv zeta. split; [lia|]. split; [|split; [exact H3|split]].
    + rewrite H2, length_app. cbn [length]. lia.
    + intros row c [<- | Hrow] Hin; [|now apply (H4 row)].
      specialize (Hc c Hin). lia.
    + intros [(rv & Hrv & Hn) | (row & [<- | Hrow] & Hn)]; apply H5.
      * left. exists rv. split; [apply in_or_app; now left | exact Hn].
      * left. exists row_values. split; [apply in_or_app; right; now left|].
        now apply Hne.
      * right. now exists row.
Qed.

Lemma scan_rows_all_empty (sheet : list (list XLSXReader.cell)) :
  Forall (fun row => row = []) sheet ->
  Forall (fun row_values => row_values = []) (fst (XLSXReader.scan_rows sheet)).
Proof.
  unfold XLSXReader.scan_rows.
  enough (H : forall (raw_rows : list (list (Z * string))) (max_column : Z),
             Forall (fun row => row = []) sheet ->
             Forall (fun row_values => row_values = []) raw_rows ->
             Forall (fun row_values => row_values = [])
               (fst (fold_left
                       (fun '(raw_rows, max_column) cells =>
                          let '(row_values, max_column) :=
                            XLSXReader.scan_row max_column cells in
                          ((raw_rows ++ [row_values])%list, max_column))
                       sheet (raw_rows, max_column)))).
  { intros Hsheet. apply H; [exact Hsheet | constructor]. }
  induction sheet as [|cells sheet IH]; intros raw_rows max_column Hsheet Hraw;
    cbn [fold_left]; [exact Hraw|].
  apply Forall_cons in Hsheet as [-> Hsheet]. cbn [XLSXReader.scan_row fold_left].
  apply IH; [exact Hsheet|]. apply Forall_app. split; [exact Hraw|]. now constructor.
Qed.

Lemma setitem_length (row_list : list string) (i : Z) (value : string) (l : list string) :
  XLSXReader.setitem row_list i value = Some l -> length l = length row_list.
Proof.
  unfold XLSXReader.setitem. cbv zeta.
  destruct (_ && _); [intros [= <-]; apply length_insert|].
  destruct (_ && _); [intros [= <-]; apply length_insert | discriminate].
Qed.

Lemma fill_fold_none (row_values : list (Z * string)) :
  fold_left
    (fun row_list '(idx, value) =>
       match row_list with
       | Some row_list => XLSXReader.setitem row_list (idx - 1) value
       | None => None
       end)
    row_values None = None.
Proof. induction row_values as [|[k v] rest IH]; cbn [fold_left]; [reflexivity | exact IH]. Qed.

Lemma fill_fold_length (row_values : list (Z * string)) :
  forall acc l,
    fold_left
      (fun row_list '(idx, value) =>
         match row_list with
         | Some row_list => XLSXReader.setitem row_list (idx - 1) value
         | None => None
         end)
      row_values (Some acc) = Some l ->
    length l = length acc.
Proof.
  induction row_values as [|[k v] rest IH]; intros acc l; cbn [fold_left].
  - now intros [= <-].
  - destruct (XLSXReader.setitem acc (k - 1) v) as [acc'|] eqn:E.
    + intros H. apply IH in H. rewrite H. now apply setitem_length in E.
    + rewrite fill_fold_none. discriminate.
Qed.

Lemma fill_row_length (max_column : Z) (row_values : list (Z * string)) (l : list string) :
  XLSXReader.fill_row max_column row_values = Some l -> length l = Z.to_nat max_column.
Proof.
  unfold XLSXReader.fill_row. intros H. apply fill_fold_length in H.
  now rewrite length_replicate in H.
Qed.

Lemma fill_row_ok (max_column : Z) (row_values : list (Z * string)) :
  1 <= max_column ->
  (forall k, In k (map fst row_values) -> 0 <= k <= max_column) ->
  exists l, XLSXReader.fill_row max_column row_values = Some l.
Proof.
  intros Hmax. unfold XLSXReader.fill_row.
  assert (Hlen : length (replicate (Z.to_nat max_column) "") = Z.to_nat max_column)
    by apply length_replicate.
  revert Hlen. generalize (replicate (Z.to_nat max_column) "").
  induction row_values as [|[k v] rest IH]; intros acc Hlen Hkeys; cbn [fold_left].
  - now exists acc.
  - assert (Hk : 0 <= k <= max_column) by (apply Hkeys; now left).
    destruct (XLSXReader.setitem acc (k - 1) v) as [acc'|] eqn:E.
    + apply IH; [now rewrite (setitem_length _ _ _ _ E)|].
      intros k' Hk'. apply Hkeys. now right.
    + exfalso. unfold XLSXReader.setitem in E. cbv zeta in E. rewrite Hlen in E.
      destruct ((0 <=? k - 1) && (k - 1 <? Z.of_nat (Z.to_nat max_column))) eqn:E1;
        [discriminate|].
      destruct ((- Z.of_nat (Z.to_nat max_column) <=? k - 1) && (k - 1 <? 0)) eqn:E2;
        [discriminate|].
      apply andb_false_iff in E1, E2.
      rewrite !Z.leb_gt, !Z.ltb_ge in *. lia.
Qed.

Lemma fill_row_fails (row_values : list (Z * string)) :
  row_values <> [] ->
  (forall k, In k (map fst row_values) -> 0 <= k <= 0) ->
  XLSXReader.fill_row 0 row_values = None.
Proof.
  destruct row_values as [|[k v] rest]; [congruence|]. intros _ Hkeys.
  assert (Hk : 0 <= k <= 0) by (apply Hkeys; now left).
  assert (k = 0) by lia. subst k.
  unfold XLSXReader.fill_row. cbn [fold_left Z.to_nat replicate].
  cbn. apply fill_fold_none.
Qed.

Lemma fill_rows_spec (max_column : Z) (raw_rows : list (list (Z * string))) :
  (forall rows, XLSXReader.fill_rows max_column raw_rows = Some rows ->
     length rows = length raw_rows /\
     Forall (fun row => length row = Z.to_nat max_column) rows) /\
  ((forall row_values, In row_values raw_rows ->
      exists l, XLSXReader.fill_row max_column row_values = Some l) ->
   exists rows, XLSXReader.fill_rows max_column raw_rows = Some rows) /\
  ((exists row_values, In row_values raw_rows /\
      XLSXReader.fill_row max_column row_values = None) ->
   XLSXReader.fill_rows max_column raw_rows = None).
Proof.
  induction raw_rows as [|rv rest (IH1 & IH2 & IH3)]; cbn [XLSXReader.fill_rows].
  - split; [intros rows [= <-]; split; [reflexivity | constructor]|].
    split; [intros _; now exists []|]. intros (rv & [] & _).
  - split; [|split].
    + intros rows. destruct (XLSXReader.fill_row max_column rv) as [l|] eqn:E; [|discriminate].
      destruct (XLSXReader.fill_rows max_column rest) as [rows'|]; [|discriminate].
      intros [= <-]. destruct (IH1 rows' eq_refl) as [Hn Hall].
      split; [cbn [length]; now rewrite Hn|].
      constructor; [now apply fill_row_length in E | exact Hall].
    + intros Hall. destruct (Hall rv (or_introl eq_refl)) as [l ->].
      destruct IH2 as [rows ->]; [intros rv' Hrv'; apply Hall; now right|].
      now eexists.
    + intros (rv' & [<- | Hin] & Hnone); [now rewrite Hnone|].
      destruct (XLSXReader.fill_row max_column rv); [|reflexivity].
      rewrite IH3; [reflexivity|]. now exists rv'.
Qed.

Lemma rectangular_rules_load (rows : list (list string)) (width : nat) :
  Forall (fun row => length row = width) rows ->
  exists rules, RuleRepository._load_placement_rules rows = Some rules.
Proof.
  intros Hrect. unfold RuleRepository._load_placement_rules.
  destruct rows as [|first rest] eqn:Es; [now exists []|]. rewrite <- Es in *.
  rewrite Forall_forall in Hrect.
  destruct (placement_rows_ok rows rows (replicate (length first) "") [])
    as (rules & E & _).
  - intros row Hrow. split; [exact Hrow|]. rewrite length_replicate.
    rewrite (Hrect row) by (now apply list_elem_of_In).
    rewrite (Hrect first); [lia|]. rewrite Es. constructor.
  - apply Forall_replicate. now left.
  - constructor.
  - now exists rules.
Qed.

Lemma rows_empty_or_not {A} (sheet : list (list A)) :
  Forall (fun row => row = []) sheet \/ exists row, In row sheet /\ row <> [].
Proof.
  induction sheet as [|row sheet [IH | (r & Hr & Hn)]].
  - left. constructor.
  - destruct row as [|x row]; [left; now constructor|].
    right. exists (x :: row). split; [now left | discriminate].
  - right. exists r. split; [now right | exact Hn].
Qed.

Lemma scan_row_max (cells : list XLSXReader.cell) (max_column : Z) :
  snd (XLSXReader.scan_row max_column cells) = max_column \/
  exists c, In c cells /\ XLSXReader.column_of (fst c) = snd (XLSXReader.scan_row max_column cells).
Proof.
  unfold XLSXReader.scan_row. generalize ([] : list (Z * string)). revert max_column.
  induction cells as [|[ref value] cells IH]; intros max_column row_values; cbn [fold_left].
  - now left.
  - cbv zeta.
    destruct (IH (Z.max max_column (XLSXReader.column_of ref))
                 (XLSXReader.row_set row_values (XLSXReader.column_of ref) value))
      as [E | (c & Hc & E)].
    + rewrite E. destruct (Z.max_spec max_column (XLSXReader.column_of ref)) as [[_ ->] | [_ ->]].
      * right. exists (ref, value). split; [now left | reflexivity].
      * now left.
    + right. exists c. split; [now right | exact E].
Qed.

Lemma scan_rows_max (sheet : list (list XLSXReader.cell)) :
  snd (XLSXReader.scan_rows sheet) = 0 \/
  exists row c, In row sheet /\ In c row /\
                XLSXReader.column_of (fst c) = snd (XLSXReader.scan_rows sheet).
Proof.
  unfold XLSXReader.scan_rows.
  enough (H : forall (max_column : Z) (raw_rows : list (list (Z * string))),
             let result :=
               fold_left
                 (fun '(raw_rows, max_column) cells =>
                    let '(row_values, max_column) := XLSXReader.scan_row max_column cells in
                    ((raw_rows ++ [row_values])%list, max_column))
                 sheet (raw_rows, max_column) in
             snd result = max_column \/
             exists row c, In row sheet /\ In c row /\
                           XLSXReader.column_of (fst c) = snd result).
  { apply (H 0 []). }
  induction sheet as [|cells sheet IH]; intros max_column raw_rows; cbn [fold_left]; cbv zeta.
  - now left.
  - pose proof (scan_row_max cells max_column) as Hrow.
    destruct (XLSXReader.scan_row max_column cells) as [row_values max_column'].
    cbn [snd] in Hrow.
    destruct (IH max_column' (raw_rows ++ [row_values])%list) as [E | (row & c & Hr & Hc & E)].
    + cbv zeta in E. rewrite E. destruct Hrow as [-> | (c & Hc & Ec)]; [now left|].
      right. exists cells, c. split; [now left|]. split; [exact Hc | exact Ec].
    + right. exists row, c. split; [now right|]. split; [exact Hc | exact E].
Qed.

(** X19: the rows that [read_sheet] builds from the cells of a sheet. Reading
    fails (IndexError) exactly when the sheet has a cell but no cell reference
    with a column letter. When it succeeds there is one row per row of the
    sheet, all rows have the same length (the greatest column number), and the
    placement rules load from these rows without failure. *)
Theorem read_sheet_rows_rectangular (sheet : list (list XLSXReader.cell)) :
  (XLSXReader.read_sheet_rows sheet = None <->
   (exists row, In row sheet /\ row <> []) /\
   (forall row c, In row sheet -> In c row -> XLSXReader.column_of (fst c) = 0)) /\
  (forall rows, XLSXReader.read_sheet_rows sheet = Some rows ->
     length rows = length sheet /\
     Forall (fun row => length row = Z.to_nat (snd (XLSXReader.scan_rows sheet))) rows /\
     exists rules, RuleRepository._load_placement_rules rows = Some rules).
Proof.
  destruct (scan_rows_spec sheet) as (Hmax & Hlen & Hkeys & Hcols & Hne).
  pose proof (scan_rows_all_empty sheet) as Hempty.
  pose proof (scan_rows_max sheet) as Hattained.
  unfold XLSXReader.read_sheet_rows.
  destruct (XLSXReader.scan_rows sheet) as [raw_rows max_column].
  cbn [fst snd] in *.
  destruct (fill_rows_spec max_column raw_rows) as (Hshape & Hok & Hfail).
  split.
  - split.
    + intros Hnone.
      assert (Hzero : max_column = 0).
      { destruct (Z.eq_dec max_column 0) as [E | E]; [exact E|]. exfalso.
        destruct Hok as [rows Hrows]; [|congruence].
        intros rv Hrv. apply fill_row_ok; [lia|]. intros k Hk. now apply (Hkeys rv). }
      split.
      * destruct (rows_empty_or_not sheet) as [Hall | Hex]; [|exact Hex].
        exfalso. destruct Hok as [rows Hrows]; [|congruence].
        specialize (Hempty Hall). rewrite Forall_forall in Hempty.
        intros rv Hrv. rewrite (Hempty rv) by (now apply list_elem_of_In).
        now eexists.
      * intros row c Hrow Hc. specialize (Hcols row c Hrow Hc).
        pose proof (column_of_nonneg (fst c)). lia.
    + intros [Hex Hall]. apply Hfail.
      assert (Hzero : max_column = 0).
      { destruct Hattained as [E | (row & c & Hr & Hc & E)]; [exact E|].
        rewrite <- E. now apply (Hall row). }
      destruct (Hne Hex) as (rv & Hrv & Hn). exists rv. split; [exact Hrv|].
      subst max_column. apply fill_row_fails; [exact Hn|]. intros k Hk. now apply (Hkeys rv).
  - intros rows Hrows. destruct (Hshape rows Hrows) as [Hn Hall].
    split; [now rewrite Hn|]. split; [exact Hall|].
    now apply (rectangular_rules_load rows (Z.to_nat max_column)).
Qed.

(** ** Column references *)

Example column_index_values :
  _column_index "A" = 1 /\ _column_index "Z" = 26 /\ _column_index "AA" = 27 /\
  _column_index "ab" = 28 /\ _column_index "C7" = 3 /\ _column_index "7C" = 0.
Proof. repeat split; reflexivity. Qed.

Example read_sheet_rows_fills_gaps :
  XLSXReader.read_sheet_rows [[("A1", "x"); ("C1", "z")]; [("B2", "y")]]
  = Some [["x"; ""; "z"]; [""; "y"; ""]].
Proof. reflexivity. Qed.

(** A reference without column letter has column 0, which as a list index
    (-1) is the last column. *)
Example letterless_reference_fills_last_column :
  XLSXReader.read_sheet_rows [[("A1", "x"); ("B1", "y"); ("1", "q")]]
  = Some [["x"; "q"]].
Proof. reflexivity. Qed.

Lemma upper_char_letter (c : ascii) :
  isalpha (upper_char c) = isalpha c /\ upper_char (upper_char c) = upper_char c.
Proof. destruct c as [[] [] [] [] [] [] [] []]; split; reflexivity. Qed.

Lemma letters_loop (s : string) :
  forall index,
    Forall (fun c => isalpha c = true) (list_ascii_of_string s) ->
    column_index_loop index s = fold_left letter_step (list_ascii_of_string s) index.
Proof.
  induction s as [|c s IH]; intros index Hall; cbn [column_index_loop list_ascii_of_string fold_left];
    [reflexivity|].
  cbn [list_ascii_of_string] in Hall. apply Forall_cons in Hall as [Hc Hall].
  rewrite Hc. cbn [negb]. now apply IH.
Qed.

Lemma letters_value_pos (l : list ascii) :
  Forall (fun c => isalpha c = true) l ->
  0 <= fold_left letter_step l 0 /\ (fold_left letter_step l 0 = 0 -> l = []).
Proof.
  induction l as [|c l IH] using rev_ind; intros Hall; [split; [cbn; lia | reflexivity]|].
  apply Forall_app in Hall as [Hl Hc]. apply Forall_cons in Hc as [Hc _].
  destruct (IH Hl) as [Hpos _]. rewrite fold_left_app. cbn [fold_left]. unfold letter_step at 1 3.
  pose proof (letter_value_range c Hc). split; [lia|]. intros H0. lia.
Qed.

Lemma letters_value_inj (l1 : list ascii) :
  forall l2,
    Forall (fun c => isalpha c = true) l1 ->
    Forall (fun c => isalpha c = true) l2 ->
    fold_left letter_step l1 0 = fold_left letter_step l2 0 ->
    map upper_char l1 = map upper_char l2.
Proof.
  induction l1 as [|c1 l1 IH] using rev_ind; intros l2 H1 H2 E.
  - cbn in E. symmetry in E. apply (letters_value_pos l2 H2) in E. now subst l2.
  - destruct l2 as [|c2 l2 _] using rev_ind.
    + cbn in E. apply (letters_value_pos _ H1) in E. destruct l1; discriminate E.
    + apply Forall_app in H1 as [H1 Hc1]. apply Forall_cons in Hc1 as [Hc1 _].
      apply Forall_app in H2 as [H2 Hc2]. apply Forall_cons in Hc2 as [Hc2 _].
      rewrite !fold_left_app in E. cbn [fold_left] in E. unfold letter_step at 1 3 in E.
      pose proof (letter_value_range c1 Hc1) as R1.
      pose proof (letter_value_range c2 Hc2) as R2.
      destruct (letters_value_pos l1 H1) as [P1 _].
      destruct (letters_value_pos l2 H2) as [P2 _].
      assert (Ev : fold_left letter_step l1 0 = fold_left letter_step l2 0) by lia.
      assert (Ed : Py.code (upper_char c1) = Py.code (upper_char c2)) by lia.
      rewrite !map_app. cbn [map]. f_equal; [now apply IH|]. f_equal.
      unfold Py.code in Ed.
      rewrite <- (ascii_N_embedding (upper_char c1)), <- (ascii_N_embedding (upper_char c2)).
      now rewrite Ed.
Qed.

Lemma letters_value_upper (l : list ascii) :
  forall index,
    fold_left letter_step (map upper_char l) index = fold_left letter_step l index.
Proof.
  induction l as [|c l IH]; intros index; cbn [map fold_left]; [reflexivity|].
  rewrite IH. unfold letter_step at 2 4.
  now rewrite (proj2 (upper_char_letter c)).
Qed.

Lemma upper_list (s : string) :
  list_ascii_of_string (upper s) = map upper_char (list_ascii_of_string s).
Proof. induction s as [|c s IH]; cbn; [reflexivity | now rewrite IH]. Qed.

Lemma column_of_value (ref : string) :
  XLSXReader.column_of ref
  = fold_left letter_step (list_ascii_of_string (reference_letters ref)) 0.
Proof.
  unfold XLSXReader.column_of, _column_index. apply letters_loop, filter_chars_class.
Qed.

(** X20: the column of a cell reference is read from its letters alone, as a
    base-26 numeral with digits A = 1 .. Z = 26, whatever their case. Two
    references get the same column exactly when their letters agree up to
    case, and a reference gets column 0 exactly when it has no letter; every
    other column is positive. *)
Theorem column_of_reference (ref1 ref2 : string) :
  (XLSXReader.column_of ref1 = XLSXReader.column_of ref2
   <-> upper (reference_letters ref1) = upper (reference_letters ref2)) /\
  (XLSXReader.column_of ref1 = 0 <-> reference_letters ref1 = "") /\
  0 <= XLSXReader.column_of ref1 /\
  (forall c, isalpha c = true ->
     XLSXReader.column_of (ref1 ++ String c "")
     = 26 * XLSXReader.column_of ref1 + (Z.of_N (Py.code (upper_char c)) - 64) /\
     1 <= Z.of_N (Py.code (upper_char c)) - 64 <= 26).
Proof.
  rewrite !column_of_value.
  pose proof (filter_chars_class isalpha ref1) as H1.
  pose proof (filter_chars_class isalpha ref2) as H2.
  fold (reference_letters ref1) in H1. fold (reference_letters ref2) in H2.
  split; [|split; [|split]].
  - split.
    + intros E. apply letters_value_inj in E; [|assumption|assumption].
      rewrite <- !upper_list in E.
      rewrite <- (string_of_list_ascii_of_string (upper (reference_letters ref1))),
              <- (string_of_list_ascii_of_string (upper (reference_letters ref2))).
      now rewrite E.
    + intros E. rewrite <- (letters_value_upper (list_ascii_of_string (reference_letters ref1))),
                        <- (letters_value_upper (list_ascii_of_string (reference_letters ref2))).
      now rewrite <- !upper_list, E.
  - split.
    + intros E. apply (letters_value_pos _ H1) in E.
      rewrite <- (string_of_list_ascii_of_string (reference_letters ref1)). now rewrite E.
    + intros ->. reflexivity.
  - apply (letters_value_pos _ H1).
  - intros c Hc. split; [|now apply letter_value_range].
    rewrite column_of_value.
    assert (E : reference_letters (ref1 ++ String c "")
                = reference_letters ref1 ++ String c "").
    { unfold reference_letters. clear H1. induction ref1 as [|c0 r IH].
      - rewrite append_nil. cbn [Py.filter_chars]. rewrite Hc. now rewrite append_nil.
      - rewrite append_cons. cbn [Py.filter_chars]. destruct (isalpha c0).
        + rewrite append_cons. f_equal. apply IH.
        + apply IH. }
    rewrite E.
    assert (El : forall a b, list_ascii_of_string (a ++ b)
                             = (list_ascii_of_string a ++ list_ascii_of_string b)%list).
    { intros a b. induction a as [|x a IHa]; [reflexivity|].
      rewrite append_cons. cbn [list_ascii_of_string app]. now rewrite IHa. }
    rewrite El, fold_left_app. cbn [list_ascii_of_string fold_left].
    unfold letter_step at 1. lia.
Qed.

(** ** Records of a sheet *)

Lemma dict_set_keys_in {V} (d : pydict V) (k : string) (v : V) (k' : string) :
  k' = k \/ In k' (dict_keys d) -> In k' (dict_keys (dict_set d k v)).
Proof.
  induction d as [|[k0 v0] d IH]; cbn.
  - intros [-> | []]. now left.
  - destruct (String.eqb k0 k) eqn:E; cbn.
    + apply String.eqb_eq in E. subst k0. intros [-> | [<- | H]]; auto.
    + intros [-> | [<- | H]]; auto.
Qed.

Lemma record_fold_keys (row : list string) (headers : list string) :
  forall (start : nat) (acc : pydict string) (k : string),
    In k (dict_keys
            (fold_left
               (fun record '(idx, header_name) =>
                  if negb (Py.truthy_str header_name) then record
                  else dict_set record header_name (nth idx row ""))
               (enumerate start headers) acc))
    <-> In k (dict_keys acc) \/ (k <> "" /\ In k headers).
Proof.
  induction headers as [|h headers IH]; intros start acc k; cbn [enumerate fold_left].
  - cbn [In]. tauto.
  - rewrite IH. cbn [In]. destruct (Py.truthy_str h) eqn:E; cbn [negb].
    + apply truthy_str_spec in E. split.
      * intros [H | H]; [|tauto]. apply dict_set_keys in H as [-> | H]; tauto.
      * intros [H | [Hk [<- | H]]]; [left; apply dict_set_keys_in | left; apply dict_set_keys_in |];
          tauto.
    + assert (h = "").
      { destruct (String.eqb_spec h ""); [assumption|].
        apply truthy_str_spec in n. congruence. }
      subst h. split; [tauto|]. intros [H | [Hk [<- | H]]]; tauto.
Qed.

Lemma record_fold_nodup (row : list string) (headers : list string) :
  forall (start : nat) (acc : pydict string),
    NoDup (dict_keys acc) ->
    NoDup (dict_keys
             (fold_left
                (fun record '(idx, header_name) =>
                   if negb (Py.truthy_str header_name) then record
                   else dict_set record header_name (nth idx row ""))
                (enumerate start headers) acc)).
Proof.
  induction headers as [|h headers IH]; intros start acc Hacc; cbn [enumerate fold_left];
    [exact Hacc|].
  apply IH. destruct (negb (Py.truthy_str h)); [exact Hacc|].
  now apply dict_set_keys_nodup.
Qed.

Lemma record_fold_untouched (row : list string) (headers : list string) (h : string) :
  forall (start : nat) (acc : pydict string),
    ~ In h headers ->
    dict_get
      (fold_left
         (fun record '(idx, header_name) =>
            if negb (Py.truthy_str header_name) then record
            else dict_set record header_name (nth idx row ""))
         (enumerate start headers) acc) h
    = dict_get acc h.
Proof.
  induction headers as [|h0 headers IH]; intros start acc Hnot; cbn [enumerate fold_left];
    [reflexivity|].
  rewrite IH by (intros H; apply Hnot; now right).
  destruct (negb (Py.truthy_str h0)); [reflexivity|].
  rewrite dict_get_set. destruct (String.eqb_spec h0 h) as [-> | _]; [|reflexivity].
  exfalso. apply Hnot. now left.
Qed.

Lemma record_fold_get (row : list string) (headers : list string) :
  forall (start : nat) (acc : pydict string) (i : nat) (h : string),
    headers !! i = Some h -> h <> "" ->
    (forall j h', (i < j)%nat -> headers !! j = Some h' -> h' <> h) ->
    dict_get
      (fold_left
         (fun record '(idx, header_name) =>
            if negb (Py.truthy_str header_name) then record
            else dict_set record header_name (nth idx row ""))
         (enumerate start headers) acc) h
    = Some (nth (start + i) row "").
Proof.
  induction headers as [|h0 headers IH]; intros start acc i h Hi Hh Hlast; [discriminate|].
  cbn [enumerate fold_left]. destruct i as [|i].
  - cbn in Hi. injection Hi as ->.
    rewrite record_fold_untouched.
    + apply truthy_str_spec in Hh. rewrite Hh. cbn [negb].
      rewrite dict_get_set, String.eqb_refl, Nat.add_0_r. reflexivity.
    + intros Hin. apply list_elem_of_In, list_elem_of_lookup_1 in Hin as [j Hj].
      apply (Hlast (S j) h); [lia | exact Hj | reflexivity].
  - cbn in Hi. rewrite (IH (S start) _ i h Hi Hh).
    + f_equal. f_equal. lia.
    + intros j h' Hj Hj'. apply (Hlast (S j) h'); [lia | exact Hj'].
Qed.

(** X21: the records of a sheet read with its header row. There is at most
    one record per data row. Each record has exactly the distinct non-empty
    stripped header names as keys and at least one value that is not blank (a
    row whose named cells are all blank gives no record). The value under a
    header name is the row's cell in the last column with that name, and the
    empty string when the row is too short to have that cell. *)
Theorem records_by_header (sheet : SheetData.t) (first : list string)
    (rest : list (list string)) :
  SheetData.rows sheet = first :: rest ->
  let headers := map Py.strip first in
  exists named,
    SheetData.records sheet true = map SheetData.Named named /\
    (length named <= length rest)%nat /\
    Forall
      (fun record =>
         NoDup (dict_keys record) /\
         (forall k, In k (dict_keys record) <-> k <> "" /\ In k headers) /\
         (exists v, In v (map snd record) /\ Py.strip v <> "") /\
         exists row,
           In row rest /\
           forall (i : nat) h,
             headers !! i = Some h -> h <> "" ->
             (forall j h', (i < j)%nat -> headers !! j = Some h' -> h' <> h) ->
             dict_get record h = Some (nth i row ""))
      named.
Proof.
  intros Hrows headers. unfold SheetData.records. rewrite Hrows. cbn [negb]. cbv zeta.
  fold headers.
  exists (List.filter SheetData.any_value (map (SheetData.record_of headers) rest)).
  split; [reflexivity|]. split.
  - etransitivity; [apply List.filter_length_le|]. now rewrite length_map.
  - apply Forall_forall. intros record Hrec.
    apply list_elem_of_In, filter_In in Hrec as [Hrec Hany].
    apply in_map_iff in Hrec as (row & <- & Hrow).
    unfold SheetData.record_of. split; [|split; [|split]].
    + apply record_fold_nodup. apply NoDup_nil_2.
    + intros k. rewrite record_fold_keys. cbn [dict_keys map In]. tauto.
    + unfold SheetData.any_value in Hany. apply existsb_exists in Hany as (v & Hv & Ht).
      exists v. split; [exact Hv | now apply truthy_str_spec].
    + exists row. split; [exact Hrow|]. intros i h Hi Hh Hlast.
      now rewrite (record_fold_get row headers 0 [] i h Hi Hh Hlast).
Qed.

Lemma records_by_header_witness :
  exists named,
    SheetData.records
      (SheetData.mk "Sheet1" [[" Model "; ""; "Size"]; ["4100-9701"; "x"]; [" "; "y"; ""]])
      true
    = map SheetData.Named named /\
    (length named <= 2)%nat.
Proof.
  destruct (records_by_header
              (SheetData.mk "Sheet1" [[" Model "; ""; "Size"]; ["4100-9701"; "x"]; [" "; "y"; ""]])
              [" Model "; ""; "Size"] [["4100-9701"; "x"]; [" "; "y"; ""]] eq_refl)
    as (named & E & Hn & _).
  exists named. split; [exact E | exact Hn].
Defined.

Example records_demo :
  SheetData.records
    (SheetData.mk "Sheet1" [[" Model "; ""; "Size"]; ["4100-9701"; "x"]; [" "; "y"; ""]])
    true
  = [SheetData.Named [("Model", "4100-9701"); ("Size", "")]].
Proof. reflexivity. Qed.


(** ** Merging lists without case-insensitive duplicates *)

Lemma merge_values_fold (universe : string -> Prop) (values : list string) :
  forall d : pydict string,
    (forall v, In v values -> universe v) ->
    NoDup (dict_keys d) ->
    (forall k v, In (k, v) d -> k = Py.lower v /\ v <> "" /\ universe v) ->
    let d' :=
      fold_left
        (fun d value => if Py.truthy_str value then dict_set d (Py.lower value) value else d)
        values d in
    NoDup (dict_keys d') /\
    (forall k v, In (k, v) d' -> k = Py.lower v /\ v <> "" /\ universe v) /\
    (forall k, In k (dict_keys d) -> In k (dict_keys d')) /\
    (forall v, In v values -> v <> "" -> In (Py.lower v) (dict_keys d')).
Proof.
  induction values as [|x values IH]; intros d Huni Hnodup Hinv; cbn [fold_left]; cbv zeta.
  - split; [exact Hnodup|]. split; [exact Hinv|]. split; [tauto | intros v []].
  - set (d1 := if Py.truthy_str x then dict_set d (Py.lower x) x else d).
    assert (Hn1 : NoDup (dict_keys d1)).
    { unfold d1. destruct (Py.truthy_str x); [now apply dict_set_keys_nodup | exact Hnodup]. }
    assert (Hi1 : forall k v, In (k, v) d1 -> k = Py.lower v /\ v <> "" /\ universe v).
    { unfold d1. destruct (Py.truthy_str x) eqn:E; [|exact Hinv].
      intros k v Hin. apply dict_set_In in Hin as [[-> ->] | Hin]; [|now apply Hinv].
      split; [reflexivity|]. split; [now apply truthy_str_spec | apply Huni; now left]. }
    assert (Hk1 : forall k, In k (dict_keys d) -> In k (dict_keys d1)).
    { unfold d1. destruct (Py.truthy_str x); [|tauto].
      intros k Hk. apply dict_set_keys_in. now right. }
    destruct (IH d1 (fun v Hv => Huni v (or_intror Hv)) Hn1 Hi1) as (H1 & H2 & H3 & H4).
    cbv zeta in H1, H2, H3, H4.
    split; [exact H1|]. split; [exact H2|]. split; [intros k Hk; apply H3, Hk1, Hk|].
    intros v [<- | Hv] Hne; [|now apply H4].
    apply H3. unfold d1. apply truthy_str_spec in Hne. rewrite Hne.
    apply dict_set_keys_in. now left.
Qed.

Lemma merge_additions_fold (universe : string -> Prop) (additions : list string) :
  forall d : pydict string,
    (forall v, In v additions -> universe v) ->
    NoDup (dict_keys d) ->
    (forall k v, In (k, v) d -> k = Py.lower v /\ v <> "" /\ universe v) ->
    let d' :=
      fold_left
        (fun d value =>
           if negb (Py.truthy_str value) then d
           else match dict_get d (Py.lower value) with
                | Some _ => d
                | None => dict_set d (Py.lower value) value
                end)
        additions d in
    NoDup (dict_keys d') /\
    (forall k v, In (k, v) d' -> k = Py.lower v /\ v <> "" /\ universe v) /\
    (forall v, In v additions -> v <> "" -> In (Py.lower v) (dict_keys d')) /\
    exists extras, d' = (d ++ extras)%list /\ Forall (fun kv => In (snd kv) additions) extras.
Proof.
  induction additions as [|x additions IH]; intros d Huni Hnodup Hinv; cbn [fold_left]; cbv zeta.
  - split; [exact Hnodup|]. split; [exact Hinv|]. split; [intros v []|].
    exists []. split; [now rewrite app_nil_r | constructor].
  - set (d1 := if negb (Py.truthy_str x) then d
               else match dict_get d (Py.lower x) with
                    | Some _ => d
                    | None => dict_set d (Py.lower x) x
                    end).
    assert (Hd1 : (d1 = d /\ (x <> "" -> In (Py.lower x) (dict_keys d))) \/
                  (d1 = (d ++ [(Py.lower x, x)])%list /\ x <> "" /\
                   ~ In (Py.lower x) (dict_keys d))).
    { unfold d1. destruct (Py.truthy_str x) eqn:E; cbn [negb].
      - destruct (dict_get d (Py.lower x)) as [v|] eqn:Eg.
        + left. split; [reflexivity|]. intros _. eapply dict_get_key, Eg.
        + right. assert (Hfresh : ~ In (Py.lower x) (dict_keys d)).
          { intros Hin. apply dict_key_get in Hin as [v Hv]. congruence. }
          split; [now apply dict_set_fresh|]. split; [now apply truthy_str_spec | exact Hfresh].
      - left. split; [reflexivity|]. intros Hne. apply truthy_str_spec in Hne. congruence. }
    clearbody d1.
    assert (Hn1 : NoDup (dict_keys d1)).
    { destruct Hd1 as [[-> _] | (-> & _ & Hfresh)]; [exact Hnodup|].
      unfold dict_keys. rewrite map_app. cbn [map fst]. apply NoDup_app.
      split; [exact Hnodup|]. split; [|apply NoDup_singleton].
      intros k Hk Hk'. apply list_elem_of_In in Hk, Hk'. destruct Hk' as [<- | []].
      now apply Hfresh. }
    assert (Hi1 : forall k v, In (k, v) d1 -> k = Py.lower v /\ v <> "" /\ universe v).
    { destruct Hd1 as [[-> _] | (-> & Hne & _)]; [exact Hinv|].
      intros k v Hin. apply in_app_or in Hin as [Hin | [[= <- <-] | []]]; [now apply Hinv|].
      split; [reflexivity|]. split; [exact Hne | apply Huni; now left]. }
    destruct (IH d1 (fun v Hv => Huni v (or_intror Hv)) Hn1 Hi1)
      as (H1 & H2 & H3 & extras & H4 & H5).
    cbv zeta in H1, H2, H3, H4.
    split; [exact H1|]. split; [exact H2|]. split.
    + intros v [<- | Hv] Hne; [|now apply H3].
      rewrite H4. unfold dict_keys. rewrite map_app. apply in_or_app. left.
      destruct Hd1 as [[-> Hk] | (-> & _ & _)]; [now apply Hk|].
      rewrite map_app. apply in_or_app. right. now left.
    + destruct Hd1 as [[-> _] | (-> & _ & _)].
      * exists extras. split; [exact H4|].
        eapply Forall_impl; [exact H5|]. intros kv Hkv. now right.
      * exists ((Py.lower x, x) :: extras). split; [now rewrite H4, <- app_assoc|].
        constructor; [now left|].
        eapply Forall_impl; [exact H5|]. intros kv Hkv. now right.
Qed.

Lemma merge_values_fresh (values : list string) :
  forall d : pydict string,
    Forall (fun v => v <> "") values ->
    NoDup (map Py.lower values) ->
    (forall v, In v values -> ~ In (Py.lower v) (dict_keys d)) ->
    fold_left
      (fun d value => if Py.truthy_str value then dict_set d (Py.lower value) value else d)
      values d
    = (d ++ map (fun v => (Py.lower v, v)) values)%list.
Proof.
  induction values as [|x values IH]; intros d Hne Hnodup Hfresh; cbn [fold_left map].
  - now rewrite app_nil_r.
  - apply Forall_cons in Hne as [Hx Hne]. cbn [map] in Hnodup.
    apply NoDup_cons in Hnodup as [Hnotin Hnodup].
    apply truthy_str_spec in Hx. rewrite Hx.
    rewrite dict_set_fresh by (apply Hfresh; now left).
    rewrite IH; [now rewrite <- app_assoc | exact Hne | exact Hnodup |].
    intros v Hv Hin. unfold dict_keys in Hin. rewrite map_app in Hin.
    apply in_app_or in Hin as [Hin | [E | []]].
    + apply (Hfresh v); [now right | exact Hin].
    + cbn [fst] in E. apply Hnotin. rewrite E. apply list_elem_of_In, in_map, Hv.
Qed.

(** X22: [_merge_unique] merges two lists of names without duplicates up to
    case. No two names of the result are equal ignoring case; every name of
    the result is a non-empty name of one of the lists; every non-empty name
    of either list is in the result up to case. When the first list has no
    empty name and no duplicate up to case, it is kept as it is and the new
    names of the second list follow it. *)
Theorem merge_unique_spec (values additions : list string) :
  let result := _merge_unique values additions in
  NoDup (map Py.lower result) /\
  Forall (fun r => r <> "" /\ (In r values \/ In r additions)) result /\
  (forall v, In v values \/ In v additions -> v <> "" ->
     In (Py.lower v) (map Py.lower result)) /\
  (Forall (fun v => v <> "") values -> NoDup (map Py.lower values) ->
   exists extras, result = (values ++ extras)%list /\ Forall (fun x => In x additions) extras).
Proof.
  cbv zeta. unfold _merge_unique. cbv zeta.
  set (universe := fun r => In r values \/ In r additions).
  destruct (merge_values_fold universe values [])
    as (Hn1 & Hi1 & _ & Hc1); [intros v Hv; now left | apply NoDup_nil_2 | intros k v [] |].
  cbv zeta in Hn1, Hi1, Hc1.
  match goal with
  | |- context [fold_left ?f values ?e] => set (d1 := fold_left f values e) in *
  end.
  destruct (merge_additions_fold universe additions d1)
    as (Hn2 & Hi2 & Hc2 & extras & He & Hex); [intros v Hv; now right | exact Hn1 | exact Hi1 |].
  cbv zeta in Hn2, Hi2, Hc2, He.
  match goal with
  | |- context [fold_left ?f additions d1] => set (d2 := fold_left f additions d1) in *
  end.
  assert (Hkeys : map Py.lower (map snd d2) = dict_keys d2).
  { unfold dict_keys. rewrite map_map. apply map_ext_in. intros [k v] Hin.
    cbn [fst snd]. symmetry. now apply (Hi2 k v). }
  split; [now rewrite Hkeys|]. split; [|split].
  - apply Forall_forall. intros r Hr. apply list_elem_of_In, in_map_iff in Hr as ([k v] & <- & Hin).
    cbn [snd]. destruct (Hi2 k v Hin) as (_ & Hne & Hu). now split.
  - intros v Hv Hne. rewrite Hkeys. destruct Hv as [Hv | Hv]; [|now apply Hc2].
    rewrite He. unfold dict_keys. rewrite map_app. apply in_or_app. left. now apply Hc1.
  - intros Hne Hnodup. exists (map snd extras). split.
    + rewrite He, map_app. f_equal. unfold d1.
      rewrite merge_values_fresh; [|exact Hne|exact Hnodup|intros v _ []].
      cbn [app]. rewrite map_map. cbn [snd]. apply map_id.
    + apply Forall_forall. intros x Hx. apply list_elem_of_In, in_map_iff in Hx as (kv & <- & Hin).
      rewrite Forall_forall in Hex. apply Hex. now apply list_elem_of_In.
Qed.

Example merge_unique_keeps_first_position :
  _merge_unique ["IDNet"; ""; "idnet"; "MX"] ["mx"; "IDNet2"; ""]
  = ["idnet"; "MX"; "IDNet2"].
Proof. reflexivity. Qed.


(** ** The greedy selector picks the cheapest module *)












Example greedy_prefers_priced_module :
  map ModuleDefinition.model_number
    (RuleEngine.greedy_sorted
       [ demo_module "B-free" "Relay Modules" 0 1;
         demo_module "C-dear" "Relay Modules" 900 1;
         demo_module "A-cheap" "Relay Modules" 500 4 ])
  = ["A-cheap"; "C-dear"; "B-free"].
Proof. vm_compute. reflexivity. Qed.


(** ** The catalogue loaded from the module workbook *)

Lemma load_row_shape (module_prices category_prices : gmap string Q)
    (d : pydict ModuleDefinition.t) (record : pydict string) :
  let key := Py.strip (RuleRepository.field record "Module Model Number") in
  (key = "" /\ RuleRepository.load_row module_prices category_prices d record = d) \/
  (key <> "" /\
   exists m,
     RuleRepository.load_row module_prices category_prices d record = dict_set d key m /\
     match dict_get d key with
     | Some old =>
         ModuleDefinition.model_number m = ModuleDefinition.model_number old /\
         (ModuleDefinition.internal_space old <= ModuleDefinition.internal_space m)%Q /\
         (ModuleDefinition.door_space old <= ModuleDefinition.door_space m)%Q /\
         ((0 < ModuleDefinition.price old)%Q ->
          ModuleDefinition.price m = ModuleDefinition.price old) /\
         ((0 < ModuleDefinition.price m)%Q \/
          ModuleDefinition.price m = ModuleDefinition.price old) /\
         (ModuleDefinition.description old <> "" ->
          ModuleDefinition.description m = ModuleDefinition.description old)
     | None => ModuleDefinition.model_number m = key
     end).
Proof.
  cbv zeta. unfold RuleRepository.load_row. cbv zeta.
  set (key := Py.strip (RuleRepository.field record "Module Model Number")).
  destruct (Py.truthy_str key) eqn:Ek; cbn [negb].
  - right. split; [now apply truthy_str_spec|].
    destruct (_derive_space_requirements key _ _) as [internal door].
    destruct (dict_get d key) as [old|] eqn:Eg.
    + eexists. split; [reflexivity|]. cbn [ModuleDefinition.model_number
        ModuleDefinition.internal_space ModuleDefinition.door_space ModuleDefinition.price
        ModuleDefinition.description].
      split; [reflexivity|]. split; [apply Qmax_ub_l|]. split; [apply Qmax_ub_l|].
      split; [|split].
      * intros Hpos. destruct (Qle_bool (ModuleDefinition.price old) 0) eqn:E; [|reflexivity].
        apply Qle_bool_iff in E. exfalso. lra.
      * destruct (Qle_bool (ModuleDefinition.price old) 0 && Py.Qlt_b 0 _) eqn:E;
          [|now right].
        left. apply andb_prop in E as [_ E]. now apply Qlt_b_true in E.
      * intros Hd. unfold RuleRepository.fill_str.
        apply truthy_str_spec in Hd. rewrite Hd, andb_false_r. reflexivity.
    + eexists. split; reflexivity.
  - left. split; [|reflexivity].
    destruct (String.eqb_spec key ""); [assumption|].
    apply truthy_str_spec in n. congruence.
Qed.

Lemma load_row_invariant (module_prices category_prices : gmap string Q)
    (d : pydict ModuleDefinition.t) (record : pydict string) :
  keyed_by_model d -> NoDup (dict_keys d) -> (forall k, In k (dict_keys d) -> k <> "") ->
  let d' := RuleRepository.load_row module_prices category_prices d record in
  keyed_by_model d' /\ NoDup (dict_keys d') /\ (forall k, In k (dict_keys d') -> k <> "") /\
  (forall k, In k (dict_keys d) -> In k (dict_keys d')) /\
  (Py.strip (RuleRepository.field record "Module Model Number") <> "" ->
   In (Py.strip (RuleRepository.field record "Module Model Number")) (dict_keys d')).
Proof.
  intros Hkeyed Hnodup Hne. cbv zeta.
  destruct (load_row_shape module_prices category_prices d record)
    as [[Hk ->] | (Hk & m & -> & Hm)].
  - split; [exact Hkeyed|]. split; [exact Hnodup|]. split; [exact Hne|]. split; [tauto|].
    intros H. contradiction.
  - set (key := Py.strip (RuleRepository.field record "Module Model Number")) in *.
    split; [|split; [|split; [|split]]].
    + intros k m' Hin. apply dict_set_In in Hin as [[-> ->] | Hin]; [|now apply Hkeyed].
      destruct (dict_get d key) as [old|] eqn:Eg; [|now symmetry].
      destruct Hm as [-> _]. apply dict_get_In in Eg. now apply Hkeyed.
    + now apply dict_set_keys_nodup.
    + intros k Hin. apply dict_set_keys in Hin as [-> | Hin]; [exact Hk | now apply Hne].
    + intros k Hin. apply dict_set_keys_in. now right.
    + intros _. apply dict_set_keys_in. now left.
Qed.

Lemma load_rows_invariant (module_prices category_prices : gmap string Q)
    (records : list (pydict string)) :
  let d := RuleRepository.load_rows module_prices category_prices records in
  keyed_by_model d /\ NoDup (dict_keys d) /\ (forall k, In k (dict_keys d) -> k <> "") /\
  (forall record, In record records ->
     Py.strip (RuleRepository.field record "Module Model Number") <> "" ->
     In (Py.strip (RuleRepository.field record "Module Model Number")) (dict_keys d)).
Proof.
  cbv zeta. unfold RuleRepository.load_rows.
  enough (H : forall d0 : pydict ModuleDefinition.t,
             keyed_by_model d0 -> NoDup (dict_keys d0) ->
             (forall k, In k (dict_keys d0) -> k <> "") ->
             let d := fold_left (RuleRepository.load_row module_prices category_prices)
                        records d0 in
             keyed_by_model d /\ NoDup (dict_keys d) /\
             (forall k, In k (dict_keys d) -> k <> "") /\
             (forall k, In k (dict_keys d0) -> In k (dict_keys d)) /\
             (forall record, In record records ->
                Py.strip (RuleRepository.field record "Module Model Number") <> "" ->
                In (Py.strip (RuleRepository.field record "Module Model Number"))
                   (dict_keys d))).
  { destruct (H []) as (H1 & H2 & H3 & _ & H5);
      [intros k m [] | apply NoDup_nil_2 | intros k [] |].
    cbv zeta in H1, H2, H3, H5. repeat split; assumption. }
  induction records as [|record records IH]; intros d0 Hkeyed Hnodup Hne; cbn [fold_left];
    cbv zeta.
  - split; [exact Hkeyed|]. split; [exact Hnodup|]. split; [exact Hne|]. split; [tauto|].
    intros record [].
  - destruct (load_row_invariant module_prices category_prices d0 record Hkeyed Hnodup Hne)
      as (H1 & H2 & H3 & H4 & H5). cbv zeta in H1, H2, H3, H4, H5.
    destruct (IH _ H1 H2 H3) as (I1 & I2 & I3 & I4 & I5). cbv zeta in I1, I2, I3, I4, I5.
    split; [exact I1|]. split; [exact I2|]. split; [exact I3|]. split.
    + intros k Hk. apply I4, H4, Hk.
    + intros r [<- | Hr] Hkey; [apply I4, H5, Hkey | now apply I5].
Qed.

Lemma merge_synthetic_invariant (d : pydict ModuleDefinition.t) (s : ModuleDefinition.t) :
  ModuleDefinition.model_number s <> "" ->
  NoDup (dict_keys d) -> (forall k, In k (dict_keys d) -> k <> "") ->
  NoDup (dict_keys (RuleRepository.merge_synthetic d s)) /\
  (forall k, In k (dict_keys (RuleRepository.merge_synthetic d s)) -> k <> "").
Proof.
  intros Hs Hnodup Hne. unfold RuleRepository.merge_synthetic.
  destruct (dict_get d (ModuleDefinition.model_number s)).
  - split; [now apply dict_set_keys_nodup|].
    intros k Hin. apply dict_set_keys in Hin as [-> | Hin]; [exact Hs | now apply Hne].
  - split; [now apply dict_set_keys_nodup|].
    intros k Hin. apply dict_set_keys in Hin as [-> | Hin]; [exact Hs | now apply Hne].
Qed.

Lemma load_modules_invariant (module_lookup : pydict ModuleDefinition.t) :
  keyed_by_model module_lookup -> NoDup (dict_keys module_lookup) ->
  (forall k, In k (dict_keys module_lookup) -> k <> "") ->
  let mods := RuleRepository._load_modules module_lookup in
  NoDup (map ModuleDefinition.model_number mods) /\
  (forall m, In m mods -> ModuleDefinition.model_number m <> "") /\
  (forall k, In k (dict_keys module_lookup) -> In k (map ModuleDefinition.model_number mods)).
Proof.
  intros Hkeyed Hnodup Hne. cbv zeta. unfold RuleRepository._load_modules.
  assert (Hsyn : Forall (fun s => ModuleDefinition.model_number s <> "") SYNTHETIC_MODULES).
  { repeat constructor; discriminate. }
  revert Hsyn. generalize SYNTHETIC_MODULES as synthetic. intros synthetic Hsyn.
  enough (H : forall d, keyed_by_model d -> NoDup (dict_keys d) ->
             (forall k, In k (dict_keys d) -> k <> "") ->
             let d' := fold_left RuleRepository.merge_synthetic synthetic d in
             keyed_by_model d' /\ NoDup (dict_keys d') /\
             (forall k, In k (dict_keys d') -> k <> "") /\
             (forall k, In k (dict_keys d) -> In k (dict_keys d'))).
  { destruct (H module_lookup Hkeyed Hnodup Hne) as (H1 & H2 & H3 & H4).
    cbv zeta in H1, H2, H3, H4.
    set (d' := fold_left RuleRepository.merge_synthetic synthetic module_lookup) in *.
    assert (Hmap : map ModuleDefinition.model_number (map snd d') = dict_keys d').
    { unfold dict_keys. rewrite map_map. apply map_ext_in. intros [k m] Hin.
      cbn [fst snd]. symmetry. now apply H1. }
    rewrite Hmap. split; [exact H2|]. split; [|exact H4].
    intros m Hm. apply in_map_iff in Hm as ([k m'] & <- & Hin). cbn [snd].
    rewrite <- (H1 k m' Hin). apply H3. unfold dict_keys. apply in_map_iff.
    now exists (k, m'). }
  clear Hkeyed Hnodup Hne.
  induction synthetic as [|s synthetic IH]; intros d Hkeyed Hnodup Hne; cbn [fold_left];
    cbv zeta.
  - repeat split; try assumption. tauto.
  - apply Forall_cons in Hsyn as [Hs Hsyn].
    destruct (merge_synthetic_invariant d s Hs Hnodup Hne) as [Hn' Hne'].
    destruct (IH Hsyn _ (merge_synthetic_keyed d s Hkeyed) Hn' Hne') as (I1 & I2 & I3 & I4).
    cbv zeta in I1, I2, I3, I4.
    split; [exact I1|]. split; [exact I2|]. split; [exact I3|].
    intros k Hk. apply I4, merge_synthetic_keys. now right.
Qed.

Lemma module_index_spec (mods : list ModuleDefinition.t) (k : string)
    (m : ModuleDefinition.t) :
  NoDup (map ModuleDefinition.model_number mods) ->
  RuleRepository.build_module_index mods !! k = Some m
  <-> In m mods /\ ModuleDefinition.model_number m = k.
Proof.
  unfold RuleRepository.build_module_index. intros Hnodup.
  enough (H : forall acc : gmap string ModuleDefinition.t,
             fold_left (fun idx m => <[ModuleDefinition.model_number m := m]> idx) mods acc
               !! k = Some m
             <-> (In m mods /\ ModuleDefinition.model_number m = k) \/
                 (acc !! k = Some m /\ ~ In k (map ModuleDefinition.model_number mods))).
  { rewrite H, lookup_empty. split; [intros [? | [[=] _]]; assumption | now left]. }
  induction mods as [|x mods IH]; intros acc; cbn [fold_left map In].
  - split; [intros H; right; tauto | intros [[[] _] | [H _]]; exact H].
  - cbn [map] in Hnodup. apply NoDup_cons in Hnodup as [Hnotin Hnodup].
    rewrite (IH Hnodup). split.
    + intros [[Hin Hk] | [Hl Hn]]; [left; tauto|].
      destruct (decide (ModuleDefinition.model_number x = k)) as [E | E].
      * rewrite E, lookup_insert_eq in Hl. injection Hl as <-. left. tauto.
      * rewrite lookup_insert_ne in Hl by exact E. right. split; [exact Hl|].
        intros [H | H]; contradiction.
    + intros [[[<- | Hin] Hk] | [Hl Hn]].
      * right. rewrite Hk, lookup_insert_eq. split; [reflexivity|].
        intros Hin. apply Hnotin. rewrite Hk. now apply list_elem_of_In.
      * left. tauto.
      * right. rewrite lookup_insert_ne by tauto. split; [exact Hl | tauto].
Qed.

(** X24: the catalogue loaded from the module workbook is consistent. The
    modules have distinct, non-empty model numbers; [get_module] finds exactly
    the modules of the catalogue, each under its own model number; every
    record with a model number is in the catalogue under its stripped model
    number, and so is every synthetic enclosure module. *)
Theorem workbook_catalogue_consistent (module_prices category_prices : gmap string Q)
    (records : list (pydict string)) (rules : list PlacementRule.t) :
  let repository :=
    RuleRepository.mk
      (RuleRepository._load_modules
         (RuleRepository.load_rows module_prices category_prices records))
      rules module_prices category_prices in
  NoDup (map ModuleDefinition.model_number (RuleRepository.modules repository)) /\
  (forall m, In m (RuleRepository.modules repository) ->
     ModuleDefinition.model_number m <> "") /\
  (forall k m, RuleRepository.get_module repository k = Some m
     <-> In m (RuleRepository.modules repository) /\ ModuleDefinition.model_number m = k) /\
  (forall record, In record records ->
     Py.strip (RuleRepository.field record "Module Model Number") <> "" ->
     is_Some (RuleRepository.get_module repository
                (Py.strip (RuleRepository.field record "Module Model Number")))) /\
  (forall s, In s SYNTHETIC_MODULES ->
     is_Some (RuleRepository.get_module repository (ModuleDefinition.model_number s))).
Proof.
  cbv zeta.
  destruct (load_rows_invariant module_prices category_prices records)
    as (Hkeyed & Hnodup & Hne & Hcover). cbv zeta in Hkeyed, Hnodup, Hne, Hcover.
  destruct (load_modules_invariant _ Hkeyed Hnodup Hne) as (Hn & Hnonempty & Hkeep).
  cbv zeta in Hn, Hnonempty, Hkeep.
  unfold RuleRepository.get_module, RuleRepository.module_index.
  cbn [RuleRepository.modules].
  split; [exact Hn|]. split; [exact Hnonempty|]. split; [|split].
  - intros k m. now apply module_index_spec.
  - intros record Hrec Hkey. apply module_index_lookup, Hkeep, Hcover; assumption.
  - intros s Hs. apply module_index_lookup, load_modules_has_synthetic; [exact Hkeyed|].
    now apply in_map.
Qed.

Lemma load_rows_grow (module_prices category_prices : gmap string Q)
    (later : list (pydict string)) :
  forall (d : pydict ModuleDefinition.t) (k : string) (m1 : ModuleDefinition.t),
    dict_get d k = Some m1 ->
    exists m2,
      dict_get (fold_left (RuleRepository.load_row module_prices category_prices) later d) k
      = Some m2 /\
      ModuleDefinition.model_number m2 = ModuleDefinition.model_number m1 /\
      (ModuleDefinition.internal_space m1 <= ModuleDefinition.internal_space m2)%Q /\
      (ModuleDefinition.door_space m1 <= ModuleDefinition.door_space m2)%Q /\
      ((0 < ModuleDefinition.price m1)%Q ->
       ModuleDefinition.price m2 = ModuleDefinition.price m1) /\
      (ModuleDefinition.description m1 <> "" ->
       ModuleDefinition.description m2 = ModuleDefinition.description m1).
Proof.
  induction later as [|record later IH]; intros d k m1 Hget; cbn [fold_left].
  - exists m1. split; [exact Hget|]. split; [reflexivity|].
    split; [apply Qle_refl|]. split; [apply Qle_refl|]. split; reflexivity.
  - destruct (load_row_shape module_prices category_prices d record)
      as [[_ ->] | (Hkey & m & -> & Hm)]; [now apply IH|].
    set (key := Py.strip (RuleRepository.field record "Module Model Number")) in *.
    destruct (String.eqb_spec key k) as [E | E].
    + subst k. rewrite Hget in Hm. destruct Hm as (Hmn & Hi & Hd & Hp & _ & Hdesc).
      destruct (IH (dict_set d key m) key m) as (m2 & G & Gmn & Gi & Gd & Gp & Gdesc).
      { now rewrite dict_get_set, String.eqb_refl. }
      exists m2. split; [exact G|]. split; [congruence|].
      split; [eapply Qle_trans; eassumption|]. split; [eapply Qle_trans; eassumption|].
      split.
      * intros Hpos. specialize (Hp Hpos). rewrite Gp; [exact Hp|]. now rewrite Hp.
      * intros Hne. specialize (Hdesc Hne). rewrite Gdesc; [exact Hdesc|]. now rewrite Hdesc.
    + apply IH. rewrite dict_get_set.
      destruct (String.eqb_spec key k); [contradiction | exact Hget].
Qed.

(** X25: more rows never take anything away. A module loaded from the first
    rows of the workbook is still in the lookup after any further rows, under
    the same model number; its internal and door footprints have not shrunk, a
    positive price has not changed, and a non-empty description has not
    changed. *)
Theorem later_rows_only_add (module_prices category_prices : gmap string Q)
    (first later : list (pydict string)) (k : string) (m1 : ModuleDefinition.t) :
  dict_get (RuleRepository.load_rows module_prices category_prices first) k = Some m1 ->
  exists m2,
    dict_get (RuleRepository.load_rows module_prices category_prices (first ++ later)) k
    = Some m2 /\
    ModuleDefinition.model_number m2 = ModuleDefinition.model_number m1 /\
    (ModuleDefinition.internal_space m1 <= ModuleDefinition.internal_space m2)%Q /\
    (ModuleDefinition.door_space m1 <= ModuleDefinition.door_space m2)%Q /\
    ((0 < ModuleDefinition.price m1)%Q ->
     ModuleDefinition.price m2 = ModuleDefinition.price m1) /\
    (ModuleDefinition.description m1 <> "" ->
     ModuleDefinition.description m2 = ModuleDefinition.description m1).
Proof.
  intros Hget. unfold RuleRepository.load_rows. rewrite fold_left_app.
  now apply load_rows_grow.
Qed.

Lemma later_rows_only_add_witness :
  exists m2,
    dict_get
      (RuleRepository.load_rows ∅ ∅
         ([[("Module Model Number", " 4100-0001 "); ("Physical Size", "2 blocks");
            ("Mounted ON", "internal")]]
          ++ [[("Module Model Number", "4100-0001"); ("Physical Size", "1 block");
               ("Mounted ON", "internal"); ("Description", "relay card")]]))
      "4100-0001"
    = Some m2 /\
    ModuleDefinition.model_number m2 = "4100-0001".
Proof.
  edestruct (later_rows_only_add ∅ ∅
               [[("Module Model Number", " 4100-0001 "); ("Physical Size", "2 blocks");
                 ("Mounted ON", "internal")]]
               [[("Module Model Number", "4100-0001"); ("Physical Size", "1 block");
                 ("Mounted ON", "internal"); ("Description", "relay card")]]
               "4100-0001")
    as (m2 & H & Hmn & _); [vm_compute; reflexivity|].
  exists m2. split; [exact H | exact Hmn].
Defined.

Example duplicate_rows_merge :
  map (fun m => (ModuleDefinition.model_number m, ModuleDefinition.description m,
                 ModuleDefinition.internal_space m))
    (map snd
       (RuleRepository.load_rows ∅ ∅
          [ [("Module Model Number", " 4100-0001 "); ("Physical Size", "2 blocks");
             ("Mounted ON", "internal")];
            [("Module Model Number", ""); ("Description", "no model number")];
            [("Module Model Number", "4100-0001"); ("Physical Size", "1 block");
             ("Mounted ON", "internal"); ("Description", "relay card")] ]))
  = [("4100-0001", "relay card", 2%Q)].
Proof. vm_compute. reflexivity. Qed.

Example safe_float_values :
  _safe_float "0.5 A" = Some (5 # 10) /\ _safe_float "-12" = Some (- (12))%Q /\
  _safe_float "n/a" = None /\ _safe_float "1-2 A" = None /\ _safe_float "5." = Some 5%Q.
Proof. repeat split; vm_compute; reflexivity. Qed.


(** ** From the answers to the constraints *)

(** X26: the constraints that the answers give. Exactly one of the two
    protocol preferences is set: MX when any of questions 2, 3, 5, 6, 7 is
    answered yes, IDNet2 otherwise, and the protocol entry names the same
    protocol. The voice-evacuation entry is true exactly when question 8 or 10
    is answered yes, and the audio type entry is then analog and is absent
    otherwise: no answer leads to another audio type. *)
Theorem constraints_from_answers (self_answers : ProjectAnswers.t)
    (answers_dict : gmap Z string) :
  let constraints :=
    QandAProcessor.to_cpsat_constraints
      (QandAProcessor.process_answers self_answers answers_dict) in
  let yes := fun k => QandAProcessor.get_is (QandAProcessor.normalise answers_dict) k "yes" in
  let mx := yes 2 || yes 3 || yes 5 || yes 6 || yes 7 in
  let voice := yes 8 || yes 10 in
  (forall k, yes k = true <-> answered_yes answers_dict k) /\
  constraints !! "prefer_mx" = Some (VBool mx) /\
  constraints !! "prefer_idnet2" = Some (VBool (negb mx)) /\
  constraints !! "protocol" = Some (VStr (if mx then "mx" else "idnet2")) /\
  constraints !! "voice_evacuation" = Some (VBool voice) /\
  constraints !! "audio_type" = (if voice then Some (VStr "analog") else None).
Proof.
  cbv zeta. split; [intros k; apply answered_yes_spec|].
  unfold QandAProcessor.to_cpsat_constraints.
  cbn [QandAProcessor.process_answers ProjectAnswers.protocol ProjectAnswers.audio_type].
  set (yes := fun k => QandAProcessor.get_is (QandAProcessor.normalise answers_dict) k "yes").
  change (QandAProcessor.get_is (QandAProcessor.normalise answers_dict) 2 "yes") with (yes 2).
  change (QandAProcessor.get_is (QandAProcessor.normalise answers_dict) 3 "yes") with (yes 3).
  change (QandAProcessor.get_is (QandAProcessor.normalise answers_dict) 5 "yes") with (yes 5).
  change (QandAProcessor.get_is (QandAProcessor.normalise answers_dict) 6 "yes") with (yes 6).
  change (QandAProcessor.get_is (QandAProcessor.normalise answers_dict) 7 "yes") with (yes 7).
  change (QandAProcessor.get_is (QandAProcessor.normalise answers_dict) 8 "yes") with (yes 8).
  change (QandAProcessor.get_is (QandAProcessor.normalise answers_dict) 10 "yes") with (yes 10).
  generalize (yes 2 || yes 3 || yes 5 || yes 6 || yes 7) as mx.
  generalize (yes 8) as q8, (yes 10) as q10. clearbody yes.
  intros q10 q8 mx.
  destruct mx, q8, q10; cbn [AudioType_eqb orb negb];
    rewrite ?lookup_insert_eq, ?lookup_insert_ne by discriminate;
    repeat split; reflexivity.
Qed.


(** ** Models outside the catalogue *)

Lemma space_totals_known (repository : RuleRepository.t) (sel : pydict Z) :
  RuleEngine.space_totals repository sel
  = RuleEngine.space_totals repository
      (List.filter
         (fun kv : string * Z =>
            match RuleRepository.get_module repository (fst kv) with
            | Some _ => true
            | None => false
            end)
         sel).
Proof.
  unfold RuleEngine.space_totals. generalize (0%Q, 0%Q).
  induction sel as [|[k q] sel IH]; intros acc; cbn [List.filter fold_left fst]; [reflexivity|].
  destruct acc as [internal door].
  destruct (RuleRepository.get_module repository k) as [m|] eqn:E; cbn [fold_left].
  - rewrite E. apply IH.
  - apply IH.
Qed.

(** X27: a selected model that is not in the catalogue takes no space but has
    a cost. The space usage and the bay allocation of a selection are those of
    its catalogue models alone; the cost estimated for a model outside the
    catalogue is its override price, or 1000 when it has none, times the
    quantity. *)
Theorem unknown_models_cost_but_take_no_space (repository : RuleRepository.t)
    (sel : pydict Z) :
  RuleEngine._summarise_space_usage repository sel
  = RuleEngine._summarise_space_usage repository
      (List.filter
         (fun kv : string * Z =>
            match RuleRepository.get_module repository (fst kv) with
            | Some _ => true
            | None => false
            end)
         sel) /\
  (forall k q, RuleRepository.get_module repository k = None ->
     RuleRepository.estimate_cost repository k q
     = (default 1000 (RuleRepository.module_prices repository !! k) * inject_Z q)%Q).
Proof.
  split.
  - unfold RuleEngine._summarise_space_usage. now rewrite <- space_totals_known.
  - intros k q Hk. unfold RuleRepository.estimate_cost. cbv zeta. rewrite Hk.
    destruct (RuleRepository.module_prices repository !! k); reflexivity.
Qed.

(** ** Relays and the 220 VAC door holder *)

(** X28: how many relays the plan is sized for. The relay count of the
    requirements is the control relays of the BOQ plus the smoke-management
    relays of the answers, raised to 8 with fire-damper control, plus one for
    a 220 VAC door holder. The plan adds one more for the door holder: it
    holds [max(1, ceil(max(8, n) / 8))] zone relay modules 4100-5013 with
    fire-damper control, else [max(1, ceil(n / 3))] relay modules 4100-6033
    when [n] is not zero, where [n] is the relay count plus one with the door
    holder and the relay count without. *)
Theorem plan_relays_with_door_holder (answers : ProjectAnswers.t) (boq : DeviceBOQ.t) :
  let requirements := RuleEngine.build_requirements answers boq in
  let plan := RuleEngine._derive_specific_modules requirements in
  let damper :=
    ProjectAnswers.fire_damper_feedback answers
    || ProjectAnswers.fire_damper_led_indication answers in
  let holder := String.eqb (ProjectAnswers.door_holder_voltage answers) "220vac" in
  let asked :=
    DeviceBOQ.control_relay boq + ProjectAnswers.smoke_management_relay_count answers in
  let base := if damper then Z.max asked 8 else asked in
  let n := base + (if holder then 2 else 0) in
  PanelRequirements.relay_count requirements = base + (if holder then 1 else 0) /\
  dict_get plan "4100-5013"
  = (if damper then Some (Z.max 1 (Py.ceil (Py.truediv (Z.max 8 n) 8))) else None) /\
  dict_get plan "4100-6033"
  = (if damper then None
     else if RuleEngine.nonzero n then Some (Z.max 1 (Py.ceil (Py.truediv n 3))) else None).
Proof.
  cbv zeta. unfold RuleEngine._derive_specific_modules. cbv zeta.
  cbn [RuleEngine.build_requirements PanelRequirements.relay_count
       PanelRequirements.has_door_holder_220vac PanelRequirements.fire_damper_control].
  set (damper := ProjectAnswers.fire_damper_feedback answers
                 || ProjectAnswers.fire_damper_led_indication answers).
  set (holder := String.eqb (ProjectAnswers.door_holder_voltage answers) "220vac").
  set (asked := DeviceBOQ.control_relay boq
                + ProjectAnswers.smoke_management_relay_count answers).
  set (base := if damper then Z.max asked 8 else asked).
  set (count := if holder then base + 1 else base).
  set (total := if holder then Z.max count (count + 1) else count).
  assert (Hcount : count = base + (if holder then 1 else 0))
    by (unfold count; destruct holder; lia).
  assert (Htotal : total = base + (if holder then 2 else 0))
    by (unfold total, count; destruct holder; lia).
  rewrite <- Htotal. clearbody total count base.
  split; [exact Hcount|].
  assert (Hq8 : (Z.max 1 (Py.ceil (Py.truediv (Z.max 8 total) 8)) <=? 0) = false)
    by (apply Z.leb_gt; lia).
  assert (Hq3 : (Z.max 1 (Py.ceil (Py.truediv total 3)) <=? 0) = false)
    by (apply Z.leb_gt; lia).
  destruct damper; [|destruct (RuleEngine.nonzero total)]; split;
    rewrite ?add_get_eq, ?Hq8, ?Hq3; unfold dict_get_or; peel_outer;
    cbn [dict_get default from_option id]; try reflexivity; f_equal; lia.
Qed.


(** ** Capacity of a divided project *)





(** ** The model handed to the solver *)

(** X30: the model that [_build_solver] hands to the solver is well formed.
    There is one variable per catalogue module, with bounds 0 and 20. Every
    constraint is over a non-empty list of declared variables, those of the
    catalogue modules listed under a demanded category, with that category's
    demand as bound (no lookup of a variable can fail). The objective has one
    term per catalogue module, with a weight of at least 1. *)
Theorem solver_model_well_formed (repository : RuleRepository.t) (demand : pydict Z) :
  let model := RuleEngine.build_model repository demand in
  let declared := map fst (CpSat.int_vars model) in
  declared = map ModuleDefinition.model_number (RuleRepository.modules repository) /\
  (forall v lb ub, In (v, (lb, ub)) (CpSat.int_vars model) -> lb = 0 /\ ub = 20) /\
  (forall vars bound, In (vars, bound) (CpSat.constraints model) ->
     vars <> [] /\
     (forall v, In v vars -> In v declared) /\
     exists c, In (c, bound) demand /\
       vars = map ModuleDefinition.model_number
                (dict_get_or (RuleRepository.category_to_modules repository) c [])) /\
  map snd (CpSat.objective model) = declared /\
  (forall w v, In (w, v) (CpSat.objective model) -> 1 <= w).
Proof.
  cbv zeta. cbn [RuleEngine.build_model CpSat.int_vars CpSat.constraints CpSat.objective].
  assert (Hdecl : map fst (map (fun module => (ModuleDefinition.model_number module, (0, 20)))
                             (RuleRepository.modules repository))
                  = map ModuleDefinition.model_number (RuleRepository.modules repository)).
  { rewrite map_map. reflexivity. }
  rewrite Hdecl. split; [reflexivity|]. split; [|split; [|split]].
  - intros v lb ub Hin. apply in_map_iff in Hin as (m & [= _ <- <-] & _). now split.
  - intros vars bound Hin. unfold RuleEngine.coverage_constraints in Hin.
    apply in_flat_map in Hin as ([c q] & Hc & Hin).
    destruct (dict_get_or (RuleRepository.category_to_modules repository) c []) as [|m ms] eqn:E;
      [destruct Hin|].
    destruct Hin as [[= <- <-] | []].
    split; [discriminate|]. split.
    + intros v Hv. change (In v (map ModuleDefinition.model_number (m :: ms))) in Hv.
      apply in_map_iff in Hv as (m' & <- & Hm'). apply in_map.
      rewrite <- E in Hm'. unfold RuleRepository.category_to_modules in Hm'.
      now apply category_index_members in Hm' as [Hm' _].
    + exists c. split; [exact Hc|]. now rewrite E.
  - rewrite map_map. reflexivity.
  - intros w v Hin. apply in_map_iff in Hin as (m & [= <- _] & _).
    unfold RuleEngine.objective_weight. lia.
Qed.
